(** * SMAD Picklebot: command interpretation and confirmation gating

    A shallow embedding of [src/webhook/picklebot/main.py] and the
    properties its specification states about it.

    Conventions of the embedding.
    - Python [str] values are [string]s; a character is a code point below
      256, with Python's own classification of whitespace, of case and of
      word characters on that range.
    - Values that come out of a JSON parser (request bodies, the answer of
      the language model) are [json] trees; dictionaries are association
      lists read by their first binding.
    - Exceptions are explicit: a computation that can raise returns
      an [outcome]; the outbound HTTP traffic is an explicit list of posts.
    - Everything the process reads from outside (environment variables,
      the HTTP answers, the spreadsheet snapshot, the clock, the
      interpreter's rendering of numbers and containers, and its sort of a
      list whose keys do not all compare) is a field of [World]. *)

From Stdlib Require Import String Ascii List Bool Arith NArith ZArith Lia.
From Stdlib Require Import PrimFloat SpecFloat FloatOps FloatAxioms.
From Stdlib Require Import Permutation Sorted.
From Stdlib Require DecimalString.
Import ListNotations.

Local Open Scope list_scope.
Local Open Scope string_scope.

(** ** Python's [str] methods used by the bot *)

Module PyStr.

(** [str.isspace] on one character, which is also what [str.strip] and
    the regular expression class [\s] use. *)
Definition is_space (c : ascii) : bool :=
  let n := N_of_ascii c in
  (((9 <=? n) && (n <=? 13)) || ((28 <=? n) && (n <=? 32))
   || (n =? 133) || (n =? 160))%N.

(** The character that [str.lower] gives. *)
Definition lower_char (c : ascii) : ascii :=
  let n := N_of_ascii c in
  if (((65 <=? n) && (n <=? 90))
      || ((192 <=? n) && (n <=? 222) && negb (n =? 215)))%N
  then ascii_of_N (n + 32) else c.

(** The class [\w] of the [re] module: [str.isalnum] or an underscore. *)
Definition is_word (c : ascii) : bool :=
  let n := N_of_ascii c in
  (((48 <=? n) && (n <=? 57)) || ((65 <=? n) && (n <=? 90))
   || (n =? 95) || ((97 <=? n) && (n <=? 122))
   || (n =? 170) || (n =? 178) || (n =? 179) || (n =? 181)
   || (n =? 185) || (n =? 186) || ((188 <=? n) && (n <=? 190))
   || ((192 <=? n) && (n <=? 214)) || ((216 <=? n) && (n <=? 246))
   || (248 <=? n))%N.

(** [str.lower] on a text of code points below 256: there the lower case
    of a text is that of its characters, one by one. (On other text
    [str.lower] can depend on the neighbours of a character and change the
    length; such text is outside this development.) *)
Fixpoint lower (s : string) : string :=
  match s with
  | EmptyString => EmptyString
  | String c s' => String (lower_char c) (lower s')
  end.

Fixpoint lstrip (s : string) : string :=
  match s with
  | EmptyString => EmptyString
  | String c s' => if is_space c then lstrip s' else s
  end.

Fixpoint rstrip (s : string) : string :=
  match s with
  | EmptyString => EmptyString
  | String c s' =>
      match rstrip s' with
      | EmptyString => if is_space c then EmptyString else String c EmptyString
      | r => String c r
      end
  end.

Definition strip (s : string) : string := rstrip (lstrip s).

(** [s.startswith(p)] *)
Definition startswith (s p : string) : bool := String.prefix p s.

(** [sub in s] *)
Fixpoint contains (sub s : string) : bool :=
  match s with
  | EmptyString => String.prefix sub EmptyString
  | String _ s' => String.prefix sub s || contains sub s'
  end.

(** [s[n:]] *)
Fixpoint drop (n : nat) (s : string) : string :=
  match n, s with
  | O, _ => s
  | S _, EmptyString => EmptyString
  | S k, String _ s' => drop k s'
  end.

(** One left-to-right pass that deletes the matches of a pattern of
    [n > 0] characters: [hit s] says that the pattern matches at the
    head of [s]; [skip] counts the characters of the current match that
    are still to be dropped. *)
Fixpoint delete_matches (hit : string -> bool) (n skip : nat) (s : string)
  : string :=
  match s with
  | EmptyString => EmptyString
  | String c s' =>
      match skip with
      | S k => delete_matches hit n k s'
      | O =>
          if hit s then delete_matches hit n (pred n) s'
          else String c (delete_matches hit n O s')
      end
  end.

(** [s.replace(old, '')] *)
Definition remove (old s : string) : string :=
  match old with
  | EmptyString => s
  | _ => delete_matches (String.prefix old) (String.length old) 0 s
  end.

(** [re.compile(re.escape(pat), re.IGNORECASE).sub('', s)]: a character
    of the text matches the pattern's when both have the same lower
    case. *)
Definition ci_hit (pat s : string) : bool := String.prefix (lower pat) (lower s).

Definition re_remove_ignorecase (pat s : string) : string :=
  match pat with
  | EmptyString => s
  | _ => delete_matches (ci_hit pat) (String.length pat) 0 s
  end.

(** [re.sub(r'\s+', ' ', s)]: [in_run] holds inside a run of whitespace
    whose replacement was already written. *)
Fixpoint collapse_from (in_run : bool) (s : string) : string :=
  match s with
  | EmptyString => EmptyString
  | String c s' =>
      if is_space c
      then if in_run then collapse_from true s'
           else String " " (collapse_from true s')
      else String c (collapse_from false s')
  end.

Definition collapse_ws (s : string) : string := collapse_from false s.

(** [s in l] for a list of strings. *)
Definition mem (s : string) (l : list string) : bool :=
  existsb (String.eqb s) l.

End PyStr.

(** ** Constants of the module *)

Definition PICKLEBOT_SIGNATURE : string := "SMAD Picklebot".

Definition COMMAND_PREFIXES : list string := ["/pb "; "/picklebot "].

Definition DRY_RUN_FLAGS : list string :=
  ["--dry-run"; "--dry"; "-n"; "dry run"; "dryrun"].

(** ** [extract_dry_run_flag] *)

(** The body of the [for flag in DRY_RUN_FLAGS] loop, with its early
    return. *)
Fixpoint extract_dry_run_loop (flags : list string)
         (command_text text_lower : string) : string * bool :=
  match flags with
  | [] => (command_text, false)
  | flag :: rest =>
      if PyStr.contains flag text_lower then
        let cleaned := PyStr.strip (PyStr.re_remove_ignorecase flag command_text) in
        let cleaned := PyStr.strip (PyStr.collapse_ws cleaned) in
        (cleaned, true)
      else extract_dry_run_loop rest command_text text_lower
  end.

Definition extract_dry_run_flag (command_text : string) : string * bool :=
  let text_lower := PyStr.lower command_text in
  extract_dry_run_loop DRY_RUN_FLAGS command_text text_lower.


(** ** JSON values and the Python operations applied to them *)

#[warnings="-register-all"]
Inductive json : Type :=
| JNull
| JBool (b : bool)
| JInt (n : Z)
| JFloat (f : float)
| JStr (s : string)
| JList (l : list json)
| JDict (d : list (string * json)).

(** The exceptions that the module can meet. [LibraryError] stands for
    what [requests] and [json] raise, with the message they give. *)
Inductive exn : Type :=
| AttributeError (type_name attr : string)
| IndexError (msg : string)
| KeyError (key : string)
| TypeError (msg : string)
| LibraryError (msg : string).

(** A computation that returns a value or raises. *)
Inductive outcome (A : Type) : Type :=
| Returned (a : A)
| Raised (e : exn).

Arguments Returned {A} a.
Arguments Raised {A} e.

Definition bind {A B : Type} (m : outcome A) (k : A -> outcome B) : outcome B :=
  match m with
  | Returned a => k a
  | Raised e => Raised e
  end.

Declare Scope py_scope.
Delimit Scope py_scope with py.
Notation "x <- m ;; k" := (bind m (fun x => k))
  (at level 61, m at next level, right associativity) : py_scope.
Notation "' p <- m ;; k" := (bind m (fun x => match x with p => k end))
  (at level 61, p pattern, m at next level, right associativity) : py_scope.

(** [try: body  except Exception: handler] *)
Definition try_except {A : Type} (body : outcome A) (handler : exn -> A) : A :=
  match body with
  | Returned a => a
  | Raised e => handler e
  end.

Module Py.

Definition dquote : string := String (ascii_of_nat 34) EmptyString.
Definition nl : string := String (ascii_of_nat 10) EmptyString.

(** The lines of a text, joined by newlines. *)
Definition lines (l : list string) : string := String.concat nl l.

Definition type_name (j : json) : string :=
  match j with
  | JNull => "NoneType"
  | JBool _ => "bool"
  | JInt _ => "int"
  | JFloat _ => "float"
  | JStr _ => "str"
  | JList _ => "list"
  | JDict _ => "dict"
  end.

(** [str(e)] *)
Definition str_exn (e : exn) : string :=
  match e with
  | AttributeError t a =>
      "'" ++ t ++ "' object has no attribute '" ++ a ++ "'"
  | IndexError m => m
  | KeyError k => k
  | TypeError m => m
  | LibraryError m => m
  end.

(** [bool(j)] *)
Definition truthy (j : json) : bool :=
  match j with
  | JNull => false
  | JBool b => b
  | JInt n => negb (n =? 0)%Z
  | JFloat f => negb (PrimFloat.eqb f 0%float)
  | JStr s => negb (s =? "")
  | JList l => match l with [] => false | _ => true end
  | JDict d => match d with [] => false | _ => true end
  end.

(** [a or b] *)
Definition or_ (a b : json) : json := if truthy a then a else b.

(** [j == s] for a string [s] *)
Definition eq_str (j : json) (s : string) : bool :=
  match j with
  | JStr s' => s' =? s
  | _ => false
  end.

Fixpoint lookup (k : string) (d : list (string * json)) : option json :=
  match d with
  | [] => None
  | (k', v) :: d' => if k' =? k then Some v else lookup k d'
  end.

(** [d[k] = v] *)
Fixpoint set (k : string) (v : json) (d : list (string * json))
  : list (string * json) :=
  match d with
  | [] => [(k, v)]
  | (k', v') :: d' => if k' =? k then (k, v) :: d' else (k', v') :: set k v d'
  end.

(** [d.update(kw)] *)
Definition update (d kw : list (string * json)) : list (string * json) :=
  fold_left (fun acc kv => set (fst kv) (snd kv) acc) kw d.

(** [j.get(k, default)]: only a [dict] has the method. *)
Definition get (j : json) (k : string) (default : json) : outcome json :=
  match j with
  | JDict d =>
      Returned (match lookup k d with Some v => v | None => default end)
  | _ => Raised (AttributeError (type_name j) "get")
  end.

(** [j[0]] *)
Definition index0 (j : json) : outcome json :=
  match j with
  | JList (x :: _) => Returned x
  | JList [] => Raised (IndexError "list index out of range")
  | JStr (String c _) => Returned (JStr (String c EmptyString))
  | JStr EmptyString => Raised (IndexError "string index out of range")
  | JDict _ => Raised (KeyError "0")
  | _ => Raised (TypeError ("'" ++ type_name j ++ "' object is not subscriptable"))
  end.

(** A method that only [str] has, applied to a JSON value. *)
Definition str_method (attr : string) (j : json) : outcome string :=
  match j with
  | JStr s => Returned s
  | _ => Raised (AttributeError (type_name j) attr)
  end.

(** [str(n)] for an [int] *)
Definition str_int (n : Z) : string :=
  DecimalString.NilZero.string_of_int (Z.to_int n).

(** The integer nearest to [100 * m * 2^e], ties to even. *)
Definition hundredths (m : positive) (e : Z) : Z :=
  if (0 <=? e)%Z then (100 * Z.pos m * 2 ^ e)%Z
  else
    let d := (2 ^ (- e))%Z in
    let q := (100 * Z.pos m / d)%Z in
    let r := (100 * Z.pos m mod d)%Z in
    if (2 * r <? d)%Z then q
    else if (d <? 2 * r)%Z then (q + 1)%Z
    else if Z.even q then q else (q + 1)%Z.

Definition two_digits (n : Z) : string :=
  (if (n <? 10)%Z then "0" else "") ++ str_int n.

(** [f"{x:.2f}"] for a [float] *)
Definition format_2f (x : float) : string :=
  match Prim2SF x with
  | S754_nan => "nan"
  | S754_infinity s => if s then "-inf" else "inf"
  | S754_zero s => if s then "-0.00" else "0.00"
  | S754_finite s m e =>
      let h := hundredths m e in
      (if s then "-" else "") ++ str_int (h / 100) ++ "." ++ two_digits (h mod 100)
  end.

End Py.

Local Open Scope py_scope.

(** ** [parse_intent_fallback] *)

(** The loop that removes the first command prefix that is there. *)
Fixpoint strip_command_prefix (prefixes : list string) (text : string) : string :=
  match prefixes with
  | [] => text
  | prefix :: rest =>
      if PyStr.startswith text (PyStr.lower prefix)
      then PyStr.strip (PyStr.drop (String.length prefix) text)
      else strip_command_prefix rest text
  end.

Definition intent_result (intent : string) (params : list (string * json))
           (confirmation_required : bool) : json :=
  JDict [("intent", JStr intent); ("params", JDict params);
         ("confirmation_required", JBool confirmation_required)].

Definition parse_intent_fallback (command_text : string) : json :=
  let text := PyStr.strip (PyStr.lower command_text) in
  let text := strip_command_prefix COMMAND_PREFIXES text in
  if PyStr.mem text ["help"; "?"; "commands"] then
    intent_result "help" [] false
  else if PyStr.mem text ["deadbeats"; "deadbeat"; "owes"; "outstanding"] then
    intent_result "show_deadbeats" [] false
  else if PyStr.startswith text "balance" then
    let name := PyStr.strip (PyStr.remove "balance" text) in
    intent_result "show_balances"
      (if negb (name =? "") then [("player_name", JStr name)] else []) false
  else if PyStr.startswith text "book" then
    intent_result "book_court" [("raw", JStr text)] true
  else if PyStr.contains "poll" text && PyStr.contains "create" text then
    intent_result "create_poll" [] true
  else if PyStr.contains "reminder" text then
    intent_result "send_reminders" [("type", JStr "vote")] true
  else if PyStr.mem text ["status"; "health"] then
    intent_result "show_status" [] false
  else
    intent_result "unknown" [("raw", JStr text)] false.

(** ** The world outside the process *)

(** A row of the spreadsheet as [get_player_balances] reads it. A balance
    is a binary64 float; the integer 0 that stands for a cell that is no
    number behaves like the float 0.0 everywhere it is used. *)
Record Player : Type := { name : string; balance : float }.

(** What [requests.post] returns; [json_body] is [response.json()]. *)
Record response : Type := {
  status_code : Z;
  text : string;
  json_body : outcome json
}.

Record World : Type := {
  (* environment variables, read once when the module is loaded *)
  GREENAPI_INSTANCE_ID : string;
  GREENAPI_API_TOKEN : string;
  ADMIN_DINKERS_GROUP_ID : string;
  ANTHROPIC_API_KEY : string;
  GITHUB_TOKEN : string;
  SPREADSHEET_ID : string;
  (* the POST to the language model, by the command put in the prompt *)
  anthropic_post : string -> outcome response;
  (* [json.loads] *)
  json_loads : string -> outcome json;
  (* the POST to the messaging gateway: url, chatId, message *)
  greenapi_post : string -> json -> json -> outcome response;
  (* what [get_player_balances()] returns; it catches its own errors *)
  get_player_balances : list Player;
  (* [datetime.now(PST).strftime('%m/%d/%y %I:%M %p PST')] *)
  now_timestamp : string;
  (* [str(v)] for a float, a list or a dict *)
  str_container : json -> string;
  (* [l.sort(key=lambda x: x['balance'], reverse=True)] on a list in which
     some balance is NaN: the comparisons are then no order, and what comes
     out depends on the runs and the merges of the interpreter's sort *)
  sort_unordered : list Player -> list Player
}.

(** One message handed to the messaging gateway. *)
Record post : Type := {
  post_url : string;
  post_chatId : json;
  post_message : json
}.

(** [f"{v}"] *)
Definition py_str (w : World) (v : json) : string :=
  match v with
  | JNull => "None"
  | JBool true => "True"
  | JBool false => "False"
  | JInt n => Py.str_int n
  | JStr s => s
  | _ => str_container w v
  end.

(** ** [send_whatsapp_message] *)

(** The body of the [try] block. *)
Definition send_whatsapp_try (w : World) (url : string)
           (chat_id message : json) : outcome bool :=
  response <- greenapi_post w url chat_id message ;;
  if (status_code response =? 200)%Z then Returned true else Returned false.

Definition send_whatsapp_message (w : World) (chat_id message dry_run : json)
  : bool * list post :=
  if Py.truthy dry_run then (true, [])
  else if (GREENAPI_INSTANCE_ID w =? "") || (GREENAPI_API_TOKEN w =? "")
  then (false, [])
  else
    let url := "https://api.green-api.com/waInstance" ++ GREENAPI_INSTANCE_ID w
               ++ "/sendMessage/" ++ GREENAPI_API_TOKEN w in
    (try_except (send_whatsapp_try w url chat_id message) (fun _ => false),
     [ {| post_url := url; post_chatId := chat_id; post_message := message |} ]).

(** ** [parse_intent_with_claude] *)

(** [re.sub(r'^```\w*\n?', '', content)] on a text that starts with the
    fence. *)
Fixpoint drop_word (s : string) : string :=
  match s with
  | EmptyString => EmptyString
  | String c s' => if PyStr.is_word c then drop_word s' else s
  end.

Definition sub_open_fence (content : string) : string :=
  if PyStr.startswith content "```" then
    match drop_word (PyStr.drop 3 content) with
    | String c s' => if (c =? "010")%char then s' else String c s'
    | EmptyString => EmptyString
    end
  else content.

(** [re.sub(r'\n?```$', '', content)]: [$] matches at the end and before
    a newline that ends the text. *)
Fixpoint sub_close_fence (content : string) : string :=
  match content with
  | EmptyString => EmptyString
  | String c s' =>
      if PyStr.mem content [Py.nl ++ "```"; "```"] then EmptyString
      else if PyStr.mem content [Py.nl ++ "```" ++ Py.nl; "```" ++ Py.nl] then Py.nl
      else String c (sub_close_fence s')
  end.

(** The block under [if content.startswith('```')]. *)
Definition strip_code_fence (content : string) : string :=
  if PyStr.startswith content "```"
  then sub_close_fence (sub_open_fence content)
  else content.

(** [result.get('content', [{}])[0].get('text', '{}')], then [.strip()]. *)
Definition answer_text (result : json) : outcome string :=
  blocks <- Py.get result "content" (JList [JDict []]) ;;
  block <- Py.index0 blocks ;;
  content <- Py.get block "text" (JStr "{}") ;;
  content <- Py.str_method "strip" content ;;
  Returned (PyStr.strip content).

(** The body of the [try] block, entered when the API key is set. *)
Definition parse_intent_try (w : World) (command_text : string) : outcome json :=
  response <- anthropic_post w command_text ;;
  if (status_code response =? 200)%Z then
    result <- json_body response ;;
    content <- answer_text result ;;
    json_loads w (strip_code_fence content)
  else Returned (parse_intent_fallback command_text).

Definition parse_intent_with_claude (w : World) (command_text : string) : json :=
  if ANTHROPIC_API_KEY w =? "" then parse_intent_fallback command_text
  else try_except (parse_intent_try w command_text)
                  (fun _ => parse_intent_fallback command_text).

(** ** Command handlers *)

Definition handle_help : string :=
  Py.lines [
    "*" ++ PICKLEBOT_SIGNATURE ++ " Commands*";
    "";
    "*Read-only:*";
    "/pb help - Show this message";
    "/pb deadbeats - Show players with outstanding balances";
    "/pb balance [name] - Show all balances or specific player";
    "/pb status - Show system status";
    "";
    "*Actions (require confirmation):*";
    "/pb book <date> <time> [duration] - Book court";
    "  Example: /pb book 2/4 7pm 2hrs both courts";
    "/pb poll create - Create weekly availability poll";
    "/pb reminders - Send vote reminders";
    "";
    "*Options:*";
    "--dry-run - Test command without sending messages";
    "  Example: /pb deadbeats --dry-run";
    "";
    "Tip: You can use natural language!";
    "  " ++ Py.dquote ++ "/pb book next Tuesday at 7pm for 2 hours" ++ Py.dquote;
    "  " ++ Py.dquote ++ "/pb who owes money?" ++ Py.dquote;
    "" ].

(** The balance compares with every number: it is no NaN. *)
Definition comparable (p : Player) : bool := (balance p =? balance p)%float.

(** One player put into a list that is sorted by decreasing balance,
    before the players of the same balance. *)
Fixpoint insert_desc (p : Player) (sorted : list Player) : list Player :=
  match sorted with
  | [] => [p]
  | q :: rest =>
      if (balance p <? balance q)%float then q :: insert_desc p rest
      else p :: sorted
  end.

(** [l.sort(key=lambda x: x['balance'], reverse=True)]: a stable sort by
    decreasing balance. When every balance compares, the balances are
    totally ordered and the result is the one arrangement that is
    decreasing and keeps the players of the same balance in their order,
    whatever the algorithm; the insertions compute it. When some balance
    is NaN the result is the interpreter's, read from the world. *)
Definition sort_desc (w : World) (l : list Player) : list Player :=
  if forallb comparable l then fold_right insert_desc [] l
  else sort_unordered w l.

(** [sum(...)] over floats: added one by one from the left, starting from
    0, as the Python 3.11 of the deployment does. *)
Definition sum_balances (l : list float) : float :=
  fold_left PrimFloat.add l 0%float.

(** [f"- {p['name']}: ${p['balance']:.2f}\n"] *)
Definition balance_line (p : Player) : string :=
  "- " ++ name p ++ ": $" ++ Py.format_2f (balance p) ++ Py.nl.

Definition handle_deadbeats (w : World) : string :=
  let players := get_player_balances w in
  let deadbeats := filter (fun p => (0 <? balance p)%float) players in
  match deadbeats with
  | [] =>
      "*" ++ PICKLEBOT_SIGNATURE ++ "*" ++ Py.nl ++ Py.nl
      ++ "No outstanding balances! Everyone is paid up."
  | _ =>
      let deadbeats := sort_desc w deadbeats in
      let total := sum_balances (map balance deadbeats) in
      "*" ++ PICKLEBOT_SIGNATURE ++ " - Outstanding Balances*" ++ Py.nl ++ Py.nl
      ++ String.concat "" (map balance_line deadbeats)
      ++ Py.nl ++ "*Total: $" ++ Py.format_2f total ++ "*"
  end.

Definition handle_balances (w : World) (player_name : json) : outcome string :=
  let players := get_player_balances w in
  if Py.truthy player_name then
    player_name <- Py.str_method "lower" player_name ;;
    let player_name_lower := PyStr.lower player_name in
    let matches :=
      filter (fun p => PyStr.contains player_name_lower (PyStr.lower (name p)))
             players in
    match matches with
    | [] =>
        Returned ("*" ++ PICKLEBOT_SIGNATURE ++ "*" ++ Py.nl ++ Py.nl
                  ++ "Player '" ++ player_name ++ "' not found.")
    | [p] =>
        let status :=
          if (0 <? balance p)%float then "owes"
          else if (balance p <? 0)%float then "has credit of"
          else "is all paid up" in
        if (balance p =? 0)%float then
          Returned ("*" ++ PICKLEBOT_SIGNATURE ++ "*" ++ Py.nl ++ Py.nl
                    ++ name p ++ " " ++ status ++ "!")
        else
          Returned ("*" ++ PICKLEBOT_SIGNATURE ++ "*" ++ Py.nl ++ Py.nl
                    ++ name p ++ " " ++ status ++ " $"
                    ++ Py.format_2f (PrimFloat.abs (balance p)))
    | _ =>
        Returned ("*" ++ PICKLEBOT_SIGNATURE ++ "*" ++ Py.nl ++ Py.nl
                  ++ "Multiple matches for '" ++ player_name ++ "':" ++ Py.nl
                  ++ String.concat "" (map balance_line matches))
    end
  else
    let players := sort_desc w players in
    let total :=
      sum_balances (map balance (filter (fun p => (0 <? balance p)%float) players)) in
    Returned ("*" ++ PICKLEBOT_SIGNATURE ++ " - All Balances*" ++ Py.nl ++ Py.nl
              ++ String.concat ""
                   (map balance_line
                        (filter (fun p => negb (balance p =? 0)%float) players))
              ++ Py.nl ++ "*Total Outstanding: $" ++ Py.format_2f total ++ "*").

Definition configured (s : string) : string :=
  if negb (s =? "") then "Connected" else "Not configured".

Definition handle_status (w : World) : string :=
  Py.lines [
    "*" ++ PICKLEBOT_SIGNATURE ++ " Status*";
    "";
    "Time: " ++ now_timestamp w;
    "Webhook: Online";
    "GREEN-API: " ++ configured (GREENAPI_INSTANCE_ID w);
    "Claude API: " ++ configured (ANTHROPIC_API_KEY w);
    "GitHub: " ++ configured (GITHUB_TOKEN w);
    "Sheets: " ++ configured (SPREADSHEET_ID w);
    "" ].

Definition handle_unknown (w : World) (raw_text : json) : string :=
  Py.lines [
    "*" ++ PICKLEBOT_SIGNATURE ++ "*";
    "";
    "I didn't understand: " ++ Py.dquote ++ py_str w raw_text ++ Py.dquote;
    "";
    "Type /pb help to see available commands." ].

Definition handle_book_court_preview (w : World) (params : json) : outcome string :=
  date <- Py.get params "date" (JStr "unknown") ;;
  time <- Py.get params "time" (JStr "unknown") ;;
  duration <- Py.get params "duration_minutes" (JInt 120) ;;
  court <- Py.get params "court" (JStr "both") ;;
  Returned (Py.lines [
    "*" ++ PICKLEBOT_SIGNATURE ++ " - Book Court*";
    "";
    "This action requires confirmation.";
    "";
    "*Details:*";
    "- Date: " ++ py_str w date;
    "- Time: " ++ py_str w time;
    "- Duration: " ++ py_str w duration ++ " minutes";
    "- Court: " ++ py_str w court;
    "";
    "_Confirmation links coming in Phase 2_" ]).

Definition handle_create_poll_preview : string :=
  Py.lines [
    "*" ++ PICKLEBOT_SIGNATURE ++ " - Create Poll*";
    "";
    "This action requires confirmation.";
    "";
    "Will create a weekly availability poll in the SMAD group.";
    "";
    "_Confirmation links coming in Phase 2_" ].

Definition handle_send_reminders_preview (w : World) (reminder_type : json) : string :=
  Py.lines [
    "*" ++ PICKLEBOT_SIGNATURE ++ " - Send Reminders*";
    "";
    "This action requires confirmation.";
    "";
    "Will send " ++ py_str w reminder_type
      ++ " reminders to players who haven't responded.";
    "";
    "_Confirmation links coming in Phase 2_" ].

(** ** [process_command] *)

(** The inner function [build_result(message, **kwargs)]. *)
Definition build_result (is_dry_run : json) (message : string)
           (kwargs : list (string * json)) : json :=
  let result := [("message", JStr message); ("dry_run", is_dry_run)] in
  let result :=
    if Py.truthy is_dry_run
    then Py.set "message" (JStr ("[DRY RUN]" ++ Py.nl ++ Py.nl ++ message)) result
    else result in
  JDict (Py.update result kwargs).

(** What follows the classification, given its answer. *)
Definition dispatch (w : World) (cleaned_command : string) (is_dry_run : json)
           (intent_data : json) : outcome json :=
  intent <- Py.get intent_data "intent" (JStr "unknown") ;;
  params <- Py.get intent_data "params" (JDict []) ;;
  needs_confirmation <- Py.get intent_data "confirmation_required" (JBool false) ;;
  if Py.eq_str intent "help" then
    Returned (build_result is_dry_run handle_help [("intent", intent)])
  else if Py.eq_str intent "show_deadbeats" then
    Returned (build_result is_dry_run (handle_deadbeats w) [("intent", intent)])
  else if Py.eq_str intent "show_balances" then
    player_name <- Py.get params "player_name" JNull ;;
    message <- handle_balances w player_name ;;
    Returned (build_result is_dry_run message [("intent", intent)])
  else if Py.eq_str intent "show_status" then
    Returned (build_result is_dry_run (handle_status w) [("intent", intent)])
  else if Py.eq_str intent "book_court" then
    message <- handle_book_court_preview w params ;;
    Returned (build_result is_dry_run message
                [("intent", intent); ("needs_confirmation", JBool true)])
  else if Py.eq_str intent "create_poll" then
    Returned (build_result is_dry_run handle_create_poll_preview
                [("intent", intent); ("needs_confirmation", JBool true)])
  else if Py.eq_str intent "send_reminders" then
    reminder_type <- Py.get params "type" (JStr "vote") ;;
    Returned (build_result is_dry_run (handle_send_reminders_preview w reminder_type)
                [("intent", intent); ("needs_confirmation", JBool true)])
  else
    raw <- Py.get params "raw" (JStr cleaned_command) ;;
    Returned (build_result is_dry_run (handle_unknown w raw)
                [("intent", JStr "unknown")]).

Definition process_command (w : World) (command_text sender_data dry_run : json)
  : outcome json :=
  command_text <- Py.str_method "lower" command_text ;;
  let '(cleaned_command, text_has_dry_run) := extract_dry_run_flag command_text in
  let is_dry_run := Py.or_ dry_run (JBool text_has_dry_run) in
  let intent_data := parse_intent_with_claude w cleaned_command in
  dispatch w cleaned_command is_dry_run intent_data.

(** ** [picklebot_webhook] *)

Record Request : Type := {
  method : string;
  (* [request.get_json(silent=True)], [JNull] when there is no JSON body *)
  get_json : json
}.

Record http_response : Type := {
  body : json;
  status : Z;
  headers : list (string * string)
}.

Definition reply (body : list (string * json)) (status : Z) : http_response :=
  {| body := JDict body; status := status; headers := [] |}.

Definition ignored (reason : string) : http_response :=
  reply [("status", JStr "ignored"); ("reason", JStr reason)] 200.

(** The [for prefix in COMMAND_PREFIXES] loop that sets [is_command]. *)
Fixpoint is_command_loop (prefixes : list string) (text : json) : outcome bool :=
  match prefixes with
  | [] => Returned false
  | prefix :: rest =>
      text_str <- Py.str_method "lower" text ;;
      if PyStr.startswith (PyStr.lower text_str) (PyStr.lower prefix)
      then Returned true
      else is_command_loop rest text
  end.

(** The two request forms, told apart by [if 'command' in data]: either
    the command to process with the chat to answer and the sender, or the
    answer for a request that is ignored. *)
Definition read_request (w : World) (data : json)
  : outcome (json * json * json + http_response) :=
  match data with
  | JDict d =>
      match Py.lookup "command" d with
      | Some command_text =>
        chat_id <- Py.get data "chatId" (JStr (ADMIN_DINKERS_GROUP_ID w)) ;;
        sender <- Py.get data "sender" (JStr "") ;;
        senderName <- Py.get data "senderName" (JStr "") ;;
        let sender_data :=
          JDict [("chatId", chat_id); ("sender", sender); ("senderName", senderName)] in
        Returned (inl (command_text, chat_id, sender_data))
      | None =>
        sender_data <- Py.get data "senderData" (JDict []) ;;
        message_data <- Py.get data "messageData" (JDict []) ;;
        chat_id <- Py.get sender_data "chatId" (JStr "") ;;
        if negb (ADMIN_DINKERS_GROUP_ID w =? "")
           && negb (Py.eq_str chat_id (ADMIN_DINKERS_GROUP_ID w))
        then Returned (inr (ignored "not_admin_group"))
        else
          type_message <- Py.get message_data "typeMessage" (JStr "") ;;
          if negb (Py.eq_str type_message "textMessage")
          then Returned (inr (ignored "not_text_message"))
          else
            text_data <- Py.get message_data "textMessageData" (JDict []) ;;
            text <- Py.get text_data "textMessage" (JStr "") ;;
            is_command <- is_command_loop COMMAND_PREFIXES text ;;
            if negb is_command then Returned (inr (ignored "not_command"))
            else Returned (inl (text, chat_id, sender_data))
      end
  | _ => Raised (AttributeError (Py.type_name data) "get")
  end.

(** What follows [process_command]: the message is handed to the gateway
    and the answer is built. Nothing raises once the message is sent, so
    the posts are kept beside the answer. *)
Definition respond (w : World) (chat_id dry_run result : json)
  : outcome (http_response * list post) :=
  is_dry_run <- Py.get result "dry_run" dry_run ;;
  message <- Py.get result "message" JNull ;;
  let sent :=
    if Py.truthy message
    then snd (send_whatsapp_message w
                (Py.or_ chat_id (JStr (ADMIN_DINKERS_GROUP_ID w)))
                message is_dry_run)
    else [] in
  intent <- Py.get result "intent" JNull ;;
  needs_confirmation <- Py.get result "needs_confirmation" (JBool false) ;;
  Returned
    (reply [("status", JStr "processed");
            ("intent", intent);
            ("needs_confirmation", needs_confirmation);
            ("dry_run", is_dry_run);
            ("response_message", if Py.truthy is_dry_run then message else JNull)]
           200,
     sent).

(** The body of the [try] block, after the test of the payload. *)
Definition webhook_try (w : World) (data : json)
  : outcome (http_response * list post) :=
  dry_run <- Py.get data "dry_run" (JBool false) ;;
  routed <- read_request w data ;;
  match routed with
  | inr answer => Returned (answer, [])
  | inl (command_text, chat_id, sender_data) =>
      result <- process_command w command_text sender_data dry_run ;;
      respond w chat_id dry_run result
  end.

Definition picklebot_webhook (w : World) (request : Request)
  : http_response * list post :=
  if method request =? "OPTIONS" then
    ({| body := JStr "";
        status := 204;
        headers := [("Access-Control-Allow-Origin", "*");
                    ("Access-Control-Allow-Methods", "POST");
                    ("Access-Control-Allow-Headers", "Content-Type");
                    ("Access-Control-Max-Age", "3600")] |}, [])
  else if negb (method request =? "POST") then
    (reply [("error", JStr "Method not allowed")] 405, [])
  else
    let data := get_json request in
    if negb (Py.truthy data) then (reply [("error", JStr "No JSON payload")] 400, [])
    else
      try_except (webhook_try w data)
                 (fun e => (reply [("error", JStr (Py.str_exn e))] 500, [])).

(** ** [get_player_balances] *)

Definition COL_FIRST_NAME : nat := 0.
Definition COL_LAST_NAME : nat := 1.
Definition COL_BALANCE : nat := 7.

(** The spreadsheet collaborator. The rows of the sheet are lists of cells,
    and a cell is a text, as the Sheets API returns them. *)
Record Spreadsheet : Type := {
  (* [get_sheets_service()] returned a service, not [None] *)
  service_available : bool;
  (* [sheets.values().get(...).execute()], read by [.get('values')]:
     [None] when the answer has no such key *)
  execute_values : outcome (option (list (list string)));
  (* [float(s)], [None] when it raises [ValueError] *)
  float_of_str : string -> option float
}.

(** [row[i] if len(row) > i else default] *)
Definition cell (row : list string) (i : nat) (default : string) : string :=
  if (i <? List.length row)%nat then nth i row default else default.

(** [balance_str.replace('$', '').replace(',', '').strip() or '0'] *)
Definition balance_text (balance_str : string) : string :=
  let cleaned := PyStr.strip (PyStr.remove "," (PyStr.remove "$" balance_str)) in
  if cleaned =? "" then "0" else cleaned.

(** The inner [try]: a text that is no number gives 0. *)
Definition parse_balance (sheet : Spreadsheet) (balance_str : string) : float :=
  match float_of_str sheet (balance_text balance_str) with
  | Some balance => balance
  | None => 0%float
  end.

(** The [for row in data[1:]] loop. *)
Fixpoint players_of_rows (sheet : Spreadsheet) (rows : list (list string))
  : list Player :=
  match rows with
  | [] => []
  | row :: rest =>
      if (COL_BALANCE <? List.length row)%nat then
        let first_name := cell row COL_FIRST_NAME "" in
        let last_name := cell row COL_LAST_NAME "" in
        if first_name =? "" then players_of_rows sheet rest
        else
          let balance := parse_balance sheet (cell row COL_BALANCE "0") in
          {| name := PyStr.strip (first_name ++ " " ++ last_name);
             balance := balance |} :: players_of_rows sheet rest
      else players_of_rows sheet rest
  end.

(** The body of the outer [try] block. *)
Definition read_players_try (sheet : Spreadsheet) : outcome (list Player) :=
  values <- execute_values sheet ;;
  let data := match values with Some data => data | None => [] end in
  Returned (players_of_rows sheet (List.tl data)).

(** [get_player_balances()], from the spreadsheet it reads. *)
Definition read_player_balances (sheet : Spreadsheet) : list Player :=
  if negb (service_available sheet) then []
  else try_except (read_players_try sheet) (fun _ => []).

(** * Vocabulary of the specification *)

Module Spec.
Import PyStr.

(** A text starts with [p]. *)
Definition starts (s p : string) : Prop := exists rest, s = p ++ rest.

(** [sub] occurs in a text. *)
Definition occurs (sub s : string) : Prop :=
  exists pre post, s = pre ++ sub ++ post.

(** A piece of the text whose lower case is the token stands at its head. *)
Definition starts_ci (tok s : string) : Prop :=
  exists m rest, s = m ++ rest /\ lower m = tok.

(** A piece of the text whose lower case is the token stands somewhere. *)
Definition occurs_ci (tok s : string) : Prop :=
  exists pre m post, s = pre ++ m ++ post /\ lower m = tok.

(** [removed tok s out]: [out] is [s] without the occurrences of [tok],
    read from the left, whatever their case. *)
Inductive removed (tok : string) : string -> string -> Prop :=
| removed_end : removed tok "" ""
| removed_match (m rest out : string) :
    lower m = tok -> removed tok rest out -> removed tok (m ++ rest) out
| removed_keep (c : ascii) (rest out : string) :
    ~ starts_ci tok (String c rest) -> removed tok rest out ->
    removed tok (String c rest) (String c out).

(** Every whitespace character of the text is one space that follows a
    character that is not whitespace; [after_space] says what stands
    before the text. *)
Fixpoint squeezed_from (after_space : bool) (s : string) : bool :=
  match s with
  | EmptyString => true
  | String c s' =>
      if is_space c
      then (c =? " ")%char && negb after_space && squeezed_from true s'
      else squeezed_from false s'
  end.

(** No whitespace at either end. *)
Definition trimmed (s : string) : Prop := lstrip s = s /\ rstrip s = s.

(** The text is trimmed and its words are separated by single spaces. *)
Definition ws_normal (s : string) : Prop :=
  trimmed s /\ squeezed_from false s = true.

(** One of the dry-run tokens occurs in the text, in any case. *)
Definition recognized (text : string) : Prop :=
  exists tok, In tok DRY_RUN_FLAGS /\ occurs_ci tok text.

(** The text mentions a dry-run token, as the loop tests it. *)
Definition mentions_flag (text : string) : bool :=
  existsb (fun tok => contains tok (lower text)) DRY_RUN_FLAGS.

(** [tok] is the first token of the ordered list that occurs in the text. *)
Definition first_token (tok text : string) : Prop :=
  exists before after,
    DRY_RUN_FLAGS = (before ++ tok :: after)%list
    /\ occurs_ci tok text
    /\ forall t, In t before -> ~ occurs_ci t text.

(** The text the fallback rules read: lowered, trimmed, and without the
    command prefix. *)
Definition cleaned_text (command_text : string) : string :=
  strip_command_prefix COMMAND_PREFIXES (strip (lower command_text)).

(** The conditions of the rules of the fallback classifier. *)
Definition asks_help (t : string) : Prop := In t ["help"; "?"; "commands"].
Definition asks_deadbeats (t : string) : Prop :=
  In t ["deadbeats"; "deadbeat"; "owes"; "outstanding"].
Definition asks_balance (t : string) : Prop := starts t "balance".
Definition asks_book (t : string) : Prop := starts t "book".
Definition asks_poll (t : string) : Prop := occurs "poll" t /\ occurs "create" t.
Definition asks_reminder (t : string) : Prop := occurs "reminder" t.
Definition asks_status (t : string) : Prop := In t ["status"; "health"].

(** The name filter of [show_balances]: an empty name is no filter. *)
Definition player_filter (name : string) : list (string * json) :=
  if name =? "" then [] else [("player_name", JStr name)].

(** The eight rules in their order: a rule applies when none before it
    does. *)
Inductive fallback_rule (t : string) : json -> Prop :=
| rule_help :
    asks_help t -> fallback_rule t (intent_result "help" [] false)
| rule_deadbeats :
    ~ asks_help t -> asks_deadbeats t ->
    fallback_rule t (intent_result "show_deadbeats" [] false)
| rule_balance :
    ~ asks_help t -> ~ asks_deadbeats t -> asks_balance t ->
    fallback_rule t (intent_result "show_balances"
                       (player_filter (strip (remove "balance" t))) false)
| rule_book :
    ~ asks_help t -> ~ asks_deadbeats t -> ~ asks_balance t -> asks_book t ->
    fallback_rule t (intent_result "book_court" [("raw", JStr t)] true)
| rule_poll :
    ~ asks_help t -> ~ asks_deadbeats t -> ~ asks_balance t -> ~ asks_book t ->
    asks_poll t ->
    fallback_rule t (intent_result "create_poll" [] true)
| rule_reminder :
    ~ asks_help t -> ~ asks_deadbeats t -> ~ asks_balance t -> ~ asks_book t ->
    ~ asks_poll t -> asks_reminder t ->
    fallback_rule t (intent_result "send_reminders" [("type", JStr "vote")] true)
| rule_status :
    ~ asks_help t -> ~ asks_deadbeats t -> ~ asks_balance t -> ~ asks_book t ->
    ~ asks_poll t -> ~ asks_reminder t -> asks_status t ->
    fallback_rule t (intent_result "show_status" [] false)
| rule_unknown :
    ~ asks_help t -> ~ asks_deadbeats t -> ~ asks_balance t -> ~ asks_book t ->
    ~ asks_poll t -> ~ asks_reminder t -> ~ asks_status t ->
    fallback_rule t (intent_result "unknown" [("raw", JStr t)] false).

(** The intents of the fixed enumeration. *)
Definition known_intents : list string :=
  ["help"; "show_deadbeats"; "show_balances"; "book_court"; "create_poll";
   "send_reminders"; "show_status"; "unknown"].

(** The taxonomy: the intents that need a confirmation. *)
Definition requires_confirmation (intent : string) : bool :=
  mem intent ["book_court"; "create_poll"; "send_reminders"].

(** An intent result as the data model has it. *)
Definition well_formed_intent (j : json) : Prop :=
  exists intent params,
    j = intent_result intent params (requires_confirmation intent)
    /\ In intent known_intents.

(** The failures of the primary path of the classifier. *)
Inductive primary_failure (w : World) (text : string) : Prop :=
| missing_api_key :
    ANTHROPIC_API_KEY w = "" -> primary_failure w text
| network_error (e : exn) :
    anthropic_post w text = Raised e -> primary_failure w text
| bad_status (r : response) :
    anthropic_post w text = Returned r -> status_code r <> 200%Z ->
    primary_failure w text
| unreadable_body (r : response) (e : exn) :
    anthropic_post w text = Returned r -> json_body r = Raised e ->
    primary_failure w text
| unexpected_body (r : response) (result : json) (e : exn) :
    anthropic_post w text = Returned r -> json_body r = Returned result ->
    answer_text result = Raised e ->
    primary_failure w text
| malformed_json (r : response) (result : json) (content : string) (e : exn) :
    anthropic_post w text = Returned r -> json_body r = Returned result ->
    answer_text result = Returned content ->
    json_loads w (strip_code_fence content) = Raised e ->
    primary_failure w text.

(** The primary path answers [j]: the key is set, the service answers 200
    with a body whose text, once its code fence is removed, parses to [j]. *)
Definition primary_answer (w : World) (text : string) (j : json) : Prop :=
  ANTHROPIC_API_KEY w <> ""
  /\ exists r result content,
      anthropic_post w text = Returned r /\ status_code r = 200%Z
      /\ json_body r = Returned result
      /\ answer_text result = Returned content
      /\ json_loads w (strip_code_fence content) = Returned j.

(** The intent that the result of a command carries, given the intent
    that the classifier answered: a known intent is kept, anything else is
    [unknown]. *)
Definition dispatched_intent (classified : json) : string :=
  match classified with
  | JStr s => if mem s known_intents then s else "unknown"
  | _ => "unknown"
  end.

(** An answer of the classifier that the handlers can read: a dictionary
    whose parameters are a dictionary in which the name of the player, if
    there is one, is a string or an empty value. *)
Definition usable_answer (classified : json) : Prop :=
  exists d p : list (string * json),
    classified = JDict d
    /\ Py.get classified "params" (JDict []) = Returned (JDict p)
    /\ match Py.lookup "player_name" p with
       | Some v => Py.truthy v = false \/ exists s, v = JStr s
       | None => True
       end.

(** The keyword arguments of [build_result] for an intent. *)
Definition result_kwargs (intent : string) : list (string * json) :=
  ("intent", JStr intent)
  :: (if requires_confirmation intent
      then [("needs_confirmation", JBool true)] else []).

(** The mark put before the message of a dry run. *)
Definition DRY_RUN_MARK : string := "[DRY RUN]" ++ Py.nl ++ Py.nl.

(** The gateway has its credentials. *)
Definition gateway_configured (w : World) : bool :=
  negb (GREENAPI_INSTANCE_ID w =? "") && negb (GREENAPI_API_TOKEN w =? "").

(** The message handed to the gateway for a chat. *)
Definition gateway_post (w : World) (chat_id message : json) : post :=
  {| post_url := "https://api.green-api.com/waInstance" ++ GREENAPI_INSTANCE_ID w
                 ++ "/sendMessage/" ++ GREENAPI_API_TOKEN w;
     post_chatId := chat_id;
     post_message := message |}.

(** The same world with another behaviour of the messaging gateway. *)
Definition with_gateway (w : World)
           (gateway : string -> json -> json -> outcome response) : World :=
  {| GREENAPI_INSTANCE_ID := GREENAPI_INSTANCE_ID w;
     GREENAPI_API_TOKEN := GREENAPI_API_TOKEN w;
     ADMIN_DINKERS_GROUP_ID := ADMIN_DINKERS_GROUP_ID w;
     ANTHROPIC_API_KEY := ANTHROPIC_API_KEY w;
     GITHUB_TOKEN := GITHUB_TOKEN w;
     SPREADSHEET_ID := SPREADSHEET_ID w;
     anthropic_post := anthropic_post w;
     json_loads := json_loads w;
     greenapi_post := gateway;
     get_player_balances := get_player_balances w;
     now_timestamp := now_timestamp w;
     str_container := str_container w;
     sort_unordered := sort_unordered w |}.

(** The answer to a command that was processed. *)
Definition processed (intent : string) (effective : json) (m : string)
  : http_response :=
  reply [("status", JStr "processed");
         ("intent", JStr intent);
         ("needs_confirmation", JBool (requires_confirmation intent));
         ("dry_run", effective);
         ("response_message",
          if Py.truthy effective then JStr (DRY_RUN_MARK ++ m) else JNull)]
        200.

(** The messages handed to the gateway for a command that was processed. *)
Definition delivered (w : World) (chat_id effective : json) (m : string)
  : list post :=
  if Py.truthy effective then []
  else if gateway_configured w
       then [gateway_post w (Py.or_ chat_id (JStr (ADMIN_DINKERS_GROUP_ID w)))
                          (JStr m)]
       else [].

(** The chat that a routed request is answered to. *)
Definition routed_chat (w : World) (d : list (string * json)) : json :=
  match Py.lookup "chatId" d with
  | Some chat_id => chat_id
  | None => JStr (ADMIN_DINKERS_GROUP_ID w)
  end.

(** The dry-run override of a request. *)
Definition request_override (d : list (string * json)) : json :=
  match Py.lookup "dry_run" d with
  | Some v => v
  | None => JBool false
  end.

(** A POST request with a JSON body. *)
Definition post_request (data : json) : Request :=
  {| method := "POST"; get_json := data |}.

(** Every character of the text is a word character. *)
Fixpoint all_word (s : string) : bool :=
  match s with
  | EmptyString => true
  | String c s' => is_word c && all_word s'
  end.

(** A body inside a code fence that names its language. *)
Definition fenced (lang body : string) : string :=
  "```" ++ lang ++ Py.nl ++ body ++ Py.nl ++ "```".

(** The same world with another language model and another JSON parser. *)
Definition with_classifier (w : World)
           (model : string -> outcome response)
           (loads : string -> outcome json) : World :=
  {| GREENAPI_INSTANCE_ID := GREENAPI_INSTANCE_ID w;
     GREENAPI_API_TOKEN := GREENAPI_API_TOKEN w;
     ADMIN_DINKERS_GROUP_ID := ADMIN_DINKERS_GROUP_ID w;
     ANTHROPIC_API_KEY := ANTHROPIC_API_KEY w;
     GITHUB_TOKEN := GITHUB_TOKEN w;
     SPREADSHEET_ID := SPREADSHEET_ID w;
     anthropic_post := model;
     json_loads := loads;
     greenapi_post := greenapi_post w;
     get_player_balances := get_player_balances w;
     now_timestamp := now_timestamp w;
     str_container := str_container w;
     sort_unordered := sort_unordered w |}.

(** The preview of a booking of which nothing is known. *)
Definition book_preview_default : string :=
  Py.lines [
    "*" ++ PICKLEBOT_SIGNATURE ++ " - Book Court*";
    "";
    "This action requires confirmation.";
    "";
    "*Details:*";
    "- Date: unknown";
    "- Time: unknown";
    "- Duration: 120 minutes";
    "- Court: both";
    "";
    "_Confirmation links coming in Phase 2_" ].

(** The chat of a raw gateway payload is let in: no admin group is
    configured, or the chat is the admin group. *)
Definition admitted (w : World) (chat_id : json) : bool :=
  (ADMIN_DINKERS_GROUP_ID w =? "") || Py.eq_str chat_id (ADMIN_DINKERS_GROUP_ID w).

(** The text starts with a command prefix, whatever its case. *)
Definition has_command_prefix (text : string) : bool :=
  existsb (fun prefix => startswith (lower text) (lower prefix)) COMMAND_PREFIXES.

(** The routed request that carries a command for a chat. *)
Definition routed_payload (command chat_id override : json) : json :=
  JDict [("command", command); ("chatId", chat_id); ("dry_run", override)].

(** [p] does not come below [q] in the order of decreasing balance. *)
Definition not_below (p q : Player) : Prop :=
  (balance p <? balance q)%float = false.

(** A row of the sheet that gives a player: it reaches the balance column
    and its first name is not empty. *)
Definition listed_row (row : list string) : Prop :=
  (COL_BALANCE < List.length row)%nat /\ nth COL_FIRST_NAME row "" <> "".

(** The player that a listed row gives. *)
Definition player_of_row (sheet : Spreadsheet) (row : list string) : Player :=
  {| name := strip (nth COL_FIRST_NAME row "" ++ " " ++ nth COL_LAST_NAME row "");
     balance := parse_balance sheet (nth COL_BALANCE row "0") |}.

(** The name of a player contains the name asked for, in any case. *)
Definition name_matches (asked : string) (p : Player) : bool :=
  contains (lower asked) (lower (name p)).

(** The text after [n] passes of the normalizer. *)
Definition normalize (n : nat) (text : string) : string :=
  Nat.iter n (fun t => fst (extract_dry_run_flag t)) text.

(** The balance of [p] is at least that of [q]. *)
Definition at_least (p q : Player) : Prop :=
  (balance q <=? balance p)%float = true.

(** Every player of the list has at least the balance of those after. *)
Definition decreasing (l : list Player) : Prop := StronglySorted at_least l.

(** The balance of the player equals [b]. *)
Definition same_balance (b : float) (p : Player) : bool :=
  (balance p =? b)%float.

(** The balance of a player is not zero; it is positive. *)
Definition nonzero (p : Player) : bool := negb (balance p =? 0)%float.
Definition owes (p : Player) : bool := (0 <? balance p)%float.

(** The first lines of an answer about one name. *)
Definition lookup_heading : string :=
  "*" ++ PICKLEBOT_SIGNATURE ++ "*" ++ Py.nl ++ Py.nl.

End Spec.

(** * Sample worlds *)

Module Samples.

Definition ok_response : response :=
  {| status_code := 200; text := ""; json_body := Returned (JDict []) |}.

Definition snapshot : list Player :=
  [ {| name := "Alice"; balance := 25 |};
    {| name := "Bob"; balance := -5 |};
    {| name := "Cara"; balance := 0 |} ].

(** No key for the language model; the gateway works. *)
Definition world_offline : World :=
  {| GREENAPI_INSTANCE_ID := "1101";
     GREENAPI_API_TOKEN := "token";
     ADMIN_DINKERS_GROUP_ID := "admins@g.us";
     ANTHROPIC_API_KEY := "";
     GITHUB_TOKEN := "";
     SPREADSHEET_ID := "sheet";
     anthropic_post := fun _ => Raised (LibraryError "no route to host");
     json_loads := fun _ => Raised (LibraryError "Expecting value");
     greenapi_post := fun _ _ _ => Returned ok_response;
     get_player_balances := snapshot;
     now_timestamp := "02/04/26 07:00 PM PST";
     str_container := fun _ => "";
     sort_unordered := fun l => l |}.

(** The same, with a gateway that cannot be reached. *)
Definition world_gateway_down : World :=
  Spec.with_gateway world_offline
    (fun _ _ _ => Raised (LibraryError "connection refused")).

(** The same, without the credentials of the gateway. *)
Definition world_no_credentials : World :=
  {| GREENAPI_INSTANCE_ID := "";
     GREENAPI_API_TOKEN := "";
     ADMIN_DINKERS_GROUP_ID := "admins@g.us";
     ANTHROPIC_API_KEY := "";
     GITHUB_TOKEN := "";
     SPREADSHEET_ID := "sheet";
     anthropic_post := fun _ => Raised (LibraryError "no route to host");
     json_loads := fun _ => Raised (LibraryError "Expecting value");
     greenapi_post := fun _ _ _ => Returned ok_response;
     get_player_balances := snapshot;
     now_timestamp := "02/04/26 07:00 PM PST";
     str_container := fun _ => "";
     sort_unordered := fun l => l |}.

Definition quoted (s : string) : string := Py.dquote ++ s ++ Py.dquote.

(** The JSON text of an answer that reads every command as [help] and asks
    for a confirmation. *)
Definition help_json : string :=
  "{" ++ quoted "intent" ++ ": " ++ quoted "help" ++ ", "
  ++ quoted "params" ++ ": {}, "
  ++ quoted "confirmation_required" ++ ": true}".

Definition help_value : json :=
  JDict [("intent", JStr "help"); ("params", JDict []);
         ("confirmation_required", JBool true)].

(** A world whose language model sends [answer] as the text of its only
    content block, and whose [json.loads] reads [parsed_text] as
    [parsed]. *)
Definition world_llm (answer parsed_text : string) (parsed : json) : World :=
  {| GREENAPI_INSTANCE_ID := "1101";
     GREENAPI_API_TOKEN := "token";
     ADMIN_DINKERS_GROUP_ID := "admins@g.us";
     ANTHROPIC_API_KEY := "sk-key";
     GITHUB_TOKEN := "";
     SPREADSHEET_ID := "sheet";
     anthropic_post := fun _ =>
       Returned {| status_code := 200; text := "";
                   json_body :=
                     Returned (JDict [("content",
                                       JList [JDict [("type", JStr "text");
                                                     ("text", JStr answer)]])]) |};
     json_loads := fun s =>
       if s =? parsed_text then Returned parsed
       else Raised (LibraryError "Expecting value");
     greenapi_post := fun _ _ _ => Returned ok_response;
     get_player_balances := snapshot;
     now_timestamp := "02/04/26 07:00 PM PST";
     str_container := fun _ => "";
     sort_unordered := fun l => l |}.

(** The model answers with the JSON text inside a code fence. *)
Definition world_llm_fenced_help : World :=
  world_llm ("```json" ++ Py.nl ++ help_json ++ Py.nl ++ "```") help_json help_value.

(** The model answers with a JSON array. *)
Definition world_llm_array : World := world_llm "[]" "[]" (JList []).

(** The model answers 200 with a body that has no content; [json.loads]
    reads the empty object. *)
Definition world_llm_no_content : World :=
  Spec.with_classifier (world_llm "" "{}" (JDict []))
    (fun _ => Returned {| status_code := 200; text := "";
                          json_body := Returned (JDict [("id", JStr "msg_1")]) |})
    (fun s => if s =? "{}" then Returned (JDict [])
              else Raised (LibraryError "Expecting value")).

(** The offline world with other values of its settings. *)
Definition world_other_settings : World :=
  {| GREENAPI_INSTANCE_ID := "2202";
     GREENAPI_API_TOKEN := "";
     ADMIN_DINKERS_GROUP_ID := "others@g.us";
     ANTHROPIC_API_KEY := "";
     GITHUB_TOKEN := "";
     SPREADSHEET_ID := "another sheet";
     anthropic_post := fun _ => Raised (LibraryError "no route to host");
     json_loads := fun _ => Raised (LibraryError "Expecting value");
     greenapi_post := fun _ _ _ => Raised (LibraryError "connection refused");
     get_player_balances := [];
     now_timestamp := "02/04/26 07:00 PM PST";
     str_container := fun _ => "";
     sort_unordered := fun l => l |}.

(** A sheet with a header and three rows: one too short to reach the
    balance column, one without a first name, and one player. *)
Definition short_row : list string := ["Ann"; "Lee"; "x"].
Definition nameless_row : list string :=
  [""; "Doe"; ""; ""; ""; ""; ""; "$5.00"].
Definition player_row : list string :=
  ["Bob"; "Ray "; ""; ""; ""; ""; ""; " $1,250.50 "].

Definition sheet : Spreadsheet :=
  {| service_available := true;
     execute_values :=
       Returned (Some [["First"; "Last"]; short_row; nameless_row; player_row]);
     float_of_str := fun s => if s =? "1250.50" then Some 1250.5%float else None |}.

End Samples.

(** * Properties *)

(** ** Facts about the string operations *)

Module PyStrFacts.
Import PyStr Spec.

Lemma append_nil_r (s : string) : s ++ "" = s.
Proof. induction s as [|c s IH]; simpl; [reflexivity | now rewrite IH]. Qed.

Lemma append_assoc (a b c : string) : (a ++ b) ++ c = a ++ b ++ c.
Proof. induction a as [|x a IH]; simpl; [reflexivity | now rewrite IH]. Qed.

Lemma length_append (a b : string) :
  String.length (a ++ b) = String.length a + String.length b.
Proof. induction a as [|x a IH]; simpl; [reflexivity | now rewrite IH]. Qed.

Lemma prefix_starts (p s : string) : String.prefix p s = true <-> starts s p.
Proof.
  revert s; induction p as [|a p IH]; intros s.
  - split; [intros _; now exists s | intros _; now destruct s].
  - destruct s as [|b s]; simpl.
    + split; [discriminate | intros [r H]; discriminate].
    + destruct (ascii_dec a b) as [->|Hab].
      * rewrite IH. split; intros [r H].
        -- exists r. now rewrite H.
        -- exists r. simpl in H. now injection H.
      * split; [discriminate | intros [r H]].
        simpl in H. injection H as H1 _. congruence.
Qed.

Lemma startswith_starts (s p : string) : startswith s p = true <-> starts s p.
Proof. apply prefix_starts. Qed.

Lemma contains_occurs (sub s : string) : contains sub s = true <-> occurs sub s.
Proof.
  induction s as [|c s IH]; cbn [contains].
  - rewrite prefix_starts. split.
    + intros [r H]. exists "", r. exact H.
    + intros [pre [post H]]. destruct pre; [now exists post | discriminate].
  - rewrite orb_true_iff, prefix_starts, IH. split.
    + intros [[r H] | [pre [post H]]].
      * exists "", r. exact H.
      * exists (String c pre), post. simpl. now rewrite H.
    + intros [pre [post H]]. destruct pre as [|x pre]; simpl in H.
      * left. now exists post.
      * right. injection H as _ H. now exists pre, post.
Qed.

Lemma mem_In (s : string) (l : list string) : mem s l = true <-> In s l.
Proof.
  unfold mem. rewrite existsb_exists. split.
  - intros [x [Hin Heq]]. apply String.eqb_eq in Heq. now subst.
  - intros Hin. exists s. split; [exact Hin | apply String.eqb_refl].
Qed.

Lemma lower_append (a b : string) : lower (a ++ b) = lower a ++ lower b.
Proof. induction a as [|x a IH]; simpl; [reflexivity | now rewrite IH]. Qed.

Lemma lower_length (s : string) : String.length (lower s) = String.length s.
Proof. induction s as [|x s IH]; simpl; [reflexivity | now rewrite IH]. Qed.

Lemma lower_char_idem (c : ascii) : lower_char (lower_char c) = lower_char c.
Proof. destruct c as [[] [] [] [] [] [] [] []]; reflexivity. Qed.

Lemma is_space_lower_char (c : ascii) : is_space (lower_char c) = is_space c.
Proof. destruct c as [[] [] [] [] [] [] [] []]; reflexivity. Qed.

Lemma lower_idem (s : string) : lower (lower s) = lower s.
Proof.
  induction s as [|c s IH]; simpl; [reflexivity|].
  now rewrite lower_char_idem, IH.
Qed.

Lemma lower_lstrip (s : string) : lower (lstrip s) = lstrip (lower s).
Proof.
  induction s as [|c s IH]; simpl; [reflexivity|].
  rewrite is_space_lower_char. now destruct (is_space c).
Qed.

Lemma lower_rstrip (s : string) : lower (rstrip s) = rstrip (lower s).
Proof.
  induction s as [|c s IH]; simpl; [reflexivity|].
  rewrite <- IH, is_space_lower_char.
  destruct (rstrip s); simpl; [now destruct (is_space c) | reflexivity].
Qed.

Lemma lower_strip (s : string) : lower (strip s) = strip (lower s).
Proof. unfold strip. now rewrite lower_rstrip, lower_lstrip. Qed.

Lemma lower_drop (n : nat) (s : string) : lower (drop n s) = drop n (lower s).
Proof.
  revert s; induction n as [|n IH]; intros [|c s]; simpl; trivial.
Qed.

(** A split of the lowered text is the lowering of a split of the text. *)
Lemma lower_split (s a b : string) :
  lower s = a ++ b ->
  exists s1 s2, s = s1 ++ s2 /\ lower s1 = a /\ lower s2 = b.
Proof.
  revert s; induction a as [|x a IH]; intros s H.
  - exists "", s. auto.
  - destruct s as [|c s]; simpl in H; [discriminate|].
    injection H as Hc Hs. destruct (IH _ Hs) as [s1 [s2 [E [H1 H2]]]].
    exists (String c s1), s2. simpl. now rewrite E, H1, Hc.
Qed.

Lemma drop_append (a b : string) : drop (String.length a) (a ++ b) = b.
Proof. induction a as [|x a IH]; simpl; [now destruct b | exact IH]. Qed.

(** *** Deleting the matches of a pattern *)

Lemma delete_matches_skip (hit : string -> bool) (n k : nat) (s : string) :
  delete_matches hit n k s = delete_matches hit n 0 (drop k s).
Proof.
  revert k; induction s as [|c s IH]; intros k.
  - now destruct k.
  - destruct k as [|k]; [reflexivity|]. simpl. apply IH.
Qed.

Lemma ci_hit_starts (tok s : string) :
  lower tok = tok -> (ci_hit tok s = true <-> starts_ci tok s).
Proof.
  intros Htok. unfold ci_hit. rewrite Htok, prefix_starts. split.
  - intros [r H]. destruct (lower_split _ _ _ H) as [m [rest [E [Hm _]]]].
    now exists m, rest.
  - intros [m [rest [E Hm]]]. exists (lower rest).
    now rewrite E, lower_append, Hm.
Qed.

Lemma occurs_ci_lower (tok s : string) :
  contains tok (lower s) = true <-> occurs_ci tok s.
Proof.
  rewrite contains_occurs. split.
  - intros [pre [post H]].
    destruct (lower_split _ _ _ H) as [s1 [s2 [E [H1 H2]]]].
    destruct (lower_split _ _ _ H2) as [m [s3 [E' [Hm _]]]].
    exists s1, m, s3. now rewrite E, E'.
  - intros [pre [m [post [E Hm]]]]. exists (lower pre), (lower post).
    now rewrite E, !lower_append, Hm.
Qed.

Lemma delete_matches_removed (tok : string) :
  lower tok = tok -> tok <> "" ->
  forall (fuel : nat) (s : string),
    String.length s <= fuel ->
    removed tok s (delete_matches (ci_hit tok) (String.length tok) 0 s).
Proof.
  intros Htok Hne. induction fuel as [|fuel IH]; intros s Hlen.
  - destruct s; [constructor | simpl in Hlen; lia].
  - destruct s as [|c s]; [constructor|].
    cbn [delete_matches]. destruct (ci_hit tok (String c s)) eqn:Hhit.
    + apply (ci_hit_starts _ _ Htok) in Hhit.
      destruct Hhit as [m [rest [E Hm]]].
      destruct m as [|x m].
      { simpl in Hm. congruence. }
      simpl in E. injection E as -> ->.
      rewrite delete_matches_skip.
      replace (Nat.pred (String.length tok)) with (String.length m)
        by (rewrite <- Hm; simpl; now rewrite lower_length).
      rewrite drop_append.
      apply (removed_match tok (String x m) rest); [exact Hm|].
      apply IH. simpl in Hlen. rewrite length_append in Hlen. lia.
    + apply removed_keep.
      * intros Hs. apply (ci_hit_starts _ _ Htok) in Hs. congruence.
      * apply IH. simpl in Hlen. lia.
Qed.

Lemma append_same_length (a a' b b' : string) :
  String.length a = String.length a' -> a ++ b = a' ++ b' -> a = a' /\ b = b'.
Proof.
  revert a'; induction a as [|x a IH]; intros [|y a'] Hlen H;
    simpl in Hlen; try discriminate.
  - now split.
  - simpl in H. injection H as -> H. injection Hlen as Hlen.
    destruct (IH _ Hlen H) as [-> ->]. now split.
Qed.

(** The relation fixes what is left of the text. *)
Lemma removed_functional (tok s out1 out2 : string) :
  tok <> "" -> removed tok s out1 -> removed tok s out2 -> out1 = out2.
Proof.
  intros Hne H1. revert out2.
  induction H1 as [|m rest out Hm H1 IH|c rest out Hno H1 IH]; intros out2 H2.
  - remember "" as s eqn:Es. destruct H2 as [|m rest out Hm H2|c rest out Hno H2].
    + reflexivity.
    + destruct m; [simpl in Hm; congruence | discriminate Es].
    + discriminate Es.
  - remember (m ++ rest) as s eqn:Es.
    destruct H2 as [|m' rest' out' Hm' H2|c rest' out' Hno H2].
    + destruct m; [simpl in Hm; congruence | discriminate Es].
    + assert (Hlen : String.length m' = String.length m)
        by (rewrite <- (lower_length m'), <- (lower_length m); congruence).
      destruct (append_same_length _ _ _ _ Hlen Es) as [-> ->].
      now apply IH.
    + elim Hno. exists m, rest. now split.
  - remember (String c rest) as s eqn:Es.
    destruct H2 as [|m' rest' out' Hm' H2|c' rest' out' Hno' H2].
    + discriminate Es.
    + elim Hno. exists m', rest'. now split.
    + injection Es as -> ->. f_equal. now apply IH.
Qed.

Lemma re_remove_ignorecase_removed (tok s : string) :
  lower tok = tok -> tok <> "" -> removed tok s (re_remove_ignorecase tok s).
Proof.
  intros Htok Hne. unfold re_remove_ignorecase.
  destruct tok as [|x tok]; [congruence|].
  now apply (delete_matches_removed (String x tok) Htok Hne (String.length s)).
Qed.

(** *** Whitespace *)

Lemma squeezed_collapse (b : bool) (s : string) :
  squeezed_from b (collapse_from b s) = true.
Proof.
  revert b; induction s as [|c s IH]; intros b; simpl; [reflexivity|].
  destruct (is_space c) eqn:Hc.
  - destruct b; [apply IH|]. simpl. apply IH.
  - simpl. rewrite Hc. apply IH.
Qed.

Lemma squeezed_lstrip (b : bool) (s : string) :
  squeezed_from b s = true -> squeezed_from false (lstrip s) = true.
Proof.
  revert b; induction s as [|c s IH]; intros b; simpl; [reflexivity|].
  destruct (is_space c) eqn:Hc.
  - rewrite !andb_true_iff. intros [_ H]. now apply (IH true).
  - intros H. simpl. now rewrite Hc.
Qed.

Lemma squeezed_rstrip (b : bool) (s : string) :
  squeezed_from b s = true -> squeezed_from b (rstrip s) = true.
Proof.
  revert b; induction s as [|c s IH]; intros b; simpl; [reflexivity|].
  destruct (is_space c) eqn:Hc.
  - rewrite !andb_true_iff. intros [[H1 H2] H3]. apply IH in H3.
    destruct (rstrip s) as [|x r]; [reflexivity|].
    cbn [squeezed_from]. rewrite Hc, H1, H2. exact H3.
  - intros H. apply IH in H.
    destruct (rstrip s) as [|x r]; cbn [squeezed_from]; rewrite Hc;
      [reflexivity | exact H].
Qed.

Lemma rstrip_idem (s : string) : rstrip (rstrip s) = rstrip s.
Proof.
  induction s as [|c s IH]; simpl; [reflexivity|].
  destruct (rstrip s) as [|x r] eqn:E.
  - destruct (is_space c) eqn:Hc; simpl; [reflexivity | now rewrite Hc].
  - cbn [rstrip]. cbn [rstrip] in IH. rewrite IH. reflexivity.
Qed.

Lemma lstrip_head (s : string) :
  lstrip s = "" \/ exists c r, lstrip s = String c r /\ is_space c = false.
Proof.
  induction s as [|c s IH]; simpl; [now left|].
  destruct (is_space c) eqn:Hc; [exact IH | right; now exists c, s].
Qed.

Lemma trimmed_strip (s : string) : trimmed (strip s).
Proof.
  unfold trimmed, strip. split; [|apply rstrip_idem].
  destruct (lstrip_head s) as [E | [c [r [E Hc]]]]; rewrite E.
  - reflexivity.
  - cbn [rstrip]. destruct (rstrip r); rewrite ?Hc; cbn [lstrip];
      now rewrite Hc.
Qed.

Lemma ws_normal_strip_collapse (s : string) :
  ws_normal (strip (collapse_ws s)).
Proof.
  split; [apply trimmed_strip|].
  unfold strip. apply squeezed_rstrip. apply (squeezed_lstrip false).
  apply squeezed_collapse.
Qed.

End PyStrFacts.

(** ** The normalizer: [extract_dry_run_flag] *)

Module Normalizer.
Import PyStr Spec PyStrFacts.

Lemma recognized_mentions (text : string) :
  recognized text <-> mentions_flag text = true.
Proof.
  unfold recognized, mentions_flag. rewrite existsb_exists.
  split; intros [tok [Hin H]]; exists tok; split; trivial;
    now apply occurs_ci_lower.
Qed.

Lemma flags_lowercase (tok : string) :
  In tok DRY_RUN_FLAGS -> lower tok = tok /\ tok <> "".
Proof.
  unfold DRY_RUN_FLAGS. simpl.
  intros [<-|[<-|[<-|[<-|[<-|[]]]]]]; split; (reflexivity || discriminate).
Qed.

(** The loop returns at the first token of its list that occurs. *)
Lemma extract_dry_run_loop_hit (before after : list string) (tok text : string) :
  (forall t, In t before -> contains t (lower text) = false) ->
  contains tok (lower text) = true ->
  extract_dry_run_loop (before ++ tok :: after) text (lower text)
  = (strip (collapse_ws (strip (re_remove_ignorecase tok text))), true).
Proof.
  induction before as [|b before IH]; intros Hbefore Htok; simpl.
  - now rewrite Htok.
  - rewrite (Hbefore b (or_introl eq_refl)). apply IH; [|exact Htok].
    intros t Ht. apply Hbefore. now right.
Qed.

Lemma extract_dry_run_loop_miss (flags : list string) (text : string) :
  (forall t, In t flags -> contains t (lower text) = false) ->
  extract_dry_run_loop flags text (lower text) = (text, false).
Proof.
  induction flags as [|b flags IH]; intros H; simpl; [reflexivity|].
  rewrite (H b (or_introl eq_refl)). apply IH. intros t Ht. apply H. now right.
Qed.

(** A list with an element that passes a test splits at the first one. *)
Lemma first_hit (test : string -> bool) (l : list string) :
  existsb test l = true ->
  exists before tok after,
    l = (before ++ tok :: after)%list /\ test tok = true
    /\ forall t, In t before -> test t = false.
Proof.
  induction l as [|x l IH]; simpl; [discriminate|].
  destruct (test x) eqn:Hx; simpl.
  - intros _. exists [], x, l. repeat split; trivial. intros t [].
  - intros H. destruct (IH H) as [before [tok [after [E [Ht Hb]]]]].
    exists (x :: before), tok, after. rewrite E. repeat split; trivial.
    intros t [<-|Hin]; [exact Hx | now apply Hb].
Qed.

Lemma not_occurs_ci (tok text : string) :
  ~ occurs_ci tok text <-> contains tok (lower text) = false.
Proof.
  rewrite <- occurs_ci_lower. destruct (contains tok (lower text)); split;
    intros H; congruence || (intros H'; discriminate) || now elim H.
Qed.

(** A text without a token comes back as it is. *)
Lemma extract_dry_run_flag_miss (text : string) :
  ~ recognized text -> extract_dry_run_flag text = (text, false).
Proof.
  intros Hnot. apply extract_dry_run_loop_miss. intros t Hin.
  apply not_occurs_ci. intros Hocc. apply Hnot. now exists t.
Qed.

(** C5. A text that contains a recognized dry-run token, in any case, comes
    back without the occurrences of the first token of the ordered list
    that it contains (the text that [removed] describes, and the only
    one), with its whitespace collapsed and trimmed, and with the dry-run
    flag set; a text that contains none comes back as it is (hence
    unchanged modulo whitespace collapsing) with the flag unset. *)
Theorem extract_dry_run_flag_spec (text : string) :
  (recognized text ->
   exists tok,
     first_token tok text
     /\ (forall out : string,
            removed tok text out <-> out = re_remove_ignorecase tok text)
     /\ extract_dry_run_flag text
        = (strip (collapse_ws (strip (re_remove_ignorecase tok text))), true)
     /\ ws_normal (fst (extract_dry_run_flag text)))
  /\ (~ recognized text ->
      extract_dry_run_flag text = (text, false)
      /\ collapse_ws (fst (extract_dry_run_flag text)) = collapse_ws text).
Proof.
  split.
  - intros Hrec. apply recognized_mentions in Hrec.
    destruct (first_hit _ _ Hrec) as [before [tok [after [E [Htok Hbefore]]]]].
    assert (Hin : In tok DRY_RUN_FLAGS)
      by (rewrite E; apply in_or_app; right; now left).
    destruct (flags_lowercase tok Hin) as [Hlow Hne].
    assert (Heq : extract_dry_run_flag text
                  = (strip (collapse_ws (strip (re_remove_ignorecase tok text))), true)).
    { unfold extract_dry_run_flag. rewrite E.
      now apply extract_dry_run_loop_hit. }
    exists tok. repeat split.
    + exists before, after. repeat split; trivial.
      * now apply occurs_ci_lower.
      * intros t Ht. apply not_occurs_ci. now apply Hbefore.
    + intros Hout. apply (removed_functional tok text); trivial.
      now apply re_remove_ignorecase_removed.
    + intros ->. now apply re_remove_ignorecase_removed.
    + exact Heq.
    + rewrite Heq. apply trimmed_strip.
    + rewrite Heq. apply trimmed_strip.
    + rewrite Heq. apply ws_normal_strip_collapse.
  - intros Hnot. rewrite (extract_dry_run_flag_miss text Hnot). now split.
Qed.

(** The token of [first_token] is unique, so the theorem above fixes the
    result. *)
Lemma first_token_unique (tok tok' text : string) :
  first_token tok text -> first_token tok' text -> tok = tok'.
Proof.
  intros [b [a [E [Ho Hb]]]] [b' [a' [E' [Ho' Hb']]]].
  rewrite E in E'. clear E. revert b' E' Hb'.
  induction b as [|x b IH]; intros b' E' Hb'.
  - destruct b' as [|y b']; simpl in E'; [now injection E'|].
    injection E' as Hy _. elim (Hb' y); [now left | now rewrite <- Hy].
  - destruct b' as [|y b']; simpl in E'.
    + injection E' as Hx _. elim (Hb x); [now left | now rewrite Hx].
    + injection E' as _ E'. apply (IH (fun t Ht => Hb t (or_intror Ht)) b' E').
      intros t Ht. apply Hb'. now right.
Qed.

Lemma extract_dry_run_flag_spec_witness :
  extract_dry_run_flag "/pb Deadbeats --DRY-RUN  now" = ("/pb Deadbeats now", true)
  /\ extract_dry_run_flag "/pb  deadbeats" = ("/pb  deadbeats", false).
Proof.
  split.
  - destruct (proj1 (extract_dry_run_flag_spec "/pb Deadbeats --DRY-RUN  now"))
      as [tok [Hfirst [_ [Heq _]]]].
    + apply recognized_mentions. reflexivity.
    + assert (Htok : tok = "--dry-run").
      { apply (first_token_unique _ _ _ Hfirst).
        exists [], ["--dry"; "-n"; "dry run"; "dryrun"]. repeat split.
        - now apply occurs_ci_lower.
        - intros t []. }
      rewrite Heq, Htok. reflexivity.
  - apply (proj2 (extract_dry_run_flag_spec "/pb  deadbeats")).
    intros H. apply recognized_mentions in H. discriminate H.
Defined.

(** A text with a token comes back with the flag set. *)
Lemma extract_dry_run_flag_hit (text : string) :
  recognized text -> snd (extract_dry_run_flag text) = true.
Proof.
  intros Hrec. apply recognized_mentions in Hrec.
  destruct (first_hit _ _ Hrec) as [before [tok [after [E [Htok Hbefore]]]]].
  unfold extract_dry_run_flag. rewrite E.
  now rewrite extract_dry_run_loop_hit.
Qed.

(** What the normalizer makes of a text with a token. *)
Lemma extract_dry_run_flag_first (text : string) :
  recognized text ->
  exists tok,
    In tok DRY_RUN_FLAGS /\ first_token tok text
    /\ extract_dry_run_flag text
       = (strip (collapse_ws (strip (re_remove_ignorecase tok text))), true).
Proof.
  intros Hrec. apply recognized_mentions in Hrec.
  destruct (first_hit _ _ Hrec) as [before [tok [after [E [Htok Hbefore]]]]].
  assert (Hin : In tok DRY_RUN_FLAGS)
    by (rewrite E; apply in_or_app; right; now left).
  exists tok. split; [exact Hin|]. split.
  - exists before, after. repeat split; trivial.
    + now apply occurs_ci_lower.
    + intros t Ht. apply not_occurs_ci. now apply Hbefore.
  - unfold extract_dry_run_flag. rewrite E. now apply extract_dry_run_loop_hit.
Qed.

(** *** The lengths *)

Lemma lstrip_length (s : string) : (String.length (lstrip s) <= String.length s)%nat.
Proof.
  induction s as [|c s IH]; cbn [lstrip]; [lia|].
  destruct (is_space c); cbn [String.length]; lia.
Qed.

Lemma rstrip_length (s : string) : (String.length (rstrip s) <= String.length s)%nat.
Proof.
  induction s as [|c s IH]; cbn [rstrip]; [lia|].
  destruct (rstrip s); [destruct (is_space c)|]; cbn [String.length] in *; lia.
Qed.

Lemma strip_length (s : string) : (String.length (strip s) <= String.length s)%nat.
Proof.
  unfold strip. pose proof (rstrip_length (lstrip s)). pose proof (lstrip_length s).
  lia.
Qed.

Lemma collapse_from_length (in_run : bool) (s : string) :
  (String.length (collapse_from in_run s) <= String.length s)%nat.
Proof.
  revert in_run. induction s as [|c s IH]; intros in_run; cbn [collapse_from]; [lia|].
  destruct (is_space c); [destruct in_run|]; cbn [String.length];
    try pose proof (IH true); try pose proof (IH false); lia.
Qed.

(** A pass deletes what is left to skip. *)
Lemma delete_matches_length (hit : string -> bool) (n : nat) (s : string) :
  forall skip : nat,
    (String.length (delete_matches hit n skip s) + Nat.min skip (String.length s)
     <= String.length s)%nat.
Proof.
  induction s as [|c s IH]; intros skip; cbn [delete_matches String.length].
  - destruct skip; cbn; lia.
  - destruct skip as [|k].
    + destruct (hit (String c s)); cbn [String.length].
      * pose proof (IH (pred n)). lia.
      * pose proof (IH 0%nat). lia.
    + pose proof (IH k). cbn [Nat.min]. lia.
Qed.

(** A pass over a text in which the pattern matches somewhere deletes at
    least one match. *)
Lemma delete_matches_hit_length (hit : string -> bool) (n : nat) (pre rest : string) :
  (forall t, hit t = true -> (n <= String.length t)%nat) ->
  hit rest = true ->
  (String.length (delete_matches hit n 0 (pre ++ rest)) + n
   <= String.length (pre ++ rest))%nat.
Proof.
  intros Hn Hrest.
  assert (Hhit : forall s, hit s = true ->
                           (String.length (delete_matches hit n 0 s) + n
                            <= String.length s)%nat).
  { intros s Hs. pose proof (Hn s Hs) as Hlen.
    destruct s as [|c s]; cbn [delete_matches String.length] in *.
    - lia.
    - rewrite Hs. pose proof (delete_matches_length hit n s (pred n)). lia. }
  induction pre as [|c pre IH]; [now apply Hhit|].
  change (String c pre ++ rest) with (String c (pre ++ rest)).
  destruct (hit (String c (pre ++ rest))) eqn:Hc; [now apply Hhit|].
  cbn [delete_matches String.length]. rewrite Hc. cbn [String.length]. lia.
Qed.

Lemma ci_hit_length (tok t : string) :
  ci_hit tok t = true -> (String.length tok <= String.length t)%nat.
Proof.
  unfold ci_hit. rewrite prefix_starts. intros [r H].
  apply (f_equal String.length) in H.
  rewrite length_append, !lower_length in H. lia.
Qed.

(** Removing a token that occurs shortens the text by its length at
    least. *)
Lemma re_remove_ignorecase_length (tok s : string) :
  lower tok = tok -> tok <> "" -> occurs_ci tok s ->
  (String.length (re_remove_ignorecase tok s) + String.length tok
   <= String.length s)%nat.
Proof.
  intros Hlow Hne [pre [m [post [-> Hm]]]].
  unfold re_remove_ignorecase. destruct tok as [|a tok]; [now elim Hne|].
  apply delete_matches_hit_length; [apply ci_hit_length|].
  apply ci_hit_starts; [exact Hlow|]. now exists m, post.
Qed.

Lemma normalized_length (tok s : string) :
  (String.length (strip (collapse_ws (strip (re_remove_ignorecase tok s))))
   <= String.length (re_remove_ignorecase tok s))%nat.
Proof.
  pose proof (strip_length (collapse_ws (strip (re_remove_ignorecase tok s)))).
  pose proof (collapse_from_length false (strip (re_remove_ignorecase tok s))).
  pose proof (strip_length (re_remove_ignorecase tok s)).
  unfold collapse_ws in *. lia.
Qed.

(** A pass that finds a token returns a text that is shorter by the
    token at least. *)
Lemma extract_dry_run_flag_shorter (text : string) :
  recognized text ->
  exists tok,
    In tok DRY_RUN_FLAGS /\ first_token tok text
    /\ extract_dry_run_flag text
       = (strip (collapse_ws (strip (re_remove_ignorecase tok text))), true)
    /\ (String.length (fst (extract_dry_run_flag text)) + String.length tok
        <= String.length text)%nat.
Proof.
  intros Hrec.
  destruct (extract_dry_run_flag_first text Hrec) as [tok [Hin [Hfirst Heq]]].
  exists tok. repeat split; trivial.
  rewrite Heq. cbn [fst].
  destruct (flags_lowercase tok Hin) as [Hlow Hne].
  destruct Hfirst as [before [after [_ [Hocc _]]]].
  pose proof (re_remove_ignorecase_length tok text Hlow Hne Hocc).
  pose proof (normalized_length tok text). lia.
Qed.

(** The normalizer never makes a text longer. *)
Lemma extract_dry_run_flag_length (text : string) :
  (String.length (fst (extract_dry_run_flag text)) <= String.length text)%nat.
Proof.
  destruct (mentions_flag text) eqn:Hm.
  - apply recognized_mentions in Hm.
    destruct (extract_dry_run_flag_shorter text Hm) as [tok [_ [_ [_ H]]]]. lia.
  - assert (Hnot : ~ recognized text)
      by (intros H; apply recognized_mentions in H; congruence).
    rewrite (extract_dry_run_flag_miss text Hnot). cbn [fst]. lia.
Qed.

(** The passes reach a text without a token. *)
Lemma normalize_reaches (k : nat) :
  forall text : string,
    (String.length text <= k)%nat ->
    exists n : nat, (n <= k)%nat /\ ~ recognized (normalize n text).
Proof.
  induction k as [|k IH]; intros text Hlen.
  - exists 0%nat. split; [lia|]. cbn. intros Hrec.
    destruct (extract_dry_run_flag_shorter text Hrec) as [tok [Hin [_ [_ H]]]].
    destruct (flags_lowercase tok Hin) as [_ Hne].
    destruct tok; [now elim Hne | cbn [String.length] in H; lia].
  - destruct (mentions_flag text) eqn:Hm.
    + apply recognized_mentions in Hm.
      destruct (extract_dry_run_flag_shorter text Hm) as [tok [Hin [_ [_ H]]]].
      destruct (flags_lowercase tok Hin) as [_ Hne].
      assert (Hshort : (String.length (fst (extract_dry_run_flag text)) <= k)%nat)
        by (destruct tok; [now elim Hne | cbn [String.length] in H; lia]).
      destruct (IH _ Hshort) as [n [Hn Hnot]].
      exists (S n). split; [lia|].
      unfold normalize in *. now rewrite Nat.iter_succ_r.
    + exists 0%nat. split; [lia|]. cbn. intros H.
      apply recognized_mentions in H. congruence.
Qed.

(** C6, as the code has it. Normalizing again changes nothing and reports
    no dry run exactly when the normalized text contains no recognized
    token, which is the case of every text that contained none. A token
    is left only where one was found; the second pass then removes the
    occurrences of the first token of the list that is left, collapses
    and trims, reports a dry run, and returns a text that is shorter by
    that token at least. No pass makes the text longer, so that after at
    most as many passes as the text has characters a further pass changes
    nothing and reports no dry run. *)
Theorem extract_dry_run_flag_again (text : string) :
  (~ recognized (fst (extract_dry_run_flag text)) ->
   extract_dry_run_flag (fst (extract_dry_run_flag text))
   = (fst (extract_dry_run_flag text), false))
  /\ (~ recognized text ->
      extract_dry_run_flag (fst (extract_dry_run_flag text)) = (text, false))
  /\ (recognized (fst (extract_dry_run_flag text)) ->
      snd (extract_dry_run_flag (fst (extract_dry_run_flag text))) = true)
  /\ (extract_dry_run_flag (fst (extract_dry_run_flag text))
      = (fst (extract_dry_run_flag text), false) ->
      ~ recognized (fst (extract_dry_run_flag text)))
  /\ (recognized (fst (extract_dry_run_flag text)) ->
      recognized text
      /\ exists tok,
          first_token tok (fst (extract_dry_run_flag text))
          /\ extract_dry_run_flag (fst (extract_dry_run_flag text))
             = (strip (collapse_ws
                         (strip (re_remove_ignorecase
                                   tok (fst (extract_dry_run_flag text))))),
                true)
          /\ (String.length
                (fst (extract_dry_run_flag (fst (extract_dry_run_flag text))))
              + String.length tok
              <= String.length (fst (extract_dry_run_flag text)))%nat)
  /\ (String.length (fst (extract_dry_run_flag text)) <= String.length text)%nat
  /\ (exists n : nat,
         (n <= String.length text)%nat
         /\ extract_dry_run_flag (normalize n text) = (normalize n text, false)).
Proof.
  split; [apply extract_dry_run_flag_miss|].
  split.
  { intros H. rewrite (extract_dry_run_flag_miss text H). simpl.
    now apply extract_dry_run_flag_miss. }
  split; [apply extract_dry_run_flag_hit|].
  split.
  { intros Heq Hrec. apply extract_dry_run_flag_hit in Hrec.
    rewrite Heq in Hrec. discriminate Hrec. }
  split.
  { intros Hrec. split.
    - destruct (mentions_flag text) eqn:Hm; [now apply recognized_mentions|].
      assert (Hnot : ~ recognized text)
        by (intros H; apply recognized_mentions in H; congruence).
      rewrite (extract_dry_run_flag_miss text Hnot) in Hrec. now elim Hnot.
    - destruct (extract_dry_run_flag_shorter _ Hrec) as [tok [_ [Hfirst [Heq Hlen]]]].
      now exists tok. }
  split; [apply extract_dry_run_flag_length|].
  destruct (normalize_reaches (String.length text) text (le_n _)) as [n [Hn Hnot]].
  exists n. split; [exact Hn|]. now apply extract_dry_run_flag_miss.
Qed.

Lemma extract_dry_run_flag_again_witness :
  extract_dry_run_flag (fst (extract_dry_run_flag "/pb deadbeats --dry-run"))
  = ("/pb deadbeats", false)
  /\ extract_dry_run_flag (fst (extract_dry_run_flag "/pb deadbeats --dry-run -n"))
     = ("/pb deadbeats", true).
Proof.
  split.
  - apply (proj1 (extract_dry_run_flag_again "/pb deadbeats --dry-run")).
    intros H. apply recognized_mentions in H. discriminate H.
  - destruct (proj1 (proj2 (proj2 (proj2 (proj2
                (extract_dry_run_flag_again "/pb deadbeats --dry-run -n"))))))
      as [_ [tok [Hfirst [Heq _]]]].
    + apply recognized_mentions. reflexivity.
    + assert (Htok : tok = "-n").
      { apply (first_token_unique _ _ _ Hfirst).
        exists ["--dry-run"; "--dry"], ["dry run"; "dryrun"]. repeat split.
        - now apply occurs_ci_lower.
        - intros t [<-|[<-|[]]]; now apply not_occurs_ci. }
      rewrite Heq, Htok. reflexivity.
Defined.

(** C6, as stated, fails: a second flag survives the first pass, and the
    second pass removes it and reports a dry run. *)
Lemma extract_dry_run_flag_not_idempotent :
  extract_dry_run_flag "/pb deadbeats --dry-run -n" = ("/pb deadbeats -n", true)
  /\ extract_dry_run_flag "/pb deadbeats -n" = ("/pb deadbeats", true).
Proof. split; reflexivity. Qed.

End Normalizer.

(** ** The fallback classifier: [parse_intent_fallback] *)

Module Fallback.
Import PyStr Spec PyStrFacts.

Lemma not_mem_In (s : string) (l : list string) : mem s l = false <-> ~ In s l.
Proof.
  rewrite <- mem_In. destruct (mem s l); split; congruence || (intros H; now elim H).
Qed.

Lemma not_startswith (s p : string) : startswith s p = false <-> ~ starts s p.
Proof.
  rewrite <- startswith_starts.
  destruct (startswith s p); split; congruence || (intros H; now elim H).
Qed.

Lemma not_contains (sub s : string) : contains sub s = false <-> ~ occurs sub s.
Proof.
  rewrite <- contains_occurs.
  destruct (contains sub s); split; congruence || (intros H; now elim H).
Qed.

Lemma player_filter_params (name : string) :
  (if negb (name =? "") then [("player_name", JStr name)] else [])
  = player_filter name.
Proof. unfold player_filter. now destruct (name =? ""). Qed.

(** The result of the code is one that the rules allow. *)
Lemma parse_intent_fallback_rule (command_text : string) :
  fallback_rule (cleaned_text command_text) (parse_intent_fallback command_text).
Proof.
  unfold parse_intent_fallback. fold (cleaned_text command_text).
  set (t := cleaned_text command_text).
  destruct (mem t ["help"; "?"; "commands"]) eqn:H1.
  { apply rule_help. now apply mem_In. }
  apply not_mem_In in H1.
  destruct (mem t ["deadbeats"; "deadbeat"; "owes"; "outstanding"]) eqn:H2.
  { apply rule_deadbeats; trivial. now apply mem_In. }
  apply not_mem_In in H2.
  destruct (startswith t "balance") eqn:H3.
  { rewrite player_filter_params. apply rule_balance; trivial.
    now apply startswith_starts. }
  apply not_startswith in H3.
  destruct (startswith t "book") eqn:H4.
  { apply rule_book; trivial. now apply startswith_starts. }
  apply not_startswith in H4.
  destruct (contains "poll" t && contains "create" t) eqn:H5.
  { apply andb_true_iff in H5. destruct H5 as [Hp Hc].
    apply rule_poll; trivial. split; now apply contains_occurs. }
  assert (H5' : ~ asks_poll t).
  { intros [Hp Hc]. apply contains_occurs in Hp, Hc.
    rewrite Hp, Hc in H5. discriminate. }
  destruct (contains "reminder" t) eqn:H6.
  { apply rule_reminder; trivial. now apply contains_occurs. }
  apply not_contains in H6.
  destruct (mem t ["status"; "health"]) eqn:H7.
  { apply rule_status; trivial. now apply mem_In. }
  apply not_mem_In in H7.
  now apply rule_unknown.
Qed.

(** The rules allow one result only. *)
Lemma fallback_rule_functional (t : string) (j j' : json) :
  fallback_rule t j -> fallback_rule t j' -> j = j'.
Proof.
  intros H H'. destruct H; destruct H'; try reflexivity; contradiction.
Qed.

(** The cleaned text is in lower case and trimmed. *)
Lemma cleaned_text_normal (command_text : string) :
  lower (cleaned_text command_text) = cleaned_text command_text
  /\ trimmed (cleaned_text command_text).
Proof.
  unfold cleaned_text, COMMAND_PREFIXES, strip_command_prefix.
  set (t := strip (lower command_text)).
  assert (Ht : lower t = t) by (unfold t; now rewrite lower_strip, lower_idem).
  repeat match goal with
         | |- context [if ?b then _ else _] => destruct b
         end;
    (split; [ rewrite ?lower_strip, ?lower_drop, ?Ht; reflexivity
            | try apply trimmed_strip ]).
Qed.

(** The command prefix that is there, the short one first, is cut off. *)
Lemma cleaned_text_prefix (command_text : string) :
  let t := strip (lower command_text) in
  (starts t "/pb " -> cleaned_text command_text = strip (drop 4 t))
  /\ (~ starts t "/pb " -> starts t "/picklebot " ->
      cleaned_text command_text = strip (drop 11 t))
  /\ (~ starts t "/pb " -> ~ starts t "/picklebot " ->
      cleaned_text command_text = t).
Proof.
  cbv zeta. unfold cleaned_text, COMMAND_PREFIXES, strip_command_prefix.
  set (t := strip (lower command_text)).
  change (lower "/pb ") with "/pb ".
  change (lower "/picklebot ") with "/picklebot ".
  change (String.length "/pb ") with 4.
  change (String.length "/picklebot ") with 11.
  destruct (startswith t "/pb ") eqn:H1;
    [apply startswith_starts in H1 | apply not_startswith in H1];
    (destruct (startswith t "/picklebot ") eqn:H2;
     [apply startswith_starts in H2 | apply not_startswith in H2]);
    repeat split; intros; trivial; contradiction.
Qed.

(** C4. The fallback classifier reads the lowered text without its command
    prefix and answers by the first of the eight rules that applies, in
    the stated order: its answer is allowed by the rules, and the rules
    allow no other. The text that the rules read is the lowered and
    trimmed command, in lower case and trimmed again once its prefix, if
    it has one, is cut off. *)
Theorem parse_intent_fallback_rules (command_text : string) :
  fallback_rule (cleaned_text command_text) (parse_intent_fallback command_text)
  /\ (forall j : json,
         fallback_rule (cleaned_text command_text) j ->
         j = parse_intent_fallback command_text)
  /\ lower (cleaned_text command_text) = cleaned_text command_text
  /\ trimmed (cleaned_text command_text)
  /\ (let t := strip (lower command_text) in
      (starts t "/pb " -> cleaned_text command_text = strip (drop 4 t))
      /\ (~ starts t "/pb " -> starts t "/picklebot " ->
          cleaned_text command_text = strip (drop 11 t))
      /\ (~ starts t "/pb " -> ~ starts t "/picklebot " ->
          cleaned_text command_text = t)).
Proof.
  split; [apply parse_intent_fallback_rule|]. split.
  - intros j Hj. apply (fallback_rule_functional _ _ _ Hj).
    apply parse_intent_fallback_rule.
  - destruct (cleaned_text_normal command_text) as [Hl Ht].
    split; [exact Hl|]. split; [exact Ht|]. apply cleaned_text_prefix.
Qed.

Lemma parse_intent_fallback_rules_witness :
  parse_intent_fallback "/pb Book 2/4 7pm 2hrs"
  = intent_result "book_court" [("raw", JStr "book 2/4 7pm 2hrs")] true.
Proof.
  symmetry.
  apply (proj1 (proj2 (parse_intent_fallback_rules "/pb Book 2/4 7pm 2hrs"))).
  apply rule_book.
  - intros H. apply mem_In in H. discriminate H.
  - intros H. apply mem_In in H. discriminate H.
  - intros H. apply startswith_starts in H. discriminate H.
  - apply startswith_starts. reflexivity.
Defined.

Example fallback_balance_named :
  cleaned_text "  /PB Balance  John " = "balance  john"
  /\ parse_intent_fallback "  /PB Balance  John "
     = intent_result "show_balances" [("player_name", JStr "john")] false.
Proof. split; reflexivity. Qed.

Example fallback_balance_all :
  parse_intent_fallback "/pb balance" = intent_result "show_balances" [] false.
Proof. reflexivity. Qed.

Example fallback_rule_order :
  parse_intent_fallback "/pb book a reminder to create a poll"
  = intent_result "book_court" [("raw", JStr "book a reminder to create a poll")] true
  /\ parse_intent_fallback "/pb create poll reminder"
     = intent_result "create_poll" [] true
  /\ parse_intent_fallback "/pb who owes money?"
     = intent_result "unknown" [("raw", JStr "who owes money?")] false.
Proof. repeat split; reflexivity. Qed.

End Fallback.

(** ** The classifier: [parse_intent_with_claude] *)

Module Classifier.
Import PyStr Spec PyStrFacts.

Lemma fallback_well_formed (text : string) :
  well_formed_intent (parse_intent_fallback text).
Proof.
  unfold well_formed_intent.
  destruct (Fallback.parse_intent_fallback_rule text);
    match goal with
    | |- exists _ _, intent_result ?i ?p _ = _ /\ _ => exists i, p
    end; (split; [reflexivity | simpl; tauto]).
Qed.

Lemma primary_failure_fallback (w : World) (text : string) :
  primary_failure w text ->
  parse_intent_with_claude w text = parse_intent_fallback text.
Proof.
  intros Hfail. unfold parse_intent_with_claude, parse_intent_try.
  destruct (ANTHROPIC_API_KEY w =? "") eqn:Hkey; [reflexivity|].
  destruct Hfail as [H | e H | r H Hs | r e H Hb | r res e H Hb Ha
                     | r res c e H Hb Ha Hl].
  - rewrite H in Hkey. discriminate.
  - now rewrite H.
  - rewrite H. simpl. apply Z.eqb_neq in Hs. now rewrite Hs.
  - rewrite H. simpl. destruct (status_code r =? 200)%Z; [|reflexivity].
    now rewrite Hb.
  - rewrite H. simpl. destruct (status_code r =? 200)%Z; [|reflexivity].
    rewrite Hb. simpl. now rewrite Ha.
  - rewrite H. simpl. destruct (status_code r =? 200)%Z; [|reflexivity].
    rewrite Hb. simpl. rewrite Ha. simpl. now rewrite Hl.
Qed.

Lemma primary_answer_returned (w : World) (text : string) (j : json) :
  primary_answer w text j -> parse_intent_with_claude w text = j.
Proof.
  intros [Hkey [r [res [c [H [Hs [Hb [Ha Hl]]]]]]]].
  unfold parse_intent_with_claude, parse_intent_try.
  apply String.eqb_neq in Hkey. rewrite Hkey, H. simpl.
  apply Z.eqb_eq in Hs. rewrite Hs, Hb. simpl. rewrite Ha. simpl. now rewrite Hl.
Qed.

Lemma primary_failure_or_answer (w : World) (text : string) :
  primary_failure w text \/ exists j, primary_answer w text j.
Proof.
  destruct (ANTHROPIC_API_KEY w =? "") eqn:Hkey.
  { left. apply missing_api_key. now apply String.eqb_eq. }
  apply String.eqb_neq in Hkey.
  destruct (anthropic_post w text) as [r|e] eqn:H;
    [|left; now apply (network_error _ _ e)].
  destruct (Z.eq_dec (status_code r) 200) as [Hs|Hs];
    [|left; now apply (bad_status _ _ r)].
  destruct (json_body r) as [res|e] eqn:Hb;
    [|left; now apply (unreadable_body _ _ r e)].
  destruct (answer_text res) as [c|e] eqn:Ha;
    [|left; now apply (unexpected_body _ _ r res e)].
  destruct (json_loads w (strip_code_fence c)) as [j|e] eqn:Hl;
    [|left; now apply (malformed_json _ _ r res c e)].
  right. exists j. split; [exact Hkey|]. now exists r, res, c.
Qed.




End Classifier.

(** ** Dispatch: [process_command] *)

Module Dispatch.
Import PyStr Spec PyStrFacts.

Lemma eq_str_true (j : json) (s : string) : Py.eq_str j s = true -> j = JStr s.
Proof.
  destruct j; simpl; try discriminate. intros H. apply String.eqb_eq in H.
  now subst.
Qed.

Lemma lookup_set_other (k k' : string) (v : json) (d : list (string * json)) :
  k <> k' -> Py.lookup k (Py.set k' v d) = Py.lookup k d.
Proof.
  intros Hk. induction d as [|[x y] d IH]; simpl.
  - apply String.eqb_neq in Hk. rewrite String.eqb_sym. now rewrite Hk.
  - destruct (x =? k') eqn:E; simpl.
    + apply String.eqb_eq in E. subst x.
      apply String.eqb_neq in Hk. rewrite String.eqb_sym. now rewrite Hk.
    + now rewrite IH.
Qed.

(** Breaks a hypothesis on a sequence of steps into its steps. *)
Ltac steps H :=
  repeat match type of H with
         | bind ?m _ = Returned _ =>
             let E := fresh "E" in
             destruct m eqn:E; cbn [bind] in H; [|discriminate H]
         end.

(** Closes the parts of [dispatch_shape] that hold by computation in the
    branch of a known intent, and leaves the message to be shown not
    empty. *)
Ltac known_branch :=
  split; [reflexivity|]; split; [reflexivity|]; split;
  [ | intros ?; cbn [bind]; simpl (Py.eq_str _ _); cbn [bind];
      repeat match goal with
             | E : _ = Returned _ |- _ => rewrite E; cbn [bind]
             end;
      reflexivity ].

Lemma build_result_fields (dr : json) (m i : string) :
  let r := build_result dr m (result_kwargs i) in
  Py.get r "intent" JNull = Returned (JStr i)
  /\ Py.get r "needs_confirmation" (JBool false)
     = Returned (JBool (requires_confirmation i))
  /\ (forall default, Py.get r "dry_run" default = Returned dr)
  /\ Py.get r "message" JNull
     = Returned (JStr (if Py.truthy dr then DRY_RUN_MARK ++ m else m)).
Proof.
  unfold build_result, result_kwargs.
  destruct (Py.truthy dr); destruct (requires_confirmation i);
    repeat split; reflexivity.
Qed.

(** What [dispatch] returns is built by [build_result] from a message that
    does not depend on the dry-run flag, with the intent that the
    classifier answered and the confirmation that the taxonomy gives it. *)
Lemma dispatch_shape (w : World) (c : string) (dr d r : json) :
  dispatch w c dr d = Returned r ->
  exists (m : string) (j : json),
    Py.get d "intent" (JStr "unknown") = Returned j
    /\ r = build_result dr m (result_kwargs (dispatched_intent j))
    /\ Py.truthy (JStr m) = true
    /\ forall dr', dispatch w c dr' d
                   = Returned (build_result dr' m (result_kwargs (dispatched_intent j))).
Proof.
  unfold dispatch. intros H.
  destruct (Py.get d "intent" (JStr "unknown")) as [j|] eqn:Hj;
    cbn [bind] in H; [|discriminate H].
  destruct (Py.get d "params" (JDict [])) as [params|] eqn:Hp;
    cbn [bind] in H; [|discriminate H].
  destruct (Py.get d "confirmation_required" (JBool false)) as [nc|] eqn:Hc;
    cbn [bind] in H; [|discriminate H].
  destruct (Py.eq_str j "help") eqn:T1.
  { apply eq_str_true in T1. subst j. injection H as <-.
    exists handle_help, (JStr "help"). known_branch. reflexivity. }
  destruct (Py.eq_str j "show_deadbeats") eqn:T2.
  { apply eq_str_true in T2. subst j. injection H as <-.
    exists (handle_deadbeats w), (JStr "show_deadbeats"). known_branch.
    unfold handle_deadbeats. now destruct (filter _ _). }
  destruct (Py.eq_str j "show_balances") eqn:T3.
  { apply eq_str_true in T3. subst j. steps H. injection H as <-.
    exists a0, (JStr "show_balances"). known_branch.
    unfold handle_balances in E0.
    destruct (Py.truthy a).
    - steps E0. destruct (filter _ _) as [|p [|q l]];
        [ | destruct (balance p =? 0)%float | ]; now injection E0 as <-.
    - now injection E0 as <-. }
  destruct (Py.eq_str j "show_status") eqn:T4.
  { apply eq_str_true in T4. subst j. injection H as <-.
    exists (handle_status w), (JStr "show_status"). known_branch. reflexivity. }
  destruct (Py.eq_str j "book_court") eqn:T5.
  { apply eq_str_true in T5. subst j. steps H. injection H as <-.
    exists a, (JStr "book_court"). known_branch.
    unfold handle_book_court_preview in E. steps E. now injection E as <-. }
  destruct (Py.eq_str j "create_poll") eqn:T6.
  { apply eq_str_true in T6. subst j. injection H as <-.
    exists handle_create_poll_preview, (JStr "create_poll"). known_branch.
    reflexivity. }
  destruct (Py.eq_str j "send_reminders") eqn:T7.
  { apply eq_str_true in T7. subst j. steps H. injection H as <-.
    exists (handle_send_reminders_preview w a), (JStr "send_reminders").
    known_branch. reflexivity. }
  steps H. injection H as <-.
  assert (Hu : dispatched_intent j = "unknown").
  { destruct j; try reflexivity. simpl in T1, T2, T3, T4, T5, T6, T7.
    unfold dispatched_intent, mem, known_intents. cbn [existsb].
    rewrite T1, T2, T3, T4, T5, T6, T7. cbn [orb].
    destruct (s =? "unknown") eqn:Tu; [now apply String.eqb_eq in Tu | reflexivity]. }
  exists (handle_unknown w a), j. rewrite Hu.
  split; [reflexivity|]. split; [reflexivity|]. split; [reflexivity|].
  intros dr'. cbn [bind]. rewrite T1, T2, T3, T4, T5, T6, T7, E. reflexivity.
Qed.

(** The answer of the classifier about confirmation is read and dropped. *)
Lemma dispatch_ignores_confirmation_required
      (w : World) (c : string) (dr v : json) (d : list (string * json)) :
  dispatch w c dr (JDict (Py.set "confirmation_required" v d))
  = dispatch w c dr (JDict d).
Proof.
  unfold dispatch. cbn [Py.get bind].
  rewrite !lookup_set_other by discriminate. reflexivity.
Qed.

Lemma dispatched_known (intent : string) :
  In intent known_intents -> dispatched_intent (JStr intent) = intent.
Proof.
  intros H. unfold dispatched_intent.
  apply mem_In in H. now rewrite H.
Qed.

Lemma handle_balances_returns (w : World) (v : json) :
  Py.truthy v = false \/ (exists s, v = JStr s) ->
  exists m, handle_balances w v = Returned m.
Proof.
  unfold handle_balances. intros [Hv | [s ->]].
  - rewrite Hv. eexists. reflexivity.
  - destruct (Py.truthy (JStr s)); [|eexists; reflexivity].
    cbn [Py.str_method bind].
    destruct (filter _ _) as [|p [|q l]];
      [ | destruct (balance p =? 0)%float | ]; eexists; reflexivity.
Qed.

(** A usable answer is dispatched to a result. *)
Lemma dispatch_returns (w : World) (c : string) (dr classified : json) :
  usable_answer classified -> exists r, dispatch w c dr classified = Returned r.
Proof.
  intros [d [p [-> [Hp Hname]]]]. unfold dispatch. rewrite Hp.
  cbn [Py.get bind].
  destruct (handle_balances_returns w
              (match Py.lookup "player_name" p with Some v => v | None => JNull end))
    as [m Hm].
  { destruct (Py.lookup "player_name" p); [exact Hname | now left]. }
  rewrite Hm. cbn [bind].
  repeat match goal with
         | |- context [if ?b then _ else _] => destruct b
         end; eexists; reflexivity.
Qed.

Lemma fallback_usable (text : string) : usable_answer (parse_intent_fallback text).
Proof.
  destruct (Fallback.parse_intent_fallback_rule text);
    try (eexists; eexists; split; [reflexivity|]; split; [reflexivity|];
         exact I).
  unfold player_filter.
  destruct (strip (remove "balance" (cleaned_text text)) =? "");
    eexists; eexists; (split; [reflexivity|]); (split; [reflexivity|]);
    cbn; [exact I | right; eexists; reflexivity].
Qed.

(** C1. The confirmation flag of the result of a command is a function of
    its intent alone: when the classifier answers a known intent, the
    result carries that intent, and its flag, read the way the webhook
    reads it, is true for [book_court], [create_poll] and [send_reminders]
    and false for the other known intents; whatever the classifier
    reported as [confirmation_required] changes nothing in the result; and
    there is such a result whenever the answer of the classifier is one
    that the handlers can read, as every answer of the fallback is. *)
Theorem confirmation_by_intent :
  (forall (w : World) (text : string) (sender_data dry_run : json)
          (intent : string) (result : json),
      In intent known_intents ->
      Py.get (parse_intent_with_claude w (fst (extract_dry_run_flag text)))
             "intent" (JStr "unknown") = Returned (JStr intent) ->
      process_command w (JStr text) sender_data dry_run = Returned result ->
      Py.get result "intent" JNull = Returned (JStr intent)
      /\ Py.get result "needs_confirmation" (JBool false)
         = Returned (JBool (requires_confirmation intent))
      /\ (requires_confirmation intent = true
          <-> In intent ["book_court"; "create_poll"; "send_reminders"]))
  /\ (forall (w : World) (cleaned : string) (is_dry_run reported : json)
             (answer : list (string * json)),
         dispatch w cleaned is_dry_run
                  (JDict (Py.set "confirmation_required" reported answer))
         = dispatch w cleaned is_dry_run (JDict answer))
  /\ (forall (w : World) (text : string) (sender_data dry_run : json),
         usable_answer (parse_intent_with_claude w (fst (extract_dry_run_flag text))) ->
         exists result : json,
           process_command w (JStr text) sender_data dry_run = Returned result)
  /\ (forall text : string, usable_answer (parse_intent_fallback text)).
Proof.
  split; [|split; [intros; apply dispatch_ignores_confirmation_required|split]].
  - intros w text sd dr intent result Hknown Hcls Hrun.
    unfold process_command in Hrun. cbn [Py.str_method bind] in Hrun.
    destruct (extract_dry_run_flag text) as [cleaned text_dry] eqn:Hx.
    cbn [fst] in Hcls.
    destruct (dispatch_shape _ _ _ _ _ Hrun) as [m [j [Hj [Hr _]]]].
    rewrite Hcls in Hj. injection Hj as <-.
    rewrite (dispatched_known _ Hknown) in Hr. subst result.
    destruct (build_result_fields
                (Py.or_ dr (JBool text_dry)) m intent) as [Hi [Hn _]].
    repeat split; trivial.
    + intros H. now apply mem_In.
    + intros H. now apply mem_In.
  - intros w text sd dr Hus. unfold process_command.
    cbn [Py.str_method bind].
    destruct (extract_dry_run_flag text) as [cleaned text_dry].
    now apply dispatch_returns.
  - apply fallback_usable.
Qed.

Lemma confirmation_by_intent_witness :
  exists result : json,
    process_command Samples.world_llm_fenced_help (JStr "/pb status")
                    (JDict []) (JBool false) = Returned result
    /\ Py.get (parse_intent_with_claude Samples.world_llm_fenced_help "/pb status")
              "confirmation_required" (JBool false) = Returned (JBool true)
    /\ Py.get result "needs_confirmation" (JBool false) = Returned (JBool false).
Proof.
  exists (build_result (JBool false) handle_help (result_kwargs "help")).
  split; [reflexivity|]. split; [reflexivity|].
  apply (proj1 (proj2 (proj1 confirmation_by_intent
                         Samples.world_llm_fenced_help "/pb status"
                         (JDict []) (JBool false) "help" _
                         (or_introl eq_refl) eq_refl eq_refl))).
Defined.

End Dispatch.

(** ** The HTTP entry point: [picklebot_webhook] *)

Module Webhook.
Import PyStr Spec PyStrFacts.

Lemma send_whatsapp_message_sent (w : World) (chat_id message dry_run : json) :
  snd (send_whatsapp_message w chat_id message dry_run)
  = if Py.truthy dry_run then []
    else if gateway_configured w then [gateway_post w chat_id message] else [].
Proof.
  unfold send_whatsapp_message, gateway_configured.
  destruct (Py.truthy dry_run); [reflexivity|].
  destruct (GREENAPI_INSTANCE_ID w =? ""); [reflexivity|].
  destruct (GREENAPI_API_TOKEN w =? ""); reflexivity.
Qed.

Lemma respond_built (w : World) (chat_id override effective : json)
      (m i : string) :
  Py.truthy (JStr m) = true ->
  respond w chat_id override (build_result effective m (result_kwargs i))
  = Returned (processed i effective m, delivered w chat_id effective m).
Proof.
  intros Hm. unfold respond, processed, delivered.
  destruct (Dispatch.build_result_fields effective m i) as [Hi [Hn [Hd Hmsg]]].
  cbv zeta in Hi, Hn, Hd, Hmsg.
  rewrite (Hd override), Hmsg, Hi, Hn. cbn [bind].
  rewrite send_whatsapp_message_sent.
  destruct (Py.truthy effective) eqn:He.
  - reflexivity.
  - now rewrite Hm.
Qed.

Lemma process_command_shape (w : World) (command sender_data override result : json) :
  process_command w command sender_data override = Returned result ->
  exists (text m : string) (j : json),
    command = JStr text
    /\ Py.get (parse_intent_with_claude w (fst (extract_dry_run_flag text)))
              "intent" (JStr "unknown") = Returned j
    /\ result = build_result (Py.or_ override (JBool (snd (extract_dry_run_flag text))))
                             m (result_kwargs (dispatched_intent j))
    /\ Py.truthy (JStr m) = true
    /\ forall dr',
        dispatch w (fst (extract_dry_run_flag text)) dr'
                 (parse_intent_with_claude w (fst (extract_dry_run_flag text)))
        = Returned (build_result dr' m (result_kwargs (dispatched_intent j))).
Proof.
  unfold process_command. intros H.
  destruct command; try discriminate H. cbn [Py.str_method bind] in H.
  destruct (extract_dry_run_flag s) as [cleaned text_dry] eqn:Hx.
  destruct (Dispatch.dispatch_shape _ _ _ _ _ H) as [m [j [Hj [Hr [Hm Hall]]]]].
  exists s, m, j. rewrite Hx. repeat split; assumption.
Qed.

Lemma webhook_post (w : World) (data : json) :
  Py.truthy data = true ->
  picklebot_webhook w (post_request data)
  = try_except (webhook_try w data)
               (fun e => (reply [("error", JStr (Py.str_exn e))] 500, [])).
Proof.
  intros Hdata. unfold picklebot_webhook, post_request. cbn [method get_json].
  change ("POST" =? "OPTIONS") with false. change ("POST" =? "POST") with true.
  cbn [negb]. rewrite Hdata. reflexivity.
Qed.

(** A request whose command is processed gets the answer [processed]. *)
Lemma webhook_built (w : World)
      (data override command chat_id sender_data effective : json) (m i : string) :
  Py.truthy data = true ->
  Py.get data "dry_run" (JBool false) = Returned override ->
  read_request w data = Returned (inl (command, chat_id, sender_data)) ->
  process_command w command sender_data override
  = Returned (build_result effective m (result_kwargs i)) ->
  Py.truthy (JStr m) = true ->
  picklebot_webhook w (post_request data)
  = (processed i effective m, delivered w chat_id effective m).
Proof.
  intros Hdata Hdry Hread Hrun Hm. rewrite (webhook_post _ _ Hdata).
  unfold webhook_try. rewrite Hdry. cbn [bind]. rewrite Hread. cbn [bind].
  rewrite Hrun. cbn [bind]. now rewrite respond_built.
Qed.

Lemma webhook_processed (w : World) (data override command chat_id sender_data result : json) :
  Py.truthy data = true ->
  Py.get data "dry_run" (JBool false) = Returned override ->
  read_request w data = Returned (inl (command, chat_id, sender_data)) ->
  process_command w command sender_data override = Returned result ->
  exists (intent m : string) (effective : json),
    picklebot_webhook w (post_request data)
    = (processed intent effective m, delivered w chat_id effective m).
Proof.
  intros Hdata Hdry Hread Hrun.
  destruct (process_command_shape _ _ _ _ _ Hrun)
    as [text [m [j [Hc [Hj [Hr [Hm Hall]]]]]]].
  rewrite Hr in Hrun.
  eexists; eexists; eexists. now apply (webhook_built _ _ _ _ _ _ _ _ _ Hdata Hdry Hread Hrun).
Qed.

(** A request whose command raises gets the answer 500. *)
Lemma webhook_command_raised (w : World)
      (data override command chat_id sender_data : json) (e : exn) :
  Py.truthy data = true ->
  Py.get data "dry_run" (JBool false) = Returned override ->
  read_request w data = Returned (inl (command, chat_id, sender_data)) ->
  process_command w command sender_data override = Raised e ->
  picklebot_webhook w (post_request data)
  = (reply [("error", JStr (Py.str_exn e))] 500, []).
Proof.
  intros Hdata Hdry Hread Hrun. rewrite (webhook_post _ _ Hdata).
  unfold webhook_try. rewrite Hdry. cbn [bind]. rewrite Hread. cbn [bind].
  now rewrite Hrun.
Qed.

(** A request that raises gets the answer 500 with the text of the
    exception. *)
Lemma webhook_raised (w : World) (data : json) (e : exn) :
  Py.truthy data = true ->
  webhook_try w data = Raised e ->
  picklebot_webhook w (post_request data)
  = (reply [("error", JStr (Py.str_exn e))] 500, []).
Proof.
  intros Hdata Hraise. rewrite (webhook_post _ _ Hdata). now rewrite Hraise.
Qed.

(** What the [try] block returns has status 200. *)
Lemma webhook_try_status (w : World) (data : json) (answer : http_response)
      (sent : list post) :
  webhook_try w data = Returned (answer, sent) -> status answer = 200%Z.
Proof.
  unfold webhook_try. intros H. Dispatch.steps H.
  destruct a0 as [[[command chat_id] sender_data] | ignored_answer].
  - Dispatch.steps H. unfold respond in H. Dispatch.steps H.
    now injection H as <- _.
  - injection H as <- _. unfold read_request in E0.
    destruct data; try discriminate E0.
    destruct (Py.lookup "command" d).
    + Dispatch.steps E0. discriminate E0.
    + Dispatch.steps E0.
      repeat match type of E0 with
             | (if ?b then _ else _) = _ => destruct b
             | bind _ _ = _ => Dispatch.steps E0
             end; try discriminate E0; now injection E0 as <-.
Qed.

(** C7, as the code has it. An exception that reaches the top level of the
    entry point is caught there and answered by status 500 with a body
    whose [error] field is the text of the exception itself; and a 500 is
    only ever the answer to such an exception. *)
Theorem internal_error_response (w : World) (data : json) :
  (forall e : exn,
      Py.truthy data = true ->
      webhook_try w data = Raised e ->
      picklebot_webhook w (post_request data)
      = (reply [("error", JStr (Py.str_exn e))] 500, []))
  /\ (status (fst (picklebot_webhook w (post_request data))) = 500%Z ->
      exists e : exn,
        webhook_try w data = Raised e
        /\ body (fst (picklebot_webhook w (post_request data)))
           = JDict [("error", JStr (Py.str_exn e))]).
Proof.
  split; [intros e; apply webhook_raised|].
  unfold picklebot_webhook, post_request. cbn [method get_json].
  change ("POST" =? "OPTIONS") with false. change ("POST" =? "POST") with true.
  cbn [negb]. destruct (Py.truthy data); cbn [negb fst status]; [|discriminate].
  destruct (webhook_try w data) as [[answer sent]|e] eqn:Htry; cbn [try_except fst].
  - rewrite (webhook_try_status _ _ _ _ Htry). discriminate.
  - intros _. now exists e.
Qed.

Lemma internal_error_response_witness :
  picklebot_webhook Samples.world_offline (post_request (JList [JNull]))
  = (reply [("error", JStr "'list' object has no attribute 'get'")] 500, []).
Proof.
  apply (proj1 (internal_error_response Samples.world_offline (JList [JNull]))
               (AttributeError "list" "get")); reflexivity.
Defined.

(** C7, as stated, fails: the body of the 500 answer is no fixed message;
    it spells out what failed inside, here the Python type of the value
    and the method that it lacks. *)
Lemma internal_error_leaks_detail :
  fst (picklebot_webhook Samples.world_offline (post_request (JList [JNull])))
  = reply [("error", JStr "'list' object has no attribute 'get'")] 500
  /\ fst (picklebot_webhook Samples.world_offline
            (post_request (JDict [("command", JInt 7)])))
     = reply [("error", JStr "'int' object has no attribute 'lower'")] 500
  /\ fst (picklebot_webhook Samples.world_llm_array
            (post_request (JDict [("command", JStr "/pb status")])))
     = reply [("error", JStr "'list' object has no attribute 'get'")] 500.
Proof. repeat split; reflexivity. Qed.

(** *** Delivery *)

Lemma send_whatsapp_message_result (w : World) (chat_id message dry_run : json) :
  fst (send_whatsapp_message w chat_id message dry_run) = false
  <-> Py.truthy dry_run = false
      /\ (gateway_configured w = false
          \/ (exists e, greenapi_post w (post_url (gateway_post w chat_id message))
                                      chat_id message = Raised e)
          \/ (exists r, greenapi_post w (post_url (gateway_post w chat_id message))
                                      chat_id message = Returned r
                        /\ status_code r <> 200%Z)).
Proof.
  unfold send_whatsapp_message, gateway_configured, send_whatsapp_try.
  cbn [gateway_post post_url].
  destruct (Py.truthy dry_run); cbn [fst].
  { split; [discriminate | intros [H _]; discriminate]. }
  destruct (GREENAPI_INSTANCE_ID w =? ""); cbn [orb negb andb fst].
  { split; auto. }
  destruct (GREENAPI_API_TOKEN w =? ""); cbn [orb negb andb fst].
  { split; auto. }
  destruct (greenapi_post w _ chat_id message) as [r|e]; cbn [bind try_except].
  - destruct (status_code r =? 200)%Z eqn:Hs; cbn [try_except].
    + apply Z.eqb_eq in Hs. split; [discriminate|].
      intros [_ [H | [[e H] | [r' [H H']]]]]; try discriminate.
      injection H as <-. contradiction.
    + apply Z.eqb_neq in Hs. split; [|reflexivity].
      intros _. split; [reflexivity|]. right. right. now exists r.
  - split; [|reflexivity]. intros _. split; [reflexivity|]. right. left.
    now exists e.
Qed.

Lemma respond_with_gateway (w : World)
      (gateway : string -> json -> json -> outcome response)
      (chat_id dry_run result : json) :
  respond (with_gateway w gateway) chat_id dry_run result
  = respond w chat_id dry_run result.
Proof.
  unfold respond.
  destruct (Py.get result "dry_run" dry_run); cbn [bind]; [|reflexivity].
  destruct (Py.get result "message" JNull); cbn [bind]; [|reflexivity].
  rewrite !send_whatsapp_message_sent. reflexivity.
Qed.

(** The entry point does not look at what the gateway answers. *)
Lemma with_gateway_same (w : World)
      (gateway : string -> json -> json -> outcome response) (request : Request) :
  picklebot_webhook (with_gateway w gateway) request = picklebot_webhook w request.
Proof.
  unfold picklebot_webhook, webhook_try.
  change (read_request (with_gateway w gateway)) with (read_request w).
  change (process_command (with_gateway w gateway)) with (process_command w).
  destruct (method request =? "OPTIONS"); [reflexivity|].
  destruct (negb (method request =? "POST")); [reflexivity|].
  destruct (negb (Py.truthy (get_json request))); [reflexivity|].
  destruct (Py.get (get_json request) "dry_run" (JBool false)) as [dry_run|];
    cbn [bind]; [|reflexivity].
  destruct (read_request w (get_json request)) as [[[[c chat] sd]|answer]|];
    cbn [bind]; try reflexivity.
  destruct (process_command w c sd dry_run); cbn [bind]; [|reflexivity].
  now rewrite respond_with_gateway.
Qed.

(** C10. A delivery that fails does not change the HTTP result. The send
    function returns a boolean whatever happens: it is false exactly when,
    outside a dry run, the credentials are missing, the post raises or the
    gateway answers another status than 200. The entry point does not
    depend on what the gateway answers, and a command that was processed
    gets status 200 and the status text [processed] in every world. *)
Theorem delivery_failure_ignored :
  (forall (w : World) (chat_id message dry_run : json),
      fst (send_whatsapp_message w chat_id message dry_run) = false
      <-> Py.truthy dry_run = false
          /\ (gateway_configured w = false
              \/ (exists e,
                     greenapi_post w (post_url (gateway_post w chat_id message))
                                   chat_id message = Raised e)
              \/ (exists r,
                     greenapi_post w (post_url (gateway_post w chat_id message))
                                   chat_id message = Returned r
                     /\ status_code r <> 200%Z)))
  /\ (forall (w : World) (gateway : string -> json -> json -> outcome response)
             (request : Request),
         picklebot_webhook (with_gateway w gateway) request
         = picklebot_webhook w request)
  /\ (forall (w : World) (data override command chat_id sender_data result : json),
         Py.truthy data = true ->
         Py.get data "dry_run" (JBool false) = Returned override ->
         read_request w data = Returned (inl (command, chat_id, sender_data)) ->
         process_command w command sender_data override = Returned result ->
         status (fst (picklebot_webhook w (post_request data))) = 200%Z
         /\ Py.get (body (fst (picklebot_webhook w (post_request data))))
                   "status" JNull
            = Returned (JStr "processed")).
Proof.
  split; [exact send_whatsapp_message_result|].
  split; [exact with_gateway_same|].
  intros w data override command chat_id sender_data result Hdata Hdry Hread Hrun.
  destruct (webhook_processed _ _ _ _ _ _ _ Hdata Hdry Hread Hrun)
    as [intent [m [effective ->]]].
  split; reflexivity.
Qed.

Lemma delivery_failure_ignored_witness :
  fst (send_whatsapp_message Samples.world_no_credentials
         (JStr "admins@g.us") (JStr "hello") (JBool false)) = false
  /\ status (fst (picklebot_webhook Samples.world_no_credentials
                    (post_request (JDict [("command", JStr "/pb status")]))))
     = 200%Z.
Proof.
  split.
  - apply (proj1 delivery_failure_ignored). split; [reflexivity|].
    left. reflexivity.
  - apply (proj2 (proj2 delivery_failure_ignored)
             Samples.world_no_credentials
             (JDict [("command", JStr "/pb status")]) (JBool false)
             (JStr "/pb status") (JStr "admins@g.us")
             (JDict [("chatId", JStr "admins@g.us"); ("sender", JStr "");
                     ("senderName", JStr "")])
             (build_result (JBool false) (handle_status Samples.world_no_credentials)
                           (result_kwargs "show_status")));
      reflexivity.
Defined.

(** *** Dry run *)

Lemma or_truthy (a : json) (b : bool) :
  Py.truthy (Py.or_ a (JBool b)) = Py.truthy a || b.
Proof. unfold Py.or_. now destruct (Py.truthy a) eqn:Ha; [rewrite Ha|]. Qed.

Lemma process_command_text (w : World) (text : string) (sender_data override : json) :
  process_command w (JStr text) sender_data override
  = dispatch w (fst (extract_dry_run_flag text))
             (Py.or_ override (JBool (snd (extract_dry_run_flag text))))
             (parse_intent_with_claude w (fst (extract_dry_run_flag text))).
Proof.
  unfold process_command. cbn [Py.str_method bind].
  now destruct (extract_dry_run_flag text).
Qed.

(** In a dry run nothing is handed to the gateway, whatever else happens. *)
Lemma dry_run_no_send (w : World) (data override chat_id sender_data : json)
      (text : string) :
  Py.truthy data = true ->
  Py.get data "dry_run" (JBool false) = Returned override ->
  read_request w data = Returned (inl (JStr text, chat_id, sender_data)) ->
  Py.truthy (Py.or_ override (JBool (snd (extract_dry_run_flag text)))) = true ->
  snd (picklebot_webhook w (post_request data)) = [].
Proof.
  intros Hdata Hdry Hread Heff.
  destruct (process_command w (JStr text) sender_data override) as [result|e] eqn:Hrun.
  - destruct (process_command_shape _ _ _ _ _ Hrun)
      as [text' [m [j [Hc [Hj [Hr [Hm Hall]]]]]]].
    injection Hc as <-. rewrite Hr in Hrun.
    rewrite (webhook_built _ _ _ _ _ _ _ _ _ Hdata Hdry Hread Hrun Hm).
    unfold delivered. cbn [snd]. now rewrite Heff.
  - now rewrite (webhook_command_raised _ _ _ _ _ _ _ Hdata Hdry Hread Hrun).
Qed.

(** The answer to a command, from what the command yields in a plain run. *)
Lemma dry_run_of_plain (w : World) (data override chat_id sender_data plain : json)
      (text : string) :
  Py.truthy data = true ->
  Py.get data "dry_run" (JBool false) = Returned override ->
  read_request w data = Returned (inl (JStr text, chat_id, sender_data)) ->
  dispatch w (fst (extract_dry_run_flag text)) (JBool false)
           (parse_intent_with_claude w (fst (extract_dry_run_flag text)))
  = Returned plain ->
  exists m intent : string,
    plain = build_result (JBool false) m (result_kwargs intent)
    /\ picklebot_webhook w (post_request data)
       = (processed intent
                    (Py.or_ override (JBool (snd (extract_dry_run_flag text)))) m,
          delivered w chat_id
                    (Py.or_ override (JBool (snd (extract_dry_run_flag text)))) m).
Proof.
  intros Hdata Hdry Hread Hplain.
  destruct (Dispatch.dispatch_shape _ _ _ _ _ Hplain) as [m [j [Hj [Hr [Hm Hall]]]]].
  exists m, (dispatched_intent j). split; [exact Hr|].
  apply (webhook_built _ _ _ _ _ _ _ _ _ Hdata Hdry Hread); [|exact Hm].
  rewrite process_command_text. apply Hall.
Qed.

(** A classifier that answers [book_court] with a dictionary of
    parameters gets the preview of the booking. *)
Lemma dispatch_book_court (w : World) (c : string) (dr cls : json)
      (p : list (string * json)) :
  Py.get cls "intent" (JStr "unknown") = Returned (JStr "book_court") ->
  Py.get cls "params" (JDict []) = Returned (JDict p) ->
  exists m : string,
    handle_book_court_preview w (JDict p) = Returned m
    /\ Py.truthy (JStr m) = true
    /\ dispatch w c dr cls
       = Returned (build_result dr m (result_kwargs "book_court")).
Proof.
  intros Hi Hp. unfold dispatch. rewrite Hi, Hp.
  destruct cls; try discriminate Hi. cbn [Py.get bind].
  eexists. split; [reflexivity|]. split; reflexivity.
Qed.

(** The command of the specification's example, and what is left of it. *)
Lemma book_example_cleaned :
  extract_dry_run_flag "/pb book 2/4 7pm 2hrs --dry-run"
  = ("/pb book 2/4 7pm 2hrs", true).
Proof. reflexivity. Qed.

(** C2, as the code has it. For a command that reaches [process_command]
    the effective dry-run flag is the override or the flag found in the
    text. When it is set, nothing is handed to the gateway in any case,
    and the answer carries, as [response_message], the message of the
    plain run behind the mark of a dry run; when it is not set, the
    message of the plain run is handed to the gateway (if its credentials
    are there) and [response_message] is null. The command
    [/pb book 2/4 7pm 2hrs --dry-run] sends nothing in any world; it is
    answered with intent [book_court], a needed confirmation and a dry run
    when the classifier answers [book_court] with a dictionary of
    parameters, which is what it does whenever the primary path fails. *)
Theorem dry_run_gating :
  (forall (w : World) (data override chat_id sender_data : json) (text : string),
      Py.truthy data = true ->
      Py.get data "dry_run" (JBool false) = Returned override ->
      read_request w data = Returned (inl (JStr text, chat_id, sender_data)) ->
      let cleaned := fst (extract_dry_run_flag text) in
      let effective := Py.or_ override (JBool (snd (extract_dry_run_flag text))) in
      Py.truthy effective = Py.truthy override || snd (extract_dry_run_flag text)
      /\ (Py.truthy effective = true ->
          snd (picklebot_webhook w (post_request data)) = [])
      /\ (forall plain : json,
             dispatch w cleaned (JBool false) (parse_intent_with_claude w cleaned)
             = Returned plain ->
             exists m intent : string,
               plain = build_result (JBool false) m (result_kwargs intent)
               /\ picklebot_webhook w (post_request data)
                  = (processed intent effective m,
                     delivered w chat_id effective m)))
  /\ (forall (w : World) (data override chat_id sender_data : json),
         Py.truthy data = true ->
         Py.get data "dry_run" (JBool false) = Returned override ->
         read_request w data
         = Returned (inl (JStr "/pb book 2/4 7pm 2hrs --dry-run", chat_id, sender_data)) ->
         let classified := parse_intent_with_claude w "/pb book 2/4 7pm 2hrs" in
         let effective := Py.or_ override (JBool true) in
         snd (picklebot_webhook w (post_request data)) = []
         /\ Py.truthy effective = true
         /\ (forall p : list (string * json),
                Py.get classified "intent" (JStr "unknown")
                = Returned (JStr "book_court") ->
                Py.get classified "params" (JDict []) = Returned (JDict p) ->
                exists m : string,
                  handle_book_court_preview w (JDict p) = Returned m
                  /\ picklebot_webhook w (post_request data)
                     = (processed "book_court" effective m, []))
         /\ (primary_failure w "/pb book 2/4 7pm 2hrs" ->
             exists m : string,
               handle_book_court_preview w (JDict [("raw", JStr "book 2/4 7pm 2hrs")])
               = Returned m
               /\ picklebot_webhook w (post_request data)
                  = (processed "book_court" effective m, []))).
Proof.
  split.
  - intros w data override chat_id sender_data text Hdata Hdry Hread.
    cbv zeta. split; [apply or_truthy|]. split.
    + now apply dry_run_no_send with (chat_id := chat_id) (sender_data := sender_data).
    + intros plain. now apply dry_run_of_plain with (sender_data := sender_data).
  - intros w data override chat_id sender_data Hdata Hdry Hread. cbv zeta.
    assert (Heff : Py.truthy (Py.or_ override (JBool true)) = true)
      by (rewrite or_truthy; apply orb_true_r).
    assert (Hbook : forall p,
               Py.get (parse_intent_with_claude w "/pb book 2/4 7pm 2hrs")
                      "intent" (JStr "unknown") = Returned (JStr "book_court") ->
               Py.get (parse_intent_with_claude w "/pb book 2/4 7pm 2hrs")
                      "params" (JDict []) = Returned (JDict p) ->
               exists m : string,
                 handle_book_court_preview w (JDict p) = Returned m
                 /\ picklebot_webhook w (post_request data)
                    = (processed "book_court" (Py.or_ override (JBool true)) m, [])).
    { intros p Hi Hp.
      destruct (dispatch_book_court w "/pb book 2/4 7pm 2hrs"
                  (Py.or_ override (JBool true)) _ p Hi Hp) as [m [Hm [Ht Hd]]].
      exists m. split; [exact Hm|].
      rewrite (webhook_built w data override _ chat_id sender_data
                 (Py.or_ override (JBool true)) m "book_court" Hdata Hdry Hread);
        [ | rewrite process_command_text, book_example_cleaned; exact Hd
          | exact Ht ].
      unfold delivered. now rewrite Heff. }
    split; [|split; [exact Heff|split; [exact Hbook|]]].
    + apply dry_run_no_send with (override := override) (chat_id := chat_id)
                                 (sender_data := sender_data)
                                 (text := "/pb book 2/4 7pm 2hrs --dry-run");
        trivial.
    + intros Hfail. apply Hbook;
        now rewrite (Classifier.primary_failure_fallback _ _ Hfail).
Qed.

Lemma dry_run_gating_witness :
  picklebot_webhook Samples.world_offline
    (post_request (JDict [("command", JStr "/pb book 2/4 7pm 2hrs --dry-run")]))
  = (processed "book_court" (JBool true)
       (Py.lines [
          "*SMAD Picklebot - Book Court*"; "";
          "This action requires confirmation."; "";
          "*Details:*";
          "- Date: unknown"; "- Time: unknown";
          "- Duration: 120 minutes"; "- Court: both"; "";
          "_Confirmation links coming in Phase 2_" ]),
     []).
Proof.
  destruct (proj2 (proj2 (proj2 (proj2 dry_run_gating
              Samples.world_offline
              (JDict [("command", JStr "/pb book 2/4 7pm 2hrs --dry-run")])
              (JBool false) (JStr "admins@g.us")
              (JDict [("chatId", JStr "admins@g.us"); ("sender", JStr "");
                      ("senderName", JStr "")])
              eq_refl eq_refl eq_refl)))
              (missing_api_key Samples.world_offline _ eq_refl)) as [m [Hm Hweb]].
  injection Hm as <-. exact Hweb.
Defined.

(** C2, as stated, fails where the language model reads the command in its
    own way: here it answers [help], and the answer to the example is
    intent [help] without a confirmation. *)
Lemma dry_run_example_misread :
  fst (picklebot_webhook Samples.world_llm_fenced_help
         (post_request (JDict [("command", JStr "/pb book 2/4 7pm 2hrs --dry-run")])))
  = processed "help" (JBool true) handle_help
  /\ Py.get (body (processed "help" (JBool true) handle_help)) "intent" JNull
     = Returned (JStr "help")
  /\ Py.get (body (processed "help" (JBool true) handle_help))
            "needs_confirmation" JNull
     = Returned (JBool false).
Proof. repeat split; reflexivity. Qed.

(** *** The routed form *)

Lemma read_request_routed (w : World) (d : list (string * json)) (command : json) :
  Py.lookup "command" d = Some command ->
  Py.truthy (JDict d) = true
  /\ Py.get (JDict d) "dry_run" (JBool false) = Returned (request_override d)
  /\ exists sender_data,
      read_request w (JDict d)
      = Returned (inl (command, routed_chat w d, sender_data)).
Proof.
  intros Hc. split; [|split].
  - destruct d; [discriminate Hc | reflexivity].
  - reflexivity.
  - unfold read_request. rewrite Hc. cbn [Py.get bind].
    eexists. reflexivity.
Qed.

Lemma or_same (a : json) : Py.or_ a a = a.
Proof. unfold Py.or_. now destruct (Py.truthy a). Qed.

(** C9. A request in the routed form, that is, with a [command] key, is
    never ignored: its command goes to [process_command] whatever the chat,
    the sender and the text are, and the answer is the one of the command:
    500 when it raises, and when it returns, [processed] with the intent,
    the dry-run status and the message of its result, the message being
    handed to the gateway outside a dry run. The answer does not depend on
    the other keys than [command] and [dry_run]; and when there is no
    [chatId] the message is addressed to the configured admin group. *)
Theorem routed_form_unconditional
        (w : World) (d : list (string * json)) (command : json) :
  Py.lookup "command" d = Some command ->
  (exists sender_data : json,
      read_request w (JDict d)
      = Returned (inl (command, routed_chat w d, sender_data)))
  /\ (forall sender_data result : json,
         process_command w command sender_data (request_override d)
         = Returned result ->
         exists (text intent m : string),
           command = JStr text
           /\ m <> ""
           /\ result
              = build_result
                  (Py.or_ (request_override d)
                          (JBool (snd (extract_dry_run_flag text))))
                  m (result_kwargs intent)
           /\ picklebot_webhook w (post_request (JDict d))
              = (processed intent
                           (Py.or_ (request_override d)
                                   (JBool (snd (extract_dry_run_flag text))))
                           m,
                 delivered w (routed_chat w d)
                           (Py.or_ (request_override d)
                                   (JBool (snd (extract_dry_run_flag text))))
                           m)
           /\ (Py.truthy (Py.or_ (request_override d)
                                 (JBool (snd (extract_dry_run_flag text))))
               = false ->
               gateway_configured w = true ->
               snd (picklebot_webhook w (post_request (JDict d)))
               = [gateway_post w
                    (Py.or_ (routed_chat w d) (JStr (ADMIN_DINKERS_GROUP_ID w)))
                    (JStr m)]
               /\ (Py.lookup "chatId" d = None ->
                   snd (picklebot_webhook w (post_request (JDict d)))
                   = [gateway_post w (JStr (ADMIN_DINKERS_GROUP_ID w)) (JStr m)])))
  /\ (forall (sender_data : json) (e : exn),
         process_command w command sender_data (request_override d) = Raised e ->
         picklebot_webhook w (post_request (JDict d))
         = (reply [("error", JStr (Py.str_exn e))] 500, []))
  /\ (Py.lookup "chatId" d = None ->
      forall p : post,
        In p (snd (picklebot_webhook w (post_request (JDict d)))) ->
        post_chatId p = JStr (ADMIN_DINKERS_GROUP_ID w))
  /\ (forall d' : list (string * json),
         Py.lookup "command" d' = Some command ->
         Py.lookup "dry_run" d' = Py.lookup "dry_run" d ->
         fst (picklebot_webhook w (post_request (JDict d')))
         = fst (picklebot_webhook w (post_request (JDict d)))).
Proof.
  intros Hc.
  destruct (read_request_routed w d command Hc) as [Hdata [Hdry [sd Hread]]].
  assert (Hret : forall sender_data result,
             process_command w command sender_data (request_override d)
             = Returned result ->
             exists (intent m : string) (effective : json),
               picklebot_webhook w (post_request (JDict d))
               = (processed intent effective m,
                  delivered w (routed_chat w d) effective m)).
  { intros sender_data result Hrun.
    now apply (webhook_processed w (JDict d) (request_override d) command
                 (routed_chat w d) sd result). }
  assert (Hexn : forall sender_data e,
             process_command w command sender_data (request_override d) = Raised e ->
             picklebot_webhook w (post_request (JDict d))
             = (reply [("error", JStr (Py.str_exn e))] 500, [])).
  { intros sender_data e Hrun.
    now apply (webhook_command_raised w (JDict d) (request_override d) command
                 (routed_chat w d) sd e). }
  split; [now exists sd|]. split; [|split; [exact Hexn|]].
  - intros sender_data result Hrun.
    destruct (process_command_shape _ _ _ _ _ Hrun)
      as [text [m [j [Hcmd [_ [Hr [Hm _]]]]]]].
    assert (Hw : picklebot_webhook w (post_request (JDict d))
                 = (processed (dispatched_intent j)
                      (Py.or_ (request_override d)
                              (JBool (snd (extract_dry_run_flag text)))) m,
                    delivered w (routed_chat w d)
                      (Py.or_ (request_override d)
                              (JBool (snd (extract_dry_run_flag text)))) m)).
    { rewrite Hr in Hrun.
      exact (webhook_built w (JDict d) _ _ _ sd _ _ _ Hdata Hdry Hread Hrun Hm). }
    exists text, (dispatched_intent j), m.
    split; [exact Hcmd|].
    split; [intros ->; discriminate Hm|].
    split; [exact Hr|]. split; [exact Hw|].
    intros Heff Hgw. rewrite Hw. cbn [snd]. unfold delivered.
    rewrite Heff, Hgw. split; [reflexivity|].
    intros Hchat. unfold routed_chat. rewrite Hchat, or_same. reflexivity.
  - split.
    + intros Hchat p.
      destruct (process_command w command JNull (request_override d))
        as [result|e] eqn:Hrun.
      * destruct (Hret _ _ Hrun) as [intent [m [effective ->]]].
        unfold delivered, routed_chat. rewrite Hchat, or_same. cbn [snd].
        destruct (Py.truthy effective); [intros []|].
        destruct (gateway_configured w); [|intros []].
        intros [<-|[]]. reflexivity.
      * rewrite (Hexn _ _ Hrun). intros [].
    + intros d' Hc' Hd'.
      destruct (read_request_routed w d' command Hc') as [Hdata' [Hdry' [sd' Hread']]].
      assert (Ho : request_override d' = request_override d)
        by (unfold request_override; now rewrite Hd').
      rewrite Ho in Hdry'.
      destruct (process_command w command JNull (request_override d))
        as [result|e] eqn:Hrun.
      * destruct (process_command_shape _ _ _ _ _ Hrun)
          as [text [m [j [_ [_ [Hr [Hm _]]]]]]].
        rewrite Hr in Hrun.
        rewrite (webhook_built w (JDict d') _ _ _ sd' _ _ _ Hdata' Hdry' Hread' Hrun Hm).
        rewrite (webhook_built w (JDict d) _ _ _ sd _ _ _ Hdata Hdry Hread Hrun Hm).
        reflexivity.
      * rewrite (webhook_command_raised w (JDict d') _ _ _ sd' e Hdata' Hdry' Hread' Hrun).
        rewrite (Hexn _ _ Hrun). reflexivity.
Qed.

Lemma routed_form_unconditional_witness :
  picklebot_webhook Samples.world_offline
    (post_request (JDict [("sender", JStr "someone@c.us");
                          ("command", JStr "status")]))
  = (processed "show_status" (JBool false) (handle_status Samples.world_offline),
     [gateway_post Samples.world_offline (JStr "admins@g.us")
                   (JStr (handle_status Samples.world_offline))])
  /\ fst (picklebot_webhook Samples.world_offline
            (post_request (JDict [("chatId", JStr "stranger@c.us");
                                  ("sender", JStr "someone@c.us");
                                  ("command", JStr "status")])))
     = processed "show_status" (JBool false) (handle_status Samples.world_offline).
Proof.
  pose proof (routed_form_unconditional Samples.world_offline
                [("sender", JStr "someone@c.us"); ("command", JStr "status")]
                (JStr "status") eq_refl)
    as [_ [Hret [_ [_ Hsame]]]].
  destruct (Hret JNull
              (build_result (JBool false) (handle_status Samples.world_offline)
                            (result_kwargs "show_status"))
              eq_refl)
    as [text [intent [m [Hcmd [_ [Hr [Hw _]]]]]]].
  injection Hcmd as <-.
  assert (Hboth : m = handle_status Samples.world_offline /\ intent = "show_status").
  { unfold build_result, result_kwargs in Hr.
    destruct (requires_confirmation intent); cbn in Hr;
      injection Hr as Hm Hi; now split. }
  destruct Hboth as [-> ->].
  assert (Hfirst :
            picklebot_webhook Samples.world_offline
              (post_request (JDict [("sender", JStr "someone@c.us");
                                    ("command", JStr "status")]))
            = (processed "show_status" (JBool false)
                         (handle_status Samples.world_offline),
               [gateway_post Samples.world_offline (JStr "admins@g.us")
                             (JStr (handle_status Samples.world_offline))]))
    by exact Hw.
  split; [exact Hfirst|].
  rewrite (Hsame [("chatId", JStr "stranger@c.us");
                  ("sender", JStr "someone@c.us");
                  ("command", JStr "status")] eq_refl eq_refl).
  now rewrite Hfirst.
Defined.

End Webhook.

(** ** The balance handlers *)

Module Handlers.
Import PyStr Spec.

(** C8. On the snapshot Alice 25.00, Bob -5.00, Cara 0.00 the handler of
    [show_deadbeats] lists Alice alone with the total $25.00; the handler of
    [show_balances] without a name lists Alice, then Bob, and not Cara,
    with the total $25.00 of the positive balances; and with the name
    [ali] it finds Alice, whatever the case, and says that she owes
    $25.00. *)
Theorem balance_rendering (w : World) :
  get_player_balances w = Samples.snapshot ->
  handle_deadbeats w
  = Py.lines ["*SMAD Picklebot - Outstanding Balances*"; "";
              "- Alice: $25.00"; "";
              "*Total: $25.00*"]
  /\ handle_balances w JNull
     = Returned (Py.lines ["*SMAD Picklebot - All Balances*"; "";
                           "- Alice: $25.00";
                           "- Bob: $-5.00"; "";
                           "*Total Outstanding: $25.00*"])
  /\ handle_balances w (JStr "") = handle_balances w JNull
  /\ handle_balances w (JStr "ali")
     = Returned (Py.lines ["*SMAD Picklebot*"; ""; "Alice owes $25.00"])
  /\ handle_balances w (JStr "ALI") = handle_balances w (JStr "ali")
  /\ contains "Cara" (handle_deadbeats w) = false
  /\ contains "Bob" (handle_deadbeats w) = false.
Proof.
  intros Hplayers. unfold handle_deadbeats, handle_balances.
  rewrite Hplayers. repeat split; reflexivity.
Qed.

Lemma balance_rendering_witness :
  handle_balances Samples.world_offline (JStr "ali")
  = Returned (Py.lines ["*SMAD Picklebot*"; ""; "Alice owes $25.00"]).
Proof.
  apply (balance_rendering Samples.world_offline eq_refl).
Defined.

End Handlers.

(** * Further properties of the code *)

(** ** The code fence of the model's answer *)

Module Fence.
Import PyStr Spec PyStrFacts.

Lemma drop_word_tag (lang rest : string) :
  all_word lang = true -> drop_word (lang ++ Py.nl ++ rest) = Py.nl ++ rest.
Proof.
  induction lang as [|c lang IH]; simpl; [reflexivity|].
  intros H. apply andb_true_iff in H. destruct H as [Hc Hl].
  rewrite Hc. now apply IH.
Qed.

(** The closing fence and the newline before it are cut, and nothing
    else. *)
Lemma sub_close_fence_body (body : string) :
  sub_close_fence (body ++ Py.nl ++ "```") = body.
Proof.
  induction body as [|c body IH]; [reflexivity|].
  change (String c body ++ Py.nl ++ "```")
    with (String c (body ++ Py.nl ++ "```")).
  cbn [sub_close_fence]. unfold mem. cbn [existsb]. rewrite IH.
  assert (Hlen : String.length (String c (body ++ Py.nl ++ "```"))
                 = 5 + String.length body)
    by (simpl; rewrite length_append; simpl; lia).
  assert (H1 : (String c (body ++ Py.nl ++ "```") =? Py.nl ++ "```") = false).
  { apply String.eqb_neq. intros E. apply (f_equal String.length) in E.
    rewrite Hlen in E. simpl in E. lia. }
  assert (H2 : (String c (body ++ Py.nl ++ "```") =? "```") = false).
  { apply String.eqb_neq. intros E. apply (f_equal String.length) in E.
    rewrite Hlen in E. simpl in E. lia. }
  assert (H3 : (String c (body ++ Py.nl ++ "```") =? "```" ++ Py.nl) = false).
  { apply String.eqb_neq. intros E. apply (f_equal String.length) in E.
    rewrite Hlen in E. simpl in E. lia. }
  assert (H4 : (String c (body ++ Py.nl ++ "```") =? Py.nl ++ "```" ++ Py.nl) = false).
  { apply String.eqb_neq. intros E.
    pose proof (f_equal String.length E) as L. rewrite Hlen in L. simpl in L.
    destruct body; [|simpl in L; lia].
    simpl in E. discriminate E. }
  rewrite H1, H2, H3, H4. reflexivity.
Qed.

(** X1. A fenced answer gives back its body: whatever the body is, and
    whatever language made of word characters (or none) follows the
    opening fence, the text that reaches [json.loads] is the body alone. *)
Theorem strip_code_fence_fenced (lang body : string) :
  all_word lang = true ->
  strip_code_fence (fenced lang body) = body.
Proof.
  intros Hlang. unfold strip_code_fence, fenced, sub_open_fence.
  assert (Hs : startswith ("```" ++ lang ++ Py.nl ++ body ++ Py.nl ++ "```") "```"
               = true)
    by (apply startswith_starts; eexists; reflexivity).
  rewrite Hs.
  change (drop 3 ("```" ++ lang ++ Py.nl ++ body ++ Py.nl ++ "```"))
    with (lang ++ Py.nl ++ body ++ Py.nl ++ "```").
  rewrite (drop_word_tag _ _ Hlang).
  change (Py.nl ++ body ++ Py.nl ++ "```")
    with (String "010"%char (body ++ Py.nl ++ "```")).
  cbn iota. change ("010" =? "010")%char with true. cbn iota.
  apply sub_close_fence_body.
Qed.

Lemma strip_code_fence_fenced_witness :
  strip_code_fence (fenced "json" ("{}" ++ Py.nl ++ "```")) = "{}" ++ Py.nl ++ "```"
  /\ strip_code_fence (fenced "" "[1, 2]") = "[1, 2]".
Proof.
  split.
  - apply (strip_code_fence_fenced "json"). reflexivity.
  - apply (strip_code_fence_fenced ""). reflexivity.
Defined.

End Fence.

(** ** The classifier and the dispatch, at their edges *)

Module ClassifierEdges.
Import PyStr Spec PyStrFacts.

Lemma parse_intent_no_key (w : World) (model : string -> outcome response)
      (loads : string -> outcome json) (text : string) :
  ANTHROPIC_API_KEY w = "" ->
  parse_intent_with_claude (with_classifier w model loads) text
  = parse_intent_with_claude w text.
Proof.
  intros Hkey. unfold parse_intent_with_claude.
  cbn [ANTHROPIC_API_KEY with_classifier]. now rewrite Hkey.
Qed.

Lemma process_command_no_key (w : World) (model : string -> outcome response)
      (loads : string -> outcome json) (command sender_data dry_run : json) :
  ANTHROPIC_API_KEY w = "" ->
  process_command (with_classifier w model loads) command sender_data dry_run
  = process_command w command sender_data dry_run.
Proof.
  intros Hkey. unfold process_command.
  destruct (Py.str_method "lower" command) as [text|]; cbn [bind]; [|reflexivity].
  destruct (extract_dry_run_flag text) as [cleaned text_dry].
  now rewrite parse_intent_no_key.
Qed.

(** X2. Without an API key the language model and the JSON parser are
    never consulted: the entry point answers and sends the same whatever
    they would have returned. *)
Theorem no_key_no_model (w : World) (model : string -> outcome response)
        (loads : string -> outcome json) (request : Request) :
  ANTHROPIC_API_KEY w = "" ->
  picklebot_webhook (with_classifier w model loads) request
  = picklebot_webhook w request.
Proof.
  intros Hkey. unfold picklebot_webhook, webhook_try.
  change (read_request (with_classifier w model loads)) with (read_request w).
  change (respond (with_classifier w model loads)) with (respond w).
  destruct (method request =? "OPTIONS"); [reflexivity|].
  destruct (negb (method request =? "POST")); [reflexivity|].
  destruct (negb (Py.truthy (get_json request))); [reflexivity|].
  destruct (Py.get (get_json request) "dry_run" (JBool false)) as [dry_run|];
    cbn [bind]; [|reflexivity].
  destruct (read_request w (get_json request)) as [[[[c chat] sd]|answer]|];
    cbn [bind]; try reflexivity.
  now rewrite process_command_no_key.
Qed.

Lemma no_key_no_model_witness :
  picklebot_webhook
    (with_classifier Samples.world_offline
       (anthropic_post Samples.world_llm_array)
       (json_loads Samples.world_llm_array))
    (post_request (JDict [("command", JStr "/pb status")]))
  = picklebot_webhook Samples.world_offline
      (post_request (JDict [("command", JStr "/pb status")])).
Proof.
  apply (no_key_no_model Samples.world_offline). reflexivity.
Defined.

(** What [answer_text] reads in a body that has no content. *)
Lemma answer_text_no_content (d : list (string * json)) :
  Py.lookup "content" d = None -> answer_text (JDict d) = Returned "{}".
Proof.
  intros H. unfold answer_text. cbn [Py.get bind]. rewrite H. reflexivity.
Qed.

(** X3. An answer of the language model with status 200 and a body that
    has no [content] is no failure: it is read as the empty object, the
    fallback is not consulted, and the command is answered as unknown,
    with the cleaned command quoted, whatever the command was. *)
Theorem empty_answer_is_unknown
        (w : World) (text : string) (sender_data dry_run : json)
        (r : response) (d : list (string * json)) :
  ANTHROPIC_API_KEY w <> "" ->
  anthropic_post w (fst (extract_dry_run_flag text)) = Returned r ->
  status_code r = 200%Z ->
  json_body r = Returned (JDict d) ->
  Py.lookup "content" d = None ->
  json_loads w "{}" = Returned (JDict []) ->
  parse_intent_with_claude w (fst (extract_dry_run_flag text)) = JDict []
  /\ process_command w (JStr text) sender_data dry_run
     = Returned (build_result
                   (Py.or_ dry_run (JBool (snd (extract_dry_run_flag text))))
                   (handle_unknown w (JStr (fst (extract_dry_run_flag text))))
                   (result_kwargs "unknown")).
Proof.
  intros Hkey Hpost Hs Hbody Hcontent Hloads.
  assert (Hcls : parse_intent_with_claude w (fst (extract_dry_run_flag text))
                 = JDict []).
  { apply Classifier.primary_answer_returned. split; [exact Hkey|].
    exists r, (JDict d), "{}". repeat split; trivial.
    now apply answer_text_no_content. }
  split; [exact Hcls|].
  unfold process_command. cbn [Py.str_method bind].
  destruct (extract_dry_run_flag text) as [cleaned text_dry].
  cbn [fst snd] in *. rewrite Hcls. reflexivity.
Qed.

Lemma empty_answer_is_unknown_witness :
  process_command Samples.world_llm_no_content
                  (JStr "/pb deadbeats") JNull (JBool false)
  = Returned (build_result (JBool false)
                (handle_unknown Samples.world_llm_no_content
                                (JStr "/pb deadbeats"))
                (result_kwargs "unknown")).
Proof.
  apply (proj2 (empty_answer_is_unknown Samples.world_llm_no_content
                  "/pb deadbeats" JNull (JBool false)
                  {| status_code := 200; text := "";
                     json_body := Returned (JDict [("id", JStr "msg_1")]) |}
                  [("id", JStr "msg_1")]
                  ltac:(discriminate) eq_refl eq_refl eq_refl eq_refl eq_refl)).
Defined.

(** X4. An intent that the bot does not know, whether it is another
    text, no text at all or missing, never gives a preview or asks for a
    confirmation: with parameters that are a dictionary the result is the
    message of an unknown command, which quotes [params.raw] or, without
    it, the cleaned command, under the intent [unknown]. *)
Theorem unknown_intent_dispatch
        (w : World) (cleaned : string) (is_dry_run classified j : json)
        (p : list (string * json)) :
  Py.get classified "intent" (JStr "unknown") = Returned j ->
  dispatched_intent j = "unknown" ->
  Py.get classified "params" (JDict []) = Returned (JDict p) ->
  dispatch w cleaned is_dry_run classified
  = Returned (build_result is_dry_run
                (handle_unknown w (match Py.lookup "raw" p with
                                   | Some raw => raw
                                   | None => JStr cleaned
                                   end))
                (result_kwargs "unknown"))
  /\ Py.lookup "needs_confirmation" (result_kwargs "unknown") = None.
Proof.
  intros Hj Hu Hp. split; [|reflexivity].
  assert (Hno : forall s, In s ["help"; "show_deadbeats"; "show_balances";
                                "show_status"; "book_court"; "create_poll";
                                "send_reminders"] ->
                          Py.eq_str j s = false).
  { intros s Hs. destruct (Py.eq_str j s) eqn:E; [|reflexivity].
    apply Dispatch.eq_str_true in E. subst j.
    simpl in Hs.
    destruct Hs as [<-|[<-|[<-|[<-|[<-|[<-|[<-|[]]]]]]]]; discriminate Hu. }
  unfold dispatch. rewrite Hj, Hp.
  destruct classified; try discriminate Hj. cbn [Py.get bind].
  rewrite !Hno by (simpl; tauto). reflexivity.
Qed.

Lemma unknown_intent_dispatch_witness :
  dispatch Samples.world_offline "launch rockets" (JBool false)
           (JDict [("intent", JStr "launch_rockets"); ("params", JDict []);
                   ("confirmation_required", JBool true)])
  = Returned (build_result (JBool false)
                (handle_unknown Samples.world_offline (JStr "launch rockets"))
                (result_kwargs "unknown")).
Proof.
  apply (proj1 (unknown_intent_dispatch Samples.world_offline "launch rockets"
                  (JBool false)
                  (JDict [("intent", JStr "launch_rockets"); ("params", JDict []);
                          ("confirmation_required", JBool true)])
                  (JStr "launch_rockets") []
                  eq_refl eq_refl eq_refl)).
Defined.

End ClassifierEdges.

(** ** The bot without the language model *)

Module Offline.
Import PyStr Spec PyStrFacts.

Lemma strip_idem (s : string) : strip (strip s) = strip s.
Proof.
  destruct (trimmed_strip s) as [Hl Hr]. unfold strip at 1. now rewrite Hl, Hr.
Qed.

Lemma ci_hit_lower (pat s : string) : ci_hit pat (lower s) = ci_hit pat s.
Proof. unfold ci_hit. now rewrite lower_idem. Qed.

Lemma delete_matches_lower (pat : string) (n k : nat) (s : string) :
  delete_matches (ci_hit pat) n k (lower s)
  = lower (delete_matches (ci_hit pat) n k s).
Proof.
  revert k; induction s as [|c s IH]; intros k; [reflexivity|].
  change (lower (String c s)) with (String (lower_char c) (lower s)).
  cbn [delete_matches]. destruct k as [|k]; [|apply IH].
  change (String (lower_char c) (lower s)) with (lower (String c s)).
  rewrite ci_hit_lower. destruct (ci_hit pat (String c s)); [apply IH|].
  cbn [lower]. now rewrite IH.
Qed.

Lemma re_remove_ignorecase_lower (pat s : string) :
  re_remove_ignorecase pat (lower s) = lower (re_remove_ignorecase pat s).
Proof.
  unfold re_remove_ignorecase. destruct pat; [reflexivity|].
  apply delete_matches_lower.
Qed.

Lemma collapse_from_lower (b : bool) (s : string) :
  collapse_from b (lower s) = lower (collapse_from b s).
Proof.
  revert b; induction s as [|c s IH]; intros b; simpl; [reflexivity|].
  rewrite is_space_lower_char. destruct (is_space c).
  - destruct b; [apply IH|]. simpl. now rewrite IH.
  - simpl. now rewrite IH.
Qed.

(** The normalizer works on the lowered text as on the text. *)
Lemma extract_dry_run_flag_lower (text : string) :
  extract_dry_run_flag (lower text)
  = (lower (fst (extract_dry_run_flag text)), snd (extract_dry_run_flag text)).
Proof.
  unfold extract_dry_run_flag. rewrite lower_idem.
  induction DRY_RUN_FLAGS as [|flag flags IH]; cbn [extract_dry_run_loop];
    [reflexivity|].
  destruct (contains flag (lower text)); [|exact IH].
  cbn [fst snd]. unfold collapse_ws.
  now rewrite re_remove_ignorecase_lower, lower_strip, <- collapse_from_lower,
    lower_strip.
Qed.

Lemma parse_intent_fallback_lower (command_text : string) :
  parse_intent_fallback (lower command_text) = parse_intent_fallback command_text.
Proof. unfold parse_intent_fallback. now rewrite lower_idem. Qed.

Lemma parse_intent_fallback_strip (command_text : string) :
  parse_intent_fallback (strip command_text) = parse_intent_fallback command_text.
Proof.
  unfold parse_intent_fallback. now rewrite lower_strip, strip_idem.
Qed.

(** The answers of the fallback are dispatched without a look at the
    cleaned command. *)
Lemma dispatch_fallback_any_command (w : World) (c c' text : string) (dr : json) :
  dispatch w c dr (parse_intent_fallback text)
  = dispatch w c' dr (parse_intent_fallback text).
Proof.
  pose proof (Fallback.parse_intent_fallback_rule text) as H.
  remember (parse_intent_fallback text) as j eqn:E. clear E.
  destruct H; reflexivity.
Qed.

(** X5. Without the language model a command of code points below 256,
    where the lower case of a text is that of its characters, is read
    whatever its case: the command in lower case gets the same result,
    and the fallback classifier also reads a command the same with or
    without whitespace around it. (Beyond these code points the lower case
    of a character can depend on its neighbours, and the removal of a flag
    no longer commutes with it.) *)
Theorem offline_case_insensitive
        (w : World) (text : string) (sender_data dry_run : json) :
  ANTHROPIC_API_KEY w = "" ->
  process_command w (JStr (lower text)) sender_data dry_run
  = process_command w (JStr text) sender_data dry_run
  /\ parse_intent_fallback (lower text) = parse_intent_fallback text
  /\ parse_intent_fallback (strip text) = parse_intent_fallback text.
Proof.
  intros Hkey.
  split; [|split; [apply parse_intent_fallback_lower
                  | apply parse_intent_fallback_strip]].
  unfold process_command. cbn [Py.str_method bind].
  rewrite extract_dry_run_flag_lower.
  destruct (extract_dry_run_flag text) as [cleaned text_dry]. cbn [fst snd].
  unfold parse_intent_with_claude. rewrite Hkey. cbn iota.
  change ("" =? "") with true. cbn iota.
  rewrite parse_intent_fallback_lower.
  apply dispatch_fallback_any_command.
Qed.

Lemma offline_case_insensitive_witness :
  process_command Samples.world_offline (JStr "/pb balance ali --dry-run") JNull JNull
  = process_command Samples.world_offline (JStr "/PB Balance ALI --Dry-Run") JNull JNull.
Proof.
  apply (proj1 (offline_case_insensitive Samples.world_offline
                  "/PB Balance ALI --Dry-Run" JNull JNull eq_refl)).
Defined.

Lemma starts_book_rule (t : string) (j : json) :
  starts t "book" -> fallback_rule t j ->
  j = intent_result "book_court" [("raw", JStr t)] true.
Proof.
  intros [rest ->] H.
  assert (Hb : asks_book ("book" ++ rest)) by now exists rest.
  destruct H; try reflexivity; try contradiction.
  - simpl in H. destruct H as [H|[H|[H|[]]]]; discriminate H.
  - simpl in H0. destruct H0 as [H0|[H0|[H0|[H0|[]]]]]; discriminate H0.
  - destruct H1 as [r H1]. discriminate H1.
Qed.

(** X6. When the fallback classifies, every command that starts with
    [book] gets one and the same preview, with the date and the time
    unknown, 120 minutes and both courts: nothing of what the command
    names is read. *)
Theorem fallback_book_preview
        (w : World) (text : string) (sender_data dry_run : json) :
  primary_failure w (fst (extract_dry_run_flag text)) ->
  starts (cleaned_text (fst (extract_dry_run_flag text))) "book" ->
  process_command w (JStr text) sender_data dry_run
  = Returned (build_result
                (Py.or_ dry_run (JBool (snd (extract_dry_run_flag text))))
                book_preview_default
                (result_kwargs "book_court")).
Proof.
  intros Hfail Hbook. unfold process_command. cbn [Py.str_method bind].
  destruct (extract_dry_run_flag text) as [cleaned text_dry]. cbn [fst snd] in *.
  rewrite (Classifier.primary_failure_fallback _ _ Hfail).
  rewrite (starts_book_rule _ _ Hbook (Fallback.parse_intent_fallback_rule cleaned)).
  reflexivity.
Qed.

Lemma fallback_book_preview_witness :
  process_command Samples.world_offline (JStr "/pb book 2/4 7pm 2hrs") JNull JNull
  = process_command Samples.world_offline
      (JStr "/pb Book next Tuesday at 9am south court") JNull JNull.
Proof.
  rewrite (fallback_book_preview Samples.world_offline "/pb book 2/4 7pm 2hrs").
  - rewrite (fallback_book_preview Samples.world_offline
               "/pb Book next Tuesday at 9am south court").
    + reflexivity.
    + apply missing_api_key. reflexivity.
    + apply startswith_starts. reflexivity.
  - apply missing_api_key. reflexivity.
  - apply startswith_starts. reflexivity.
Defined.

End Offline.

(** ** The raw gateway form and the answers of the entry point *)

Module Gateway.
Import PyStr Spec PyStrFacts.

Lemma is_command_loop_text (text : string) :
  is_command_loop COMMAND_PREFIXES (JStr text)
  = Returned (has_command_prefix text).
Proof.
  unfold has_command_prefix.
  induction COMMAND_PREFIXES as [|prefix rest IH]; cbn [is_command_loop existsb];
    [reflexivity|].
  cbn [Py.str_method bind]. rewrite IH.
  now destruct (startswith (lower text) (lower prefix)).
Qed.

Lemma truthy_dict (d : list (string * json)) :
  d <> [] -> Py.truthy (JDict d) = true.
Proof. destruct d; [congruence | reflexivity]. Qed.

(** The entry point on a POST whose body is a dictionary that is not
    empty. *)
Lemma webhook_dict (w : World) (d : list (string * json)) :
  d <> [] ->
  picklebot_webhook w (post_request (JDict d))
  = try_except
      (routed <- read_request w (JDict d) ;;
       match routed with
       | inr answer => Returned (answer, [])
       | inl (command_text, chat, sender_data) =>
           result <- process_command w command_text sender_data
                       (request_override d) ;;
           respond w chat (request_override d) result
       end)
      (fun e => (reply [("error", JStr (Py.str_exn e))] 500, [])).
Proof.
  intros Hd. rewrite (Webhook.webhook_post _ _ (truthy_dict _ Hd)). reflexivity.
Qed.

(** The raw gateway form, once the sender and the chat are read. *)
Lemma read_request_gateway
      (w : World) (d : list (string * json)) (sender chat_id : json) :
  Py.lookup "command" d = None ->
  Py.get (JDict d) "senderData" (JDict []) = Returned sender ->
  Py.get sender "chatId" (JStr "") = Returned chat_id ->
  read_request w (JDict d)
  = (if negb (admitted w chat_id)
     then Returned (inr (ignored "not_admin_group"))
     else
       type_message <- Py.get (match Py.lookup "messageData" d with
                               | Some m => m | None => JDict [] end)
                              "typeMessage" (JStr "") ;;
       if negb (Py.eq_str type_message "textMessage")
       then Returned (inr (ignored "not_text_message"))
       else
         text_data <- Py.get (match Py.lookup "messageData" d with
                              | Some m => m | None => JDict [] end)
                             "textMessageData" (JDict []) ;;
         text <- Py.get text_data "textMessage" (JStr "") ;;
         is_command <- is_command_loop COMMAND_PREFIXES text ;;
         if negb is_command then Returned (inr (ignored "not_command"))
         else Returned (inl (text, chat_id, sender))).
Proof.
  intros Hcmd Hsender Hchat. unfold read_request. rewrite Hcmd, Hsender.
  cbn [Py.get bind]. rewrite Hchat. cbn [bind].
  unfold admitted. now rewrite negb_orb.
Qed.

(** X7. The gates of the raw gateway form, in their order. A payload from
    a chat that is not let in is ignored as [not_admin_group] before its
    message is looked at; from a chat that is let in, a message of
    another type than text is ignored as [not_text_message], and a text
    that does not start with a command prefix as [not_command]. An
    ignored payload sends nothing. *)
Theorem gateway_gates
        (w : World) (d : list (string * json)) (sender chat_id : json) :
  d <> [] ->
  Py.lookup "command" d = None ->
  Py.get (JDict d) "senderData" (JDict []) = Returned sender ->
  Py.get sender "chatId" (JStr "") = Returned chat_id ->
  (admitted w chat_id = false ->
   picklebot_webhook w (post_request (JDict d)) = (ignored "not_admin_group", []))
  /\ (forall message type_message : json,
         admitted w chat_id = true ->
         Py.get (JDict d) "messageData" (JDict []) = Returned message ->
         Py.get message "typeMessage" (JStr "") = Returned type_message ->
         (Py.eq_str type_message "textMessage" = false ->
          picklebot_webhook w (post_request (JDict d))
          = (ignored "not_text_message", []))
         /\ (forall (text_data : json) (text : string),
                Py.eq_str type_message "textMessage" = true ->
                Py.get message "textMessageData" (JDict []) = Returned text_data ->
                Py.get text_data "textMessage" (JStr "") = Returned (JStr text) ->
                has_command_prefix text = false ->
                picklebot_webhook w (post_request (JDict d))
                = (ignored "not_command", []))).
Proof.
  intros Hd Hcmd Hsender Hchat.
  rewrite (webhook_dict _ _ Hd), (read_request_gateway _ _ _ _ Hcmd Hsender Hchat).
  split.
  - intros Hno. rewrite Hno. reflexivity.
  - intros message type_message Hyes Hmsg Htype.
    cbn [Py.get] in Hmsg. injection Hmsg as Hmsg. rewrite Hmsg.
    rewrite Hyes, Htype. cbn [negb bind].
    split.
    + intros Hnot. rewrite Hnot. reflexivity.
    + intros text_data text Htext Hdata Htxt Hprefix.
      rewrite Htext. cbn [negb]. rewrite Hdata. cbn [bind].
      rewrite Htxt. cbn [bind]. rewrite is_command_loop_text, Hprefix.
      reflexivity.
Qed.

Lemma gateway_gates_witness :
  picklebot_webhook Samples.world_offline
    (post_request
       (JDict [("senderData", JDict [("chatId", JStr "family@g.us")]);
               ("messageData", JStr "not even a dictionary")]))
  = (ignored "not_admin_group", [])
  /\ picklebot_webhook Samples.world_offline
       (post_request
          (JDict [("senderData", JDict [("chatId", JStr "admins@g.us")]);
                  ("messageData",
                   JDict [("typeMessage", JStr "textMessage");
                          ("textMessageData",
                           JDict [("textMessage", JStr " /pb help")])])]))
     = (ignored "not_command", []).
Proof.
  split.
  - apply (proj1 (gateway_gates Samples.world_offline
                    [("senderData", JDict [("chatId", JStr "family@g.us")]);
                     ("messageData", JStr "not even a dictionary")]
                    (JDict [("chatId", JStr "family@g.us")]) (JStr "family@g.us")
                    ltac:(discriminate) eq_refl eq_refl eq_refl)).
    reflexivity.
  - apply (proj2 (proj2 (gateway_gates Samples.world_offline
                    [("senderData", JDict [("chatId", JStr "admins@g.us")]);
                     ("messageData",
                      JDict [("typeMessage", JStr "textMessage");
                             ("textMessageData",
                              JDict [("textMessage", JStr " /pb help")])])]
                    (JDict [("chatId", JStr "admins@g.us")]) (JStr "admins@g.us")
                    ltac:(discriminate) eq_refl eq_refl eq_refl)
                    (JDict [("typeMessage", JStr "textMessage");
                            ("textMessageData",
                             JDict [("textMessage", JStr " /pb help")])])
                    (JStr "textMessage") eq_refl eq_refl eq_refl)
                 (JDict [("textMessage", JStr " /pb help")]) " /pb help"
                 eq_refl eq_refl eq_refl eq_refl).
Defined.

(** X8. A payload of the raw gateway form that passes the three gates is
    handled as the routed request with the same text, chat and dry-run
    override: the same answer, and the same messages to the gateway. *)
Theorem gateway_accepted_as_routed
        (w : World) (d : list (string * json))
        (sender chat_id message text_data : json) (text : string) :
  d <> [] ->
  Py.lookup "command" d = None ->
  Py.get (JDict d) "senderData" (JDict []) = Returned sender ->
  Py.get sender "chatId" (JStr "") = Returned chat_id ->
  admitted w chat_id = true ->
  Py.get (JDict d) "messageData" (JDict []) = Returned message ->
  Py.get message "typeMessage" (JStr "") = Returned (JStr "textMessage") ->
  Py.get message "textMessageData" (JDict []) = Returned text_data ->
  Py.get text_data "textMessage" (JStr "") = Returned (JStr text) ->
  has_command_prefix text = true ->
  picklebot_webhook w (post_request (JDict d))
  = picklebot_webhook w
      (post_request (routed_payload (JStr text) chat_id (request_override d))).
Proof.
  intros Hd Hcmd Hsender Hchat Hyes Hmsg Htype Hdata Htxt Hprefix.
  rewrite (webhook_dict _ _ Hd), (read_request_gateway _ _ _ _ Hcmd Hsender Hchat).
  cbn [Py.get] in Hmsg. injection Hmsg as Hmsg. rewrite Hmsg.
  rewrite Hyes, Htype. cbn [negb bind Py.eq_str].
  change ("textMessage" =? "textMessage") with true. cbn [negb].
  rewrite Hdata. cbn [bind]. rewrite Htxt. cbn [bind].
  rewrite is_command_loop_text, Hprefix. cbn [negb bind].
  unfold routed_payload. rewrite webhook_dict by discriminate.
  reflexivity.
Qed.

Lemma gateway_accepted_as_routed_witness :
  picklebot_webhook Samples.world_offline
    (post_request
       (JDict [("senderData", JDict [("chatId", JStr "admins@g.us")]);
               ("messageData",
                JDict [("typeMessage", JStr "textMessage");
                       ("textMessageData",
                        JDict [("textMessage", JStr "/PB deadbeats")])])]))
  = picklebot_webhook Samples.world_offline
      (post_request (routed_payload (JStr "/PB deadbeats") (JStr "admins@g.us")
                                    (JBool false))).
Proof.
  apply (gateway_accepted_as_routed Samples.world_offline
           [("senderData", JDict [("chatId", JStr "admins@g.us")]);
            ("messageData",
             JDict [("typeMessage", JStr "textMessage");
                    ("textMessageData",
                     JDict [("textMessage", JStr "/PB deadbeats")])])]
           (JDict [("chatId", JStr "admins@g.us")]) (JStr "admins@g.us")
           (JDict [("typeMessage", JStr "textMessage");
                   ("textMessageData",
                    JDict [("textMessage", JStr "/PB deadbeats")])])
           (JDict [("textMessage", JStr "/PB deadbeats")]) "/PB deadbeats");
    (discriminate || reflexivity).
Defined.

End Gateway.

(** ** The answers and the posts of the entry point *)

Module Answers.
Import PyStr Spec PyStrFacts.

Lemma read_request_ignored (w : World) (data : json) (answer : http_response) :
  read_request w data = Returned (inr answer) ->
  exists reason, answer = ignored reason.
Proof.
  unfold read_request. intros H.
  destruct data; try discriminate H.
  destruct (Py.lookup "command" d).
  - Dispatch.steps H. discriminate H.
  - Dispatch.steps H.
    repeat match type of H with
           | (if ?b then _ else _) = _ => destruct b
           | bind _ _ = _ => Dispatch.steps H
           end; try discriminate H; injection H as <-; eexists; reflexivity.
Qed.

(** What the [try] block of the entry point returns: the answer to an
    ignored payload, with no post, or the answer to a processed command,
    with what was handed to the gateway. *)
Lemma webhook_try_cases (w : World) (data : json) (answer : http_response)
      (sent : list post) :
  webhook_try w data = Returned (answer, sent) ->
  (sent = [] /\ exists reason, answer = ignored reason)
  \/ (exists (chat_id override : json) (text_dry : bool) (intent m : string),
         answer = processed intent (Py.or_ override (JBool text_dry)) m
         /\ sent = delivered w chat_id (Py.or_ override (JBool text_dry)) m).
Proof.
  unfold webhook_try. intros H. Dispatch.steps H.
  destruct a0 as [[[command chat_id] sender_data] | ignored_answer].
  - Dispatch.steps H.
    destruct (Webhook.process_command_shape _ _ _ _ _ E1)
      as [text [m [j [_ [_ [Hr [Hm _]]]]]]].
    rewrite Hr, (Webhook.respond_built _ _ _ _ _ _ Hm) in H.
    injection H as <- <-. right.
    now exists chat_id, a, (snd (extract_dry_run_flag text)), (dispatched_intent j), m.
  - injection H as <- <-. left. split; [reflexivity|].
    now apply (read_request_ignored w data).
Qed.

(** X9. The status of every answer is 200, 204, 400, 405 or 500; it is 204
    exactly for OPTIONS, 405 exactly for a method that is neither OPTIONS
    nor POST, and 400 exactly for a POST whose JSON body is missing or
    empty; and with these three nothing is handed to the gateway. *)
Theorem response_statuses (w : World) (request : Request) :
  let st := status (fst (picklebot_webhook w request)) in
  In st [200; 204; 400; 405; 500]%Z
  /\ (st = 204%Z <-> method request = "OPTIONS")
  /\ (st = 405%Z <-> method request <> "OPTIONS" /\ method request <> "POST")
  /\ (st = 400%Z <->
      method request = "POST" /\ Py.truthy (get_json request) = false)
  /\ (st = 204%Z \/ st = 405%Z \/ st = 400%Z ->
      snd (picklebot_webhook w request) = []).
Proof.
  cbv zeta. unfold picklebot_webhook.
  destruct (String.eqb_spec (method request) "OPTIONS") as [Ho|Ho].
  { cbn [fst snd status]. split; [simpl; tauto|]. split; [tauto|].
    split; [split; [discriminate | tauto]|].
    split; [split; [discriminate | intros [H _]; congruence]|]. reflexivity. }
  destruct (String.eqb_spec (method request) "POST") as [Hp|Hp]; cbn [negb].
  2:{ cbn [fst snd status reply]. split; [simpl; tauto|].
      split; [split; [discriminate | tauto]|]. split; [tauto|].
      split; [split; [discriminate | tauto]|]. reflexivity. }
  destruct (Py.truthy (get_json request)) eqn:Ht; cbn [negb].
  2:{ cbn [fst snd status reply]. split; [simpl; tauto|].
      split; [split; [discriminate | tauto]|].
      split; [split; [discriminate | tauto]|]. split; [tauto|]. reflexivity. }
  assert (Hst : status (fst (try_except (webhook_try w (get_json request))
                               (fun e => (reply [("error", JStr (Py.str_exn e))] 500,
                                          []))))
                = 200%Z
                \/ status (fst (try_except (webhook_try w (get_json request))
                                  (fun e => (reply [("error", JStr (Py.str_exn e))] 500,
                                             []))))
                   = 500%Z).
  { destruct (webhook_try w (get_json request)) as [[answer sent]|e] eqn:Htry;
      cbn [try_except fst]; [left | right; reflexivity].
    apply (Webhook.webhook_try_status _ _ _ _ Htry). }
  split; [simpl; destruct Hst as [->| ->]; tauto|].
  split; [split; [intros H; destruct Hst; congruence | contradiction]|].
  split; [split; [intros H; destruct Hst; congruence | tauto]|].
  split; [split; [intros H; destruct Hst; congruence
                 | intros [_ H]; discriminate H]|].
  intros H. destruct Hst as [Hst|Hst]; rewrite Hst in H;
    destruct H as [H|[H|H]]; discriminate H.
Qed.



End Answers.

(** ** The order of the balances *)

Module Ordering.
Import Spec.

(** *** The order of the floats *)

Ltac order_cases :=
  repeat match goal with
         | |- context [Pos.compare_cont Eq ?a ?b] =>
             change (Pos.compare_cont Eq a b) with (a ?= b)%positive
         | |- context [(?a ?= ?b)%Z] => destruct (Z.compare_spec a b)
         | |- context [(?a ?= ?b)%positive] => destruct (Pos.compare_spec a b)
         end;
  cbn [CompOpp]; intros;
  try discriminate; try reflexivity; try lia;
  try (subst; reflexivity).

Lemma SFcompare_antisym (x y : spec_float) :
  SFcompare y x = option_map CompOpp (SFcompare x y).
Proof.
  destruct x as [[]|[]| |[] mx ex], y as [[]|[]| |[] my ey];
    try reflexivity; unfold SFcompare, option_map; f_equal; order_cases.
Qed.

Lemma SFcompare_Eq_l (x y z : spec_float) :
  SFcompare x y = Some Eq -> SFcompare x z = SFcompare y z.
Proof.
  destruct x as [[]|[]| |[] mx ex], y as [[]|[]| |[] my ey];
    try discriminate; try reflexivity;
    destruct z as [[]|[]| |[] mz ez]; try reflexivity;
    unfold SFcompare; intros H; injection H as H; revert H; order_cases.
Qed.

Lemma SFcompare_Lt_trans (x y z : spec_float) :
  SFcompare x y = Some Lt -> SFcompare y z = Some Lt -> SFcompare x z = Some Lt.
Proof.
  destruct x as [[]|[]| |[] mx ex], y as [[]|[]| |[] my ey];
    try discriminate;
    destruct z as [[]|[]| |[] mz ez]; try discriminate; try reflexivity;
    unfold SFcompare; intros H H'; injection H as H; injection H' as H';
    f_equal; revert H H'; order_cases.
Qed.

Lemma SFcompare_Eq_r (x y z : spec_float) :
  SFcompare x y = Some Eq -> SFcompare z x = SFcompare z y.
Proof.
  intros H. rewrite (SFcompare_antisym x z), (SFcompare_antisym y z).
  now rewrite (SFcompare_Eq_l x y z H).
Qed.

Lemma SFcompare_defined (x y : spec_float) :
  SFcompare x x = Some Eq -> SFcompare y y = Some Eq ->
  exists c, SFcompare x y = Some c.
Proof.
  destruct x as [[]|[]| |[] mx ex], y as [[]|[]| |[] my ey];
    try discriminate; intros _ _; eexists; reflexivity.
Qed.

Lemma ltb_asym (x y : float) : (x <? y)%float = true -> (y <? x)%float = false.
Proof.
  rewrite !ltb_spec. unfold SFltb.
  rewrite (SFcompare_antisym (Prim2SF x) (Prim2SF y)).
  destruct (SFcompare (Prim2SF x) (Prim2SF y)) as [[]|]; cbn; intros H;
    (discriminate H || reflexivity).
Qed.

(** Of two numbers, the one that is not less is at least the other. *)
Lemma leb_of_not_ltb (x y : float) :
  (x =? x)%float = true -> (y =? y)%float = true ->
  (x <? y)%float = false -> (y <=? x)%float = true.
Proof.
  rewrite !eqb_spec, ltb_spec, leb_spec. unfold SFeqb, SFltb, SFleb.
  intros Hx Hy.
  destruct (SFcompare (Prim2SF x) (Prim2SF x)) as [[]|] eqn:Ex; try discriminate Hx.
  destruct (SFcompare (Prim2SF y) (Prim2SF y)) as [[]|] eqn:Ey; try discriminate Hy.
  destruct (SFcompare_defined _ _ Ex Ey) as [c Hc].
  rewrite (SFcompare_antisym (Prim2SF x) (Prim2SF y)), Hc.
  destruct c; cbn; intros H; (discriminate H || reflexivity).
Qed.

Lemma not_ltb_of_leb (x y : float) :
  (y <=? x)%float = true -> (x <? y)%float = false.
Proof.
  rewrite ltb_spec, leb_spec. unfold SFltb, SFleb.
  rewrite (SFcompare_antisym (Prim2SF x) (Prim2SF y)).
  destruct (SFcompare (Prim2SF x) (Prim2SF y)) as [[]|]; cbn; intros H;
    (discriminate H || reflexivity).
Qed.

Lemma leb_of_ltb (x y : float) :
  (x <? y)%float = true -> (x <=? y)%float = true.
Proof.
  rewrite ltb_spec, leb_spec. unfold SFltb, SFleb.
  destruct (SFcompare (Prim2SF x) (Prim2SF y)) as [[]|]; intros H;
    (discriminate H || reflexivity).
Qed.

Lemma leb_trans (x y z : float) :
  (x <=? y)%float = true -> (y <=? z)%float = true -> (x <=? z)%float = true.
Proof.
  rewrite !leb_spec. unfold SFleb.
  destruct (SFcompare (Prim2SF x) (Prim2SF y)) as [[]|] eqn:Exy; try discriminate;
    destruct (SFcompare (Prim2SF y) (Prim2SF z)) as [[]|] eqn:Eyz; try discriminate;
    intros _ _.
  - now rewrite (SFcompare_Eq_l _ _ _ Exy), Eyz.
  - now rewrite (SFcompare_Eq_l _ _ _ Exy), Eyz.
  - now rewrite <- (SFcompare_Eq_r _ _ _ Eyz), Exy.
  - now rewrite (SFcompare_Lt_trans _ _ _ Exy Eyz).
Qed.

Lemma leb_antisym (x y : float) :
  (x <=? y)%float = true -> (y <=? x)%float = true -> (x =? y)%float = true.
Proof.
  rewrite !leb_spec, eqb_spec. unfold SFleb, SFeqb.
  rewrite (SFcompare_antisym (Prim2SF x) (Prim2SF y)).
  destruct (SFcompare (Prim2SF x) (Prim2SF y)) as [[]|]; cbn; intros H H';
    (discriminate H || discriminate H' || reflexivity).
Qed.

Lemma leb_of_eqb (x y : float) :
  (x =? y)%float = true -> (x <=? y)%float = true /\ (y <=? x)%float = true.
Proof.
  rewrite !leb_spec, eqb_spec. unfold SFleb, SFeqb.
  rewrite (SFcompare_antisym (Prim2SF x) (Prim2SF y)).
  destruct (SFcompare (Prim2SF x) (Prim2SF y)) as [[]|]; cbn; intros H;
    (discriminate H || now split).
Qed.

Lemma eqb_cong (x y b : float) :
  (x =? y)%float = true -> (x =? b)%float = (y =? b)%float.
Proof.
  rewrite !eqb_spec. unfold SFeqb.
  destruct (SFcompare (Prim2SF x) (Prim2SF y)) as [[]|] eqn:E; try discriminate.
  intros _. now rewrite (SFcompare_Eq_l _ _ _ E).
Qed.

Lemma ltb_not_eqb (p q b : float) :
  (p <? q)%float = true -> (p =? b)%float = true -> (q =? b)%float = false.
Proof.
  rewrite ltb_spec, !eqb_spec. unfold SFltb, SFeqb.
  destruct (SFcompare (Prim2SF p) (Prim2SF q)) as [[]|] eqn:Epq; try discriminate.
  destruct (SFcompare (Prim2SF p) (Prim2SF b)) as [[]|] eqn:Epb; try discriminate.
  intros _ _.
  rewrite <- (SFcompare_Eq_r _ _ _ Epb),
    (SFcompare_antisym (Prim2SF p) (Prim2SF q)), Epq.
  reflexivity.
Qed.

Lemma ltb_comparable (x y : float) :
  (x <? y)%float = true -> (x =? x)%float = true /\ (y =? y)%float = true.
Proof.
  rewrite ltb_spec, !eqb_spec. unfold SFltb, SFeqb.
  destruct (Prim2SF x) as [[]|[]| |[] mx ex], (Prim2SF y) as [[]|[]| |[] my ey];
    try discriminate; intros _; unfold SFcompare; split; try reflexivity;
    rewrite ?Z.compare_refl, ?Pos.compare_cont_refl; reflexivity.
Qed.

(** *** The insertions *)

Lemma comparable_all (l : list Player) :
  forallb comparable l = true <-> Forall (fun p => comparable p = true) l.
Proof. rewrite forallb_forall, Forall_forall. reflexivity. Qed.

Lemma insert_desc_perm (p : Player) (l : list Player) :
  Permutation (insert_desc p l) (p :: l).
Proof.
  induction l as [|q l IH]; simpl; [apply Permutation_refl|].
  destruct (balance p <? balance q)%float; [|apply Permutation_refl].
  apply perm_trans with (q :: p :: l); [now apply perm_skip | apply perm_swap].
Qed.

Lemma insertions_perm (l : list Player) :
  Permutation (fold_right insert_desc [] l) l.
Proof.
  induction l as [|p l IH]; simpl; [constructor|].
  apply perm_trans with (p :: fold_right insert_desc [] l);
    [apply insert_desc_perm | now apply perm_skip].
Qed.

Lemma insert_desc_decreasing (p : Player) (l : list Player) :
  comparable p = true -> Forall (fun q => comparable q = true) l ->
  decreasing l -> decreasing (insert_desc p l).
Proof.
  intros Hp. induction l as [|q l IH]; intros Hc Hd; simpl.
  - repeat constructor.
  - inversion Hc as [|? ? Hq Hl]; subst.
    inversion Hd as [|? ? Hrest Hall]; subst.
    destruct (balance p <? balance q)%float eqn:Hlt.
    + constructor; [now apply IH|].
      apply (Permutation_Forall (Permutation_sym (insert_desc_perm p l))).
      constructor; [|exact Hall]. unfold at_least. now apply leb_of_ltb.
    + assert (Hqp : at_least p q)
        by (unfold at_least; now apply leb_of_not_ltb).
      constructor; [exact Hd|]. constructor; [exact Hqp|].
      revert Hall. apply Forall_impl. intros r Hr. unfold at_least in *.
      now apply leb_trans with (balance q).
Qed.

Lemma insertions_decreasing (l : list Player) :
  Forall (fun q => comparable q = true) l ->
  decreasing (fold_right insert_desc [] l).
Proof.
  induction l as [|p l IH]; intros Hc; simpl; [constructor|].
  inversion Hc as [|? ? Hp Hl]; subst.
  apply insert_desc_decreasing; [exact Hp| |now apply IH].
  now apply (Permutation_Forall (Permutation_sym (insertions_perm l))).
Qed.

(** An insertion puts the player before those of the same balance. *)
Lemma insert_desc_stable (b : float) (p : Player) (l : list Player) :
  filter (same_balance b) (insert_desc p l)
  = filter (same_balance b) (p :: l).
Proof.
  induction l as [|q l IH]; [reflexivity|]. cbn [insert_desc].
  destruct (balance p <? balance q)%float eqn:Hlt; [|reflexivity].
  cbn [filter] in *. rewrite IH.
  destruct (same_balance b p) eqn:Hb; [|reflexivity].
  unfold same_balance in *. now rewrite (ltb_not_eqb _ _ _ Hlt Hb).
Qed.

Lemma insertions_stable (b : float) (l : list Player) :
  filter (same_balance b) (fold_right insert_desc [] l)
  = filter (same_balance b) l.
Proof.
  induction l as [|p l IH]; [reflexivity|]. cbn [fold_right].
  rewrite insert_desc_stable. cbn [filter]. now rewrite IH.
Qed.

(** *** Decreasing lists *)

Lemma decreasing_not_below (l : list Player) :
  decreasing l -> Sorted not_below l.
Proof.
  intros H. apply StronglySorted_Sorted.
  induction H as [|p l Hl IH Hall]; constructor; [exact IH|].
  revert Hall. apply Forall_impl. intros q Hq.
  unfold not_below, at_least in *. now apply not_ltb_of_leb.
Qed.

Lemma decreasing_filter (f : Player -> bool) (l : list Player) :
  decreasing l -> decreasing (filter f l).
Proof.
  induction 1 as [|p l Hl IH Hall]; cbn [filter]; [constructor|].
  destruct (f p); [|exact IH]. constructor; [exact IH|].
  apply Forall_forall. intros q Hq. apply filter_In in Hq.
  rewrite Forall_forall in Hall. now apply Hall.
Qed.

Lemma filter_perm {A : Type} (f : A -> bool) (l l' : list A) :
  Permutation l l' -> Permutation (filter f l) (filter f l').
Proof.
  induction 1 as [|x l l' _ IH|x y l|l l' l'' _ IH1 _ IH2]; cbn [filter].
  - constructor.
  - destruct (f x); [now constructor | exact IH].
  - destruct (f x), (f y); try apply Permutation_refl; apply perm_swap.
  - now apply perm_trans with (filter f l').
Qed.

Lemma filter_comm {A : Type} (f g : A -> bool) (l : list A) :
  filter f (filter g l) = filter g (filter f l).
Proof.
  induction l as [|x l IH]; [reflexivity|]. cbn [filter].
  destruct (f x) eqn:Hf, (g x) eqn:Hg; cbn [filter]; rewrite ?Hf, ?Hg, IH;
    reflexivity.
Qed.

(** A player of a list is among those of its balance. *)
Lemma same_balance_In (p : Player) (l : list Player) :
  comparable p = true -> In p l -> In p (filter (same_balance (balance p)) l).
Proof. intros Hp Hin. apply filter_In. now split. Qed.

(** The first player of a decreasing list has the greatest balance of
    those that the list has with some balance. *)
Lemma head_at_least (p q : Player) (l l' : list Player) :
  comparable q = true -> decreasing (p :: l) ->
  filter (same_balance (balance q)) (q :: l')
  = filter (same_balance (balance q)) (p :: l) ->
  (balance q <=? balance p)%float = true.
Proof.
  intros Hq Hd Hf.
  assert (Hin : In q (filter (same_balance (balance q)) (p :: l))).
  { rewrite <- Hf. apply same_balance_In; [exact Hq | now left]. }
  apply filter_In in Hin. destruct Hin as [[<-|Hin] _].
  - now apply leb_of_eqb.
  - inversion Hd as [|? ? _ Hall]; subst.
    rewrite Forall_forall in Hall. now apply Hall.
Qed.

(** Two decreasing lists with the same players of each balance, in the
    same order, are the same list. *)
Lemma decreasing_stable_unique (l1 : list Player) :
  forall l2 : list Player,
    Forall (fun p => comparable p = true) l1 ->
    Forall (fun p => comparable p = true) l2 ->
    decreasing l1 -> decreasing l2 ->
    (forall b, filter (same_balance b) l1 = filter (same_balance b) l2) ->
    l1 = l2.
Proof.
  induction l1 as [|p l1 IH]; intros l2 Hc1 Hc2 Hd1 Hd2 Hf.
  - destruct l2 as [|q l2]; [reflexivity|].
    inversion Hc2 as [|? ? Hq _]; subst.
    specialize (Hf (balance q)). cbn [filter] in Hf.
    change (same_balance (balance q) q) with (comparable q) in Hf.
    rewrite Hq in Hf. discriminate Hf.
  - destruct l2 as [|q l2].
    + inversion Hc1 as [|? ? Hp _]; subst.
      specialize (Hf (balance p)). cbn [filter] in Hf.
      change (same_balance (balance p) p) with (comparable p) in Hf.
      rewrite Hp in Hf. discriminate Hf.
    + inversion Hc1 as [|? ? Hp Hl1]; subst.
      inversion Hc2 as [|? ? Hq Hl2]; subst.
      assert (Hqp : (balance q <=? balance p)%float = true)
        by (apply (head_at_least p q l1 l2 Hq Hd1); symmetry; apply Hf).
      assert (Hpq : (balance p <=? balance q)%float = true)
        by (apply (head_at_least q p l2 l1 Hp Hd2); apply Hf).
      assert (He : (balance q =? balance p)%float = true)
        by now apply leb_antisym.
      assert (Hhead : p = q).
      { pose proof (Hf (balance p)) as H. cbn [filter] in H.
        change (same_balance (balance p) p) with (comparable p) in H.
        change (same_balance (balance p) q)
          with (balance q =? balance p)%float in H.
        rewrite Hp, He in H. now injection H. }
      subst q. f_equal.
      inversion Hd1 as [|? ? Hd1' _]; subst.
      inversion Hd2 as [|? ? Hd2' _]; subst.
      apply IH; trivial.
      intros b. specialize (Hf b). cbn [filter] in Hf.
      destruct (same_balance b p); [now injection Hf | exact Hf].
Qed.

(** *** The sort *)

Lemma sort_desc_comparable (w : World) (l : list Player) :
  forallb comparable l = true -> sort_desc w l = fold_right insert_desc [] l.
Proof. intros H. unfold sort_desc. now rewrite H. Qed.

Lemma sort_desc_perm (w : World) (l : list Player) :
  forallb comparable l = true -> Permutation (sort_desc w l) l.
Proof.
  intros H. rewrite (sort_desc_comparable w l H). apply insertions_perm.
Qed.

Lemma sort_desc_decreasing (w : World) (l : list Player) :
  forallb comparable l = true -> decreasing (sort_desc w l).
Proof.
  intros H. rewrite (sort_desc_comparable w l H).
  now apply insertions_decreasing, comparable_all.
Qed.

Lemma sort_desc_stable (w : World) (l : list Player) (b : float) :
  forallb comparable l = true ->
  filter (same_balance b) (sort_desc w l) = filter (same_balance b) l.
Proof.
  intros H. rewrite (sort_desc_comparable w l H). apply insertions_stable.
Qed.

Lemma owing_comparable (l : list Player) :
  forallb comparable (filter (fun p => (0 <? balance p)%float) l) = true.
Proof.
  apply forallb_forall. intros p Hp. apply filter_In in Hp.
  destruct Hp as [_ Hp]. unfold comparable. now apply (ltb_comparable 0).
Qed.

(** X11. The sort of the players by decreasing balance, where every
    balance is a number: it loses and invents no player, every player
    stands before those of a smaller balance only, and the players of one
    balance keep the order they had. The sorted list is the only
    arrangement of the players with these properties. *)
Theorem sort_desc_sorted (w : World) (l : list Player) :
  forallb comparable l = true ->
  Permutation (sort_desc w l) l
  /\ decreasing (sort_desc w l)
  /\ Sorted not_below (sort_desc w l)
  /\ (forall b, filter (same_balance b) (sort_desc w l)
                = filter (same_balance b) l)
  /\ (forall l' : list Player,
         Permutation l' l -> decreasing l' ->
         (forall b, filter (same_balance b) l' = filter (same_balance b) l) ->
         l' = sort_desc w l).
Proof.
  intros Hc.
  pose proof (sort_desc_perm w l Hc) as Hperm.
  pose proof (sort_desc_decreasing w l Hc) as Hdec.
  split; [exact Hperm|]. split; [exact Hdec|].
  split; [now apply decreasing_not_below|].
  split; [intros b; now apply sort_desc_stable|].
  intros l' Hperm' Hdec' Hst.
  apply comparable_all in Hc.
  apply decreasing_stable_unique; trivial.
  - now apply (Permutation_Forall (Permutation_sym Hperm')).
  - now apply (Permutation_Forall (Permutation_sym Hperm)).
  - intros b. rewrite Hst. symmetry. apply sort_desc_stable.
    now apply comparable_all.
Qed.

Lemma sort_desc_sorted_witness :
  sort_desc Samples.world_offline
    [ {| name := "Cara"; balance := 0 |};
      {| name := "Bob"; balance := -5 |};
      {| name := "Alice"; balance := 25 |};
      {| name := "Dan"; balance := 0 |} ]
  = [ {| name := "Alice"; balance := 25 |};
      {| name := "Cara"; balance := 0 |};
      {| name := "Dan"; balance := 0 |};
      {| name := "Bob"; balance := -5 |} ].
Proof.
  symmetry.
  apply (proj2 (proj2 (proj2 (proj2
           (sort_desc_sorted Samples.world_offline
              [ {| name := "Cara"; balance := 0 |};
                {| name := "Bob"; balance := -5 |};
                {| name := "Alice"; balance := 25 |};
                {| name := "Dan"; balance := 0 |} ] eq_refl))))).
  - apply perm_trans with
      [ {| name := "Cara"; balance := 0 |};
        {| name := "Alice"; balance := 25 |};
        {| name := "Dan"; balance := 0 |};
        {| name := "Bob"; balance := -5 |} ]; [apply perm_swap|].
    apply perm_skip.
    apply perm_trans with
      [ {| name := "Alice"; balance := 25 |};
        {| name := "Bob"; balance := -5 |};
        {| name := "Dan"; balance := 0 |} ];
      [apply perm_skip, perm_swap | apply perm_swap].
  - repeat constructor.
  - intros b. unfold same_balance. cbn [filter balance].
    destruct (25 =? b)%float eqn:E25, (0 =? b)%float eqn:E0,
      (-5 =? b)%float eqn:E5; try reflexivity;
      try (rewrite (ltb_not_eqb 0 25 b eq_refl E0) in E25; discriminate E25);
      try (rewrite (ltb_not_eqb (-5) 25 b eq_refl E5) in E25; discriminate E25);
      rewrite (ltb_not_eqb (-5) 0 b eq_refl E5) in E0; discriminate E0.
Defined.

(** X12. The list of [show_deadbeats]. When some player owes, the lines of
    the message are those of the players with a positive balance, each
    once and no other, in the order of decreasing balance, and the total
    is their sum; when nobody owes, the message says so. *)
Theorem deadbeats_listing (w : World) :
  let owing := filter (fun p => (0 <? balance p)%float) (get_player_balances w) in
  (owing = [] ->
   handle_deadbeats w
   = "*SMAD Picklebot*" ++ Py.nl ++ Py.nl
     ++ "No outstanding balances! Everyone is paid up.")
  /\ (owing <> [] ->
      exists listed : list Player,
        Permutation listed owing
        /\ Sorted not_below listed
        /\ (forall p, In p listed <->
                      In p (get_player_balances w) /\ (0 <? balance p)%float = true)
        /\ handle_deadbeats w
           = "*SMAD Picklebot - Outstanding Balances*" ++ Py.nl ++ Py.nl
             ++ String.concat "" (map balance_line listed)
             ++ Py.nl ++ "*Total: $"
             ++ Py.format_2f (sum_balances (map balance listed)) ++ "*").
Proof.
  cbv zeta. unfold handle_deadbeats.
  destruct (filter (fun p => (0 <? balance p)%float) (get_player_balances w))
    as [|q owing] eqn:Hf.
  - split; [reflexivity | congruence].
  - split; [discriminate|]. intros _.
    assert (Hc : forallb comparable (q :: owing) = true)
      by (rewrite <- Hf; apply owing_comparable).
    pose proof (sort_desc_perm w (q :: owing) Hc) as Hperm.
    pose proof (decreasing_not_below _ (sort_desc_decreasing w (q :: owing) Hc))
      as Hsorted.
    exists (sort_desc w (q :: owing)).
    split; [exact Hperm|]. split; [exact Hsorted|]. split; [|reflexivity].
    intros p. rewrite <- Hf in Hperm. rewrite <- Hf. split.
    + intros Hin. apply (Permutation_in _ Hperm) in Hin.
      now apply filter_In in Hin.
    + intros Hin. apply (Permutation_in _ (Permutation_sym Hperm)).
      now apply filter_In.
Qed.

Lemma deadbeats_listing_witness :
  exists listed : list Player,
    Permutation listed
      (filter (fun p => (0 <? balance p)%float)
              (get_player_balances Samples.world_offline))
    /\ handle_deadbeats Samples.world_offline
       = "*SMAD Picklebot - Outstanding Balances*" ++ Py.nl ++ Py.nl
         ++ String.concat "" (map balance_line listed)
         ++ Py.nl ++ "*Total: $"
         ++ Py.format_2f (sum_balances (map balance listed)) ++ "*".
Proof.
  destruct (proj2 (deadbeats_listing Samples.world_offline) ltac:(discriminate))
    as [listed [Hperm [_ [_ H]]]].
  exists listed. split; assumption.
Defined.

End Ordering.

(** ** The rows of the spreadsheet *)

Module Sheet.
Import PyStr Spec PyStrFacts.

Lemma prefix_empty (s : string) : String.prefix "" s = true.
Proof. now destruct s. Qed.

(** A character is absent from a text. *)
Lemma absent_cons (c x : ascii) (s : string) :
  contains (String c "") (String x s) = false
  <-> c <> x /\ contains (String c "") s = false.
Proof.
  cbn [contains String.prefix]. rewrite prefix_empty.
  destruct (ascii_dec c x) as [->|Hne]; simpl.
  - split; [discriminate | intros [H _]; now elim H].
  - split; [now split | now intros [_ H]].
Qed.

Lemma remove_char_cons (c x : ascii) (s : string) :
  remove (String c "") (String x s)
  = if ascii_dec c x then remove (String c "") s
    else String x (remove (String c "") s).
Proof.
  unfold remove. cbn [delete_matches String.length Nat.pred String.prefix].
  rewrite prefix_empty. now destruct (ascii_dec c x).
Qed.

Lemma remove_char_absent (c : ascii) (s : string) :
  contains (String c "") (remove (String c "") s) = false.
Proof.
  induction s as [|x s IH]; [reflexivity|].
  rewrite remove_char_cons. destruct (ascii_dec c x) as [->|Hne]; [exact IH|].
  now apply absent_cons.
Qed.

Lemma remove_keeps_absent (c d : ascii) (s : string) :
  contains (String c "") s = false ->
  contains (String c "") (remove (String d "") s) = false.
Proof.
  induction s as [|x s IH]; [trivial|].
  intros H. apply absent_cons in H. destruct H as [Hne H].
  rewrite remove_char_cons. destruct (ascii_dec d x); [now apply IH|].
  apply absent_cons. split; [exact Hne | now apply IH].
Qed.

Lemma lstrip_keeps_absent (c : ascii) (s : string) :
  contains (String c "") s = false -> contains (String c "") (lstrip s) = false.
Proof.
  induction s as [|x s IH]; [trivial|].
  intros H. cbn [lstrip]. destruct (is_space x); [|exact H].
  apply absent_cons in H. now apply IH.
Qed.

Lemma rstrip_keeps_absent (c : ascii) (s : string) :
  contains (String c "") s = false -> contains (String c "") (rstrip s) = false.
Proof.
  induction s as [|x s IH]; [trivial|].
  intros H. apply absent_cons in H. destruct H as [Hne H]. apply IH in H.
  cbn [rstrip]. destruct (rstrip s) as [|y r].
  - destruct (is_space x); [reflexivity|]. now apply absent_cons.
  - now apply absent_cons.
Qed.

(** X13. The text of a balance cell that is handed to [float]: it holds no
    dollar sign and no comma, it is trimmed, and it is never empty, a
    cell that is blank once these are removed being read as [0]. *)
Theorem balance_text_clean (balance_str : string) :
  contains "$" (balance_text balance_str) = false
  /\ contains "," (balance_text balance_str) = false
  /\ trimmed (balance_text balance_str)
  /\ balance_text balance_str <> ""
  /\ (strip (remove "," (remove "$" balance_str)) = "" ->
      balance_text balance_str = "0").
Proof.
  unfold balance_text.
  set (cleaned := strip (remove "," (remove "$" balance_str))).
  assert (Hd : contains "$" cleaned = false).
  { unfold cleaned, strip. apply rstrip_keeps_absent, lstrip_keeps_absent.
    apply remove_keeps_absent, remove_char_absent. }
  assert (Hc : contains "," cleaned = false).
  { unfold cleaned, strip. apply rstrip_keeps_absent, lstrip_keeps_absent.
    apply remove_char_absent. }
  assert (Ht : trimmed cleaned) by apply trimmed_strip.
  destruct (String.eqb_spec cleaned "") as [E|E].
  - repeat split; trivial; discriminate.
  - repeat split; trivial; try apply Ht. intros H. contradiction.
Qed.

Lemma cell_present (row : list string) (i : nat) (default other : string) :
  (i < List.length row)%nat -> cell row i default = nth i row other.
Proof.
  intros H. unfold cell. apply Nat.ltb_lt in H. rewrite H.
  apply nth_indep. now apply Nat.ltb_lt.
Qed.

Lemma players_of_rows_In (sheet : Spreadsheet) (rows : list (list string))
      (p : Player) :
  In p (players_of_rows sheet rows)
  <-> exists row, In row rows /\ listed_row row /\ p = player_of_row sheet row.
Proof.
  induction rows as [|row rows IH]; cbn [players_of_rows].
  - split; [intros [] | intros [row [[] _]]].
  - assert (Hrest : (exists r, In r rows /\ listed_row r /\ p = player_of_row sheet r)
                    -> exists r, In r (row :: rows) /\ listed_row r
                                 /\ p = player_of_row sheet r).
    { intros [r [Hin H]]. exists r. split; [now right | exact H]. }
    unfold listed_row in *.
    destruct (Nat.ltb_spec COL_BALANCE (List.length row)) as [Hlen|Hlen].
    + rewrite (cell_present row COL_FIRST_NAME "" "")
        by (unfold COL_FIRST_NAME, COL_BALANCE in *; lia).
      rewrite (cell_present row COL_LAST_NAME "" "")
        by (unfold COL_LAST_NAME, COL_BALANCE in *; lia).
      rewrite (cell_present row COL_BALANCE "0" "0") by exact Hlen.
      destruct (String.eqb_spec (nth COL_FIRST_NAME row "") "") as [E|E].
      * rewrite IH. split; [exact Hrest|].
        intros [r [[<-|Hin] [[Hl Hfirst] Hp]]]; [contradiction|].
        exists r. repeat split; assumption.
      * cbn [In]. rewrite IH. split.
        -- intros [<-|H]; [|now apply Hrest].
           exists row. split; [now left|]. now split.
        -- intros [r [[<-|Hin] [Hl Hp]]]; [now left|].
           right. now exists r.
    + rewrite IH. split; [exact Hrest|].
      intros [r [[<-|Hin] [[Hl Hfirst] Hp]]]; [lia|].
      exists r. repeat split; assumption.
Qed.

Lemma players_of_rows_length (sheet : Spreadsheet) (rows : list (list string)) :
  (List.length (players_of_rows sheet rows) <= List.length rows)%nat.
Proof.
  induction rows as [|row rows IH]; cbn [players_of_rows List.length]; [lia|].
  destruct (COL_BALANCE <? List.length row)%nat; [|lia].
  destruct (cell row COL_FIRST_NAME "" =? ""); cbn [List.length]; lia.
Qed.

(** X14. What [get_player_balances] makes of the sheet. Without a service,
    with a read that raises, or with an answer that has no values, there
    is no player. Otherwise the first row is the header and gives none;
    the players are those of the rows after it that reach the balance
    column and have a first name, so there are no more players than such
    rows, and every name is trimmed. *)
Theorem read_player_balances_rows (sheet : Spreadsheet) :
  (service_available sheet = false -> read_player_balances sheet = [])
  /\ (forall e, execute_values sheet = Raised e -> read_player_balances sheet = [])
  /\ (execute_values sheet = Returned None -> read_player_balances sheet = [])
  /\ (forall (header : list string) (rows : list (list string)),
         service_available sheet = true ->
         execute_values sheet = Returned (Some (header :: rows)) ->
         (forall p : Player,
             In p (read_player_balances sheet)
             <-> exists row, In row rows /\ listed_row row
                             /\ p = player_of_row sheet row)
         /\ (List.length (read_player_balances sheet) <= List.length rows)%nat
         /\ (forall p : Player,
                In p (read_player_balances sheet) -> trimmed (name p))).
Proof.
  unfold read_player_balances, read_players_try.
  split; [intros ->; reflexivity|].
  split; [intros e ->; now destruct (service_available sheet)|].
  split; [intros ->; now destruct (service_available sheet)|].
  intros header rows -> ->. cbn [negb bind try_except List.tl].
  split; [intros p; apply players_of_rows_In|].
  split; [apply players_of_rows_length|].
  intros p Hin. apply players_of_rows_In in Hin.
  destruct Hin as [row [_ [_ ->]]]. apply trimmed_strip.
Qed.

Lemma read_player_balances_rows_witness :
  In {| name := "Bob Ray"; balance := 1250.5%float |}
     (read_player_balances Samples.sheet)
  /\ (List.length (read_player_balances Samples.sheet) <= 3)%nat.
Proof.
  destruct (proj2 (proj2 (proj2 (read_player_balances_rows Samples.sheet)))
              ["First"; "Last"]
              [Samples.short_row; Samples.nameless_row; Samples.player_row]
              eq_refl eq_refl) as [Hin [Hlen _]].
  split; [|exact Hlen].
  apply Hin. exists Samples.player_row. split; [cbn; tauto|].
  split; [|reflexivity].
  split; [unfold COL_BALANCE, Samples.player_row; cbn; lia | discriminate].
Defined.

End Sheet.

(** ** The balance of one name *)

Module Lookup.
Import PyStr Spec PyStrFacts.

Lemma format_abs_owed (b : float) :
  (0 <? b)%float = true -> Py.format_2f (abs b) = Py.format_2f b.
Proof.
  unfold Py.format_2f. rewrite abs_spec, ltb_spec.
  change (Prim2SF 0) with (S754_zero false).
  destruct (Prim2SF b) as [[]|[]| |[] m e]; unfold SFltb, SFcompare, SFabs;
    intros H; try discriminate H; reflexivity.
Qed.

Lemma format_abs_credit (b : float) :
  (b <? 0)%float = true -> Py.format_2f b = "-" ++ Py.format_2f (abs b).
Proof.
  unfold Py.format_2f. rewrite abs_spec, ltb_spec.
  change (Prim2SF 0) with (S754_zero false).
  destruct (Prim2SF b) as [[]|[]| |[] m e]; unfold SFltb, SFcompare, SFabs;
    intros H; try discriminate H; reflexivity.
Qed.

Lemma zero_unsigned (b : float) :
  (b =? 0)%float = true -> (0 <? b)%float = false /\ (b <? 0)%float = false.
Proof.
  rewrite eqb_spec, !ltb_spec. change (Prim2SF 0) with (S754_zero false).
  destruct (Prim2SF b) as [[]|[]| |[] m e]; unfold SFeqb, SFltb, SFcompare;
    intros H; try discriminate H; now split.
Qed.

Lemma owed_not_zero (b : float) :
  (0 <? b)%float = true -> (b =? 0)%float = false.
Proof.
  rewrite eqb_spec, ltb_spec. change (Prim2SF 0) with (S754_zero false).
  destruct (Prim2SF b) as [[]|[]| |[] m e]; unfold SFeqb, SFltb, SFcompare;
    intros H; try discriminate H; reflexivity.
Qed.

Lemma credit_not_owed (b : float) :
  (b <? 0)%float = true -> (0 <? b)%float = false /\ (b =? 0)%float = false.
Proof.
  rewrite eqb_spec, !ltb_spec. change (Prim2SF 0) with (S754_zero false).
  destruct (Prim2SF b) as [[]|[]| |[] m e]; unfold SFeqb, SFltb, SFcompare;
    intros H; try discriminate H; now split.
Qed.

Lemma nan_unordered (b : float) :
  Prim2SF b = S754_nan ->
  (0 <? b)%float = false /\ (b <? 0)%float = false /\ (b =? 0)%float = false
  /\ Py.format_2f (abs b) = "nan".
Proof.
  intros H. unfold Py.format_2f. rewrite abs_spec, eqb_spec, !ltb_spec, H.
  repeat split.
Qed.

Lemma name_matches_case (m n : string) (players : list Player) :
  lower m = lower n -> filter (name_matches m) players = filter (name_matches n) players.
Proof. intros H. unfold name_matches. now rewrite H. Qed.

Lemma handle_balances_named (w : World) (n : string) :
  n <> "" ->
  handle_balances w (JStr n)
  = match filter (name_matches n) (get_player_balances w) with
    | [] => Returned (lookup_heading ++ "Player '" ++ n ++ "' not found.")
    | [p] =>
        if (balance p =? 0)%float then
          Returned (lookup_heading ++ name p ++ " "
                    ++ (if (0 <? balance p)%float then "owes"
                        else if (balance p <? 0)%float then "has credit of"
                        else "is all paid up") ++ "!")
        else
          Returned (lookup_heading ++ name p ++ " "
                    ++ (if (0 <? balance p)%float then "owes"
                        else if (balance p <? 0)%float then "has credit of"
                        else "is all paid up")
                    ++ " $" ++ Py.format_2f (abs (balance p)))
    | found =>
        Returned (lookup_heading ++ "Multiple matches for '" ++ n ++ "':" ++ Py.nl
                  ++ String.concat "" (map balance_line found))
    end.
Proof.
  intros Hn. unfold handle_balances. cbn [Py.truthy Py.str_method bind].
  apply String.eqb_neq in Hn. rewrite Hn. cbn [negb].
  change (fun p : Player => contains (lower n) (lower (name p)))
    with (name_matches n).
  destruct (filter (name_matches n) (get_player_balances w)) as [|p [|q rest]];
    [reflexivity| |reflexivity].
  destruct (balance p =? 0)%float; reflexivity.
Qed.

(** X15. The balance of one name. The players found are those whose name
    contains the name asked for, whatever the case of either. When none is
    found the answer says so and quotes the name as it was given. When
    exactly one is found the answer does not depend on the case of the
    name given: it says that the player owes the balance, or has a credit
    of the balance without its minus sign, or is all paid up, and for a
    balance that is no number it says all paid up followed by [$nan]. When
    several are found they are listed in the order of the sheet. *)
Theorem balance_lookup (w : World) (n : string) :
  n <> "" ->
  let found := filter (name_matches n) (get_player_balances w) in
  let answer := handle_balances w (JStr n) in
  (forall m, lower m = lower n ->
             filter (name_matches m) (get_player_balances w) = found)
  /\ (found = [] ->
      answer = Returned (lookup_heading ++ "Player '" ++ n ++ "' not found."))
  /\ (forall p : Player,
         found = [p] ->
         (forall m, m <> "" -> lower m = lower n ->
                    handle_balances w (JStr m) = answer)
         /\ ((0 <? balance p)%float = true ->
             answer = Returned (lookup_heading ++ name p ++ " owes $"
                                ++ Py.format_2f (balance p)))
         /\ ((balance p <? 0)%float = true ->
             exists amount,
               Py.format_2f (balance p) = "-" ++ amount
               /\ answer = Returned (lookup_heading ++ name p
                                     ++ " has credit of $" ++ amount))
         /\ ((balance p =? 0)%float = true ->
             answer = Returned (lookup_heading ++ name p ++ " is all paid up!"))
         /\ (Prim2SF (balance p) = S754_nan ->
             answer = Returned (lookup_heading ++ name p
                                ++ " is all paid up $nan")))
  /\ (forall (p q : Player) (rest : list Player),
         found = p :: q :: rest ->
         answer = Returned (lookup_heading ++ "Multiple matches for '" ++ n
                            ++ "':" ++ Py.nl
                            ++ String.concat "" (map balance_line found))).
Proof.
  intros Hn found answer.
  assert (Ha : answer = handle_balances w (JStr n)) by reflexivity.
  rewrite (handle_balances_named w n Hn) in Ha. fold found in Ha.
  split; [intros m Hm; now apply name_matches_case|].
  split; [intros Hf; now rewrite Hf in Ha|].
  split.
  - intros p Hf. rewrite Hf in Ha. split; [|split; [|split; [|split]]].
    + intros m Hm Hl. rewrite (handle_balances_named w m Hm).
      rewrite (name_matches_case m n _ Hl). fold found. rewrite Hf.
      now rewrite Ha.
    + intros Hpos. rewrite Ha, (owed_not_zero _ Hpos), Hpos.
      now rewrite (format_abs_owed _ Hpos).
    + intros Hneg. exists (Py.format_2f (abs (balance p))).
      split; [now apply format_abs_credit|].
      destruct (credit_not_owed _ Hneg) as [H0 Hz].
      now rewrite Ha, Hz, H0, Hneg.
    + intros Hz. destruct (zero_unsigned _ Hz) as [H0 H1].
      now rewrite Ha, Hz, H0, H1.
    + intros Hnan. destruct (nan_unordered _ Hnan) as [H0 [H1 [Hz Hf2]]].
      now rewrite Ha, Hz, H0, H1, Hf2.
  - intros p q rest Hf. rewrite Ha, Hf. reflexivity.
Qed.

Lemma balance_lookup_witness :
  handle_balances Samples.world_offline (JStr "ALI")
  = handle_balances Samples.world_offline (JStr "ali")
  /\ handle_balances Samples.world_offline (JStr "ali")
     = Returned (lookup_heading ++ "Alice owes $25.00").
Proof.
  destruct (balance_lookup Samples.world_offline "ali" ltac:(discriminate))
    as [_ [_ [H _]]].
  destruct (H {| name := "Alice"; balance := 25%float |} eq_refl)
    as [Hcase [Howes _]].
  split; [apply Hcase; [discriminate | reflexivity] | apply Howes; reflexivity].
Defined.

End Lookup.

(** ** The list of all balances *)

Module Listing.
Import PyStr Spec.

Lemma positive_nonzero (b : float) :
  (0 <? b)%float = true -> negb (b =? 0)%float = true.
Proof.
  rewrite eqb_spec, ltb_spec. change (Prim2SF 0) with (S754_zero false).
  destruct (Prim2SF b) as [[]|[]| |[] m e]; unfold SFeqb, SFltb, SFcompare;
    intros H; try discriminate H; reflexivity.
Qed.

Lemma owes_of_nonzero (l : list Player) :
  filter owes (filter nonzero l) = filter owes l.
Proof.
  induction l as [|p l IH]; cbn [filter]; [reflexivity|].
  unfold nonzero at 1, owes at 2.
  destruct (0 <? balance p)%float eqn:Hp.
  - rewrite (positive_nonzero _ Hp). cbn [filter]. unfold owes at 1.
    rewrite Hp. now rewrite IH.
  - destruct (negb (balance p =? 0)%float); cbn [filter]; [|exact IH].
    unfold owes at 1. now rewrite Hp.
Qed.

(** X16. The list of all balances, asked without a name, where every
    balance of the sheet is a number. Its lines are those of the players
    whose balance is not zero, each once and no other; every line stands
    before those of a smaller balance only, and the players of one balance
    keep the order of the sheet; the total adds the positive balances
    only, in the order of the lines. Every name that Python takes for
    false, such as the empty text, asks for this list. *)
Theorem all_balances_listing (w : World) :
  (forall j : json, Py.truthy j = false ->
                    handle_balances w j = handle_balances w JNull)
  /\ (forallb comparable (get_player_balances w) = true ->
      exists listed : list Player,
        Permutation listed (filter nonzero (get_player_balances w))
        /\ decreasing listed
        /\ Sorted not_below listed
        /\ (forall b, filter (same_balance b) listed
                      = filter (same_balance b)
                               (filter nonzero (get_player_balances w)))
        /\ (forall p, In p listed <->
                      In p (get_player_balances w)
                      /\ (balance p =? 0)%float = false)
        /\ handle_balances w JNull
           = Returned ("*SMAD Picklebot - All Balances*" ++ Py.nl ++ Py.nl
                       ++ String.concat "" (map balance_line listed)
                       ++ Py.nl ++ "*Total Outstanding: $"
                       ++ Py.format_2f
                            (sum_balances (map balance (filter owes listed)))
                       ++ "*")).
Proof.
  split.
  { intros j Hj. unfold handle_balances. now rewrite Hj. }
  intros Hc.
  pose proof (Ordering.sort_desc_perm w (get_player_balances w) Hc) as Hperm.
  pose proof (Ordering.sort_desc_decreasing w (get_player_balances w) Hc) as Hdec.
  exists (filter nonzero (sort_desc w (get_player_balances w))).
  assert (Hd : decreasing (filter nonzero (sort_desc w (get_player_balances w))))
    by now apply Ordering.decreasing_filter.
  split; [now apply Ordering.filter_perm|].
  split; [exact Hd|].
  split; [now apply Ordering.decreasing_not_below|].
  split.
  { intros b. rewrite Ordering.filter_comm, (Ordering.sort_desc_stable w _ b Hc).
    apply Ordering.filter_comm. }
  split.
  - intros p. rewrite filter_In. unfold nonzero. rewrite negb_true_iff.
    split; intros [Hin Hb]; (split; [|exact Hb]).
    + now apply (Permutation_in _ Hperm).
    + now apply (Permutation_in _ (Permutation_sym Hperm)).
  - rewrite owes_of_nonzero. reflexivity.
Qed.

Lemma all_balances_listing_witness :
  exists listed : list Player,
    decreasing listed
    /\ handle_balances Samples.world_offline JNull
       = Returned ("*SMAD Picklebot - All Balances*" ++ Py.nl ++ Py.nl
                   ++ String.concat "" (map balance_line listed)
                   ++ Py.nl ++ "*Total Outstanding: $"
                   ++ Py.format_2f
                        (sum_balances (map balance (filter owes listed)))
                   ++ "*").
Proof.
  destruct (proj2 (all_balances_listing Samples.world_offline) eq_refl)
    as [listed [_ [Hdec [_ [_ [_ H]]]]]].
  exists listed. split; assumption.
Defined.

End Listing.

(** ** The status report *)

Module Status.
Import Spec.

(** X17. The status report shows of the settings only whether each of the
    four it names is set: two deployments that agree on the time and on
    which of the gateway instance, the model key, the GitHub token and the
    sheet id are empty give the same report, whatever the values, the
    gateway token, the admin group and the collaborators are. *)
Theorem status_shows_presence_only (w w' : World) :
  now_timestamp w = now_timestamp w' ->
  (GREENAPI_INSTANCE_ID w =? "") = (GREENAPI_INSTANCE_ID w' =? "") ->
  (ANTHROPIC_API_KEY w =? "") = (ANTHROPIC_API_KEY w' =? "") ->
  (GITHUB_TOKEN w =? "") = (GITHUB_TOKEN w' =? "") ->
  (SPREADSHEET_ID w =? "") = (SPREADSHEET_ID w' =? "") ->
  handle_status w = handle_status w'.
Proof.
  intros Ht Hg Ha Hh Hs. unfold handle_status, configured.
  now rewrite Ht, Hg, Ha, Hh, Hs.
Qed.

Lemma status_shows_presence_only_witness :
  handle_status Samples.world_offline = handle_status Samples.world_other_settings.
Proof.
  apply (status_shows_presence_only Samples.world_offline
           Samples.world_other_settings); reflexivity.
Defined.

End Status.
